(** * Progress dashboard: selection state, per-student aggregation,
      aggregate resolution and display projection.

    Shallow embedding of the state-handling core of [src/src/App.tsx]
    (the handlers [handleSchoolSelection], [handleCohortSelection],
    [handleStudentSelection], the four curriculum handlers, and the memoised
    values [perStudentAggregates], [calculatedStudentMetrics] and
    [currentAggregate]) and of the percentage computation of the
    [ProgressChart] component.

    JavaScript values are modelled as follows.
    - An id of type [number | null] is an [option Z]; the test [if (id)]
      is [truthy_id]: the id is present and is not [0].
    - A nullable text field is an [option string]; the test [if (s)] is
      [truthy_str]: present and not the empty string.
    - Arrays are lists; [Array.prototype.find] is [List.find], [arr[0]] is
      [hd_error].
    - A [Map] is an association list in insertion order.
    - Arithmetic on counts that stays inside the integers is done in [Z];
      the one place where the code divides, the percentage computation, is
      evaluated in IEEE-754 binary64 through [SpecFloat]. *)

From Stdlib Require Import ZArith List String Ascii Bool Lia.
From Stdlib Require Import Floats.SpecFloat.
From Stdlib Require Import DecimalString DecimalZ DecimalPos.
Import ListNotations.

Open Scope string_scope.
Open Scope Z_scope.

(** ** JavaScript value conventions *)

Module Js.

(** [if (id)] on a [number | null]. *)
Definition truthy_id (o : option Z) : bool :=
  match o with
  | Some n => negb (n =? 0)
  | None => false
  end.

(** [if (s)] on a nullable string. *)
Definition truthy_str (o : option string) : bool :=
  match o with
  | Some s => negb (s =? "")%string
  | None => false
  end.

(** [field === id] between a row field and a selected id; every use is
    guarded by [if (id)], so the selected id is a number there. *)
Definition strict_eq (field sel : option Z) : bool :=
  match field, sel with
  | Some a, Some b => a =? b
  | _, _ => false
  end.

(** [x || 0] on a numeric field. *)
Definition or_zero (o : option Z) : Z :=
  match o with
  | Some n => n
  | None => 0
  end.

(** [s || dflt] on a nullable string. *)
Definition or_str (o : option string) (dflt : string) : string :=
  match o with
  | Some s => if (s =? "")%string then dflt else s
  | None => dflt
  end.

(** Interpolation [`${n}`] of an integer. *)
Definition show_Z (n : Z) : string := NilZero.string_of_int (Z.to_int n).

(** Interpolation [`${s}`] of a nullable string ([None] is [null]). *)
Definition show_str (o : option string) : string :=
  match o with
  | Some s => s
  | None => "null"
  end.

(** [arr.length] as a JavaScript number. *)
Definition length_Z {A} (l : list A) : Z := Z.of_nat (List.length l).

End Js.

Notation "st |> f" := (f st) (at level 50, left associativity, only parsing).

(** ** Data model *)

(** One raw lesson row of the selected student. *)
Record Lesson := {
  lesson_id : Z;
  lesson_name : option string;
  l_chapter_id : Z;
  l_chapter_name : option string;
  l_course_id : Z;
  l_course_name : option string;
  l_collection_id : Z;
  l_collection_name : option string;
  l_curriculum_id : Z;
  l_curriculum_name : option string;
  is_required : bool;
  completion_date : option string;
  engagement_date : option string
}.

(** One row of an aggregate table.  The interfaces [SchoolAggregate],
    [CurriculumAggregate], [CollectionAggregate], [CourseAggregate] and
    [ChapterAggregate] of [./types] type the school-scoped tables; the
    cohort-scoped tables are [any[]].  The resolver reads the rows of all of
    them through the same expressions ([agg.chapter_id === ...],
    [aggregateData.total_lessons_expected || 0], [aggregateData.school_name]),
    so one record stands for them: it holds the fields that the code reads,
    and [None] is a field that the row lacks or that holds [null]. *)
Record AggregateRow := {
  school_name : option string;
  cohort_id : option Z;
  cohort_name : option string;
  curriculum_id : option Z;
  curriculum_name : option string;
  collection_id : option Z;
  collection_name : option string;
  course_id : option Z;
  course_name : option string;
  chapter_id : option Z;
  chapter_name : option string;
  total_lessons_expected : option Z;
  total_lessons_completed : option Z;
  required_lessons_expected : option Z;
  required_lessons_completed : option Z
}.

(** A per-student aggregate row, as used to fill the student selector. *)
Record StudentAggregate := {
  student_id : Z;
  sa_student_email : option string;
  sa_student_first : option string;
  sa_student_last : option string;
  sa_school_id : Z;
  sa_cohort_id : option Z
}.

Record Student := {
  id : Z;
  student_email : string;
  student_first : string;
  student_last : string;
  school_id : Z
}.

Record Cohort := { cohort_key : Z; cohort_label : string }.

Record FacultyUser := { user_id : Z; role : string }.

(** The uniform four-numbers-and-title shape handed to the chart. *)
Record Metrics := {
  totalLessons : Z;
  totalCompleted : Z;
  requiredLessons : Z;
  requiredCompleted : Z;
  title : string
}.

(** *** Application state

    The [useState] cells of [AppContent], grouped as the source groups
    them. *)

Record Entity := {
  selectedSchoolId : option Z;
  selectedCohortId : option Z;
  selectedStudentId : option Z;
  individualStudentData : option (list Lesson)
}.

Record Filters := {
  selectedCurriculumId : option Z;
  selectedCollectionId : option Z;
  selectedCourseId : option Z;
  selectedChapterId : option Z
}.

Record SchoolTables := {
  schoolAggregates : list AggregateRow;
  curriculumAggregates : list AggregateRow;
  collectionAggregates : list AggregateRow;
  courseAggregates : list AggregateRow;
  chapterAggregates : list AggregateRow;
  studentAggregates : list StudentAggregate;
  studentsForSelector : list Student;
  cohorts : list Cohort
}.

Record CohortTables := {
  cohortAggregates : list AggregateRow;
  cohortCurriculumAggregates : list AggregateRow;
  cohortCollectionAggregates : list AggregateRow;
  cohortCourseAggregates : list AggregateRow;
  cohortChapterAggregates : list AggregateRow;
  cohortStudentAggregates : list StudentAggregate
}.

Record Status := {
  loading : bool;
  studentLoading : bool;
  error : option string
}.

Record AppState := {
  currentUser : option FacultyUser;
  entity : Entity;
  filters : Filters;
  school_tables : SchoolTables;
  cohort_tables : CohortTables;
  status : Status
}.

(** *** State setters

    One function per [useState] setter.  Each rebuilds the group the cell
    lives in and leaves every other cell as it was. *)

Definition with_entity (g : Entity) (st : AppState) : AppState :=
  {| currentUser := currentUser st; entity := g; filters := filters st;
     school_tables := school_tables st; cohort_tables := cohort_tables st;
     status := status st |}.

Definition with_filters (g : Filters) (st : AppState) : AppState :=
  {| currentUser := currentUser st; entity := entity st; filters := g;
     school_tables := school_tables st; cohort_tables := cohort_tables st;
     status := status st |}.

Definition with_school_tables (g : SchoolTables) (st : AppState) : AppState :=
  {| currentUser := currentUser st; entity := entity st;
     filters := filters st; school_tables := g;
     cohort_tables := cohort_tables st; status := status st |}.

Definition with_cohort_tables (g : CohortTables) (st : AppState) : AppState :=
  {| currentUser := currentUser st; entity := entity st;
     filters := filters st; school_tables := school_tables st;
     cohort_tables := g; status := status st |}.

Definition with_status (g : Status) (st : AppState) : AppState :=
  {| currentUser := currentUser st; entity := entity st;
     filters := filters st; school_tables := school_tables st;
     cohort_tables := cohort_tables st; status := g |}.

Definition setSelectedSchoolId v (st : AppState) : AppState :=
  st |> with_entity
    {| selectedSchoolId := v;
       selectedCohortId := selectedCohortId (entity st);
       selectedStudentId := selectedStudentId (entity st);
       individualStudentData := individualStudentData (entity st) |}.

Definition setSelectedCohortId v (st : AppState) : AppState :=
  st |> with_entity
    {| selectedSchoolId := selectedSchoolId (entity st);
       selectedCohortId := v;
       selectedStudentId := selectedStudentId (entity st);
       individualStudentData := individualStudentData (entity st) |}.

Definition setSelectedStudentId v (st : AppState) : AppState :=
  st |> with_entity
    {| selectedSchoolId := selectedSchoolId (entity st);
       selectedCohortId := selectedCohortId (entity st);
       selectedStudentId := v;
       individualStudentData := individualStudentData (entity st) |}.

Definition setIndividualStudentData v (st : AppState) : AppState :=
  st |> with_entity
    {| selectedSchoolId := selectedSchoolId (entity st);
       selectedCohortId := selectedCohortId (entity st);
       selectedStudentId := selectedStudentId (entity st);
       individualStudentData := v |}.

Definition setSelectedCurriculumId v (st : AppState) : AppState :=
  st |> with_filters
    {| selectedCurriculumId := v;
       selectedCollectionId := selectedCollectionId (filters st);
       selectedCourseId := selectedCourseId (filters st);
       selectedChapterId := selectedChapterId (filters st) |}.

Definition setSelectedCollectionId v (st : AppState) : AppState :=
  st |> with_filters
    {| selectedCurriculumId := selectedCurriculumId (filters st);
       selectedCollectionId := v;
       selectedCourseId := selectedCourseId (filters st);
       selectedChapterId := selectedChapterId (filters st) |}.

Definition setSelectedCourseId v (st : AppState) : AppState :=
  st |> with_filters
    {| selectedCurriculumId := selectedCurriculumId (filters st);
       selectedCollectionId := selectedCollectionId (filters st);
       selectedCourseId := v;
       selectedChapterId := selectedChapterId (filters st) |}.

Definition setSelectedChapterId v (st : AppState) : AppState :=
  st |> with_filters
    {| selectedCurriculumId := selectedCurriculumId (filters st);
       selectedCollectionId := selectedCollectionId (filters st);
       selectedCourseId := selectedCourseId (filters st);
       selectedChapterId := v |}.

Definition setSchoolAggregates v (st : AppState) : AppState :=
  st |> with_school_tables
    {| schoolAggregates := v;
       curriculumAggregates := curriculumAggregates (school_tables st);
       collectionAggregates := collectionAggregates (school_tables st);
       courseAggregates := courseAggregates (school_tables st);
       chapterAggregates := chapterAggregates (school_tables st);
       studentAggregates := studentAggregates (school_tables st);
       studentsForSelector := studentsForSelector (school_tables st);
       cohorts := cohorts (school_tables st) |}.

Definition setCurriculumAggregates v (st : AppState) : AppState :=
  st |> with_school_tables
    {| schoolAggregates := schoolAggregates (school_tables st);
       curriculumAggregates := v;
       collectionAggregates := collectionAggregates (school_tables st);
       courseAggregates := courseAggregates (school_tables st);
       chapterAggregates := chapterAggregates (school_tables st);
       studentAggregates := studentAggregates (school_tables st);
       studentsForSelector := studentsForSelector (school_tables st);
       cohorts := cohorts (school_tables st) |}.

Definition setCollectionAggregates v (st : AppState) : AppState :=
  st |> with_school_tables
    {| schoolAggregates := schoolAggregates (school_tables st);
       curriculumAggregates := curriculumAggregates (school_tables st);
       collectionAggregates := v;
       courseAggregates := courseAggregates (school_tables st);
       chapterAggregates := chapterAggregates (school_tables st);
       studentAggregates := studentAggregates (school_tables st);
       studentsForSelector := studentsForSelector (school_tables st);
       cohorts := cohorts (school_tables st) |}.

Definition setCourseAggregates v (st : AppState) : AppState :=
  st |> with_school_tables
    {| schoolAggregates := schoolAggregates (school_tables st);
       curriculumAggregates := curriculumAggregates (school_tables st);
       collectionAggregates := collectionAggregates (school_tables st);
       courseAggregates := v;
       chapterAggregates := chapterAggregates (school_tables st);
       studentAggregates := studentAggregates (school_tables st);
       studentsForSelector := studentsForSelector (school_tables st);
       cohorts := cohorts (school_tables st) |}.

Definition setChapterAggregates v (st : AppState) : AppState :=
  st |> with_school_tables
    {| schoolAggregates := schoolAggregates (school_tables st);
       curriculumAggregates := curriculumAggregates (school_tables st);
       collectionAggregates := collectionAggregates (school_tables st);
       courseAggregates := courseAggregates (school_tables st);
       chapterAggregates := v;
       studentAggregates := studentAggregates (school_tables st);
       studentsForSelector := studentsForSelector (school_tables st);
       cohorts := cohorts (school_tables st) |}.

Definition setStudentAggregates v (st : AppState) : AppState :=
  st |> with_school_tables
    {| schoolAggregates := schoolAggregates (school_tables st);
       curriculumAggregates := curriculumAggregates (school_tables st);
       collectionAggregates := collectionAggregates (school_tables st);
       courseAggregates := courseAggregates (school_tables st);
       chapterAggregates := chapterAggregates (school_tables st);
       studentAggregates := v;
       studentsForSelector := studentsForSelector (school_tables st);
       cohorts := cohorts (school_tables st) |}.

Definition setStudentsForSelector v (st : AppState) : AppState :=
  st |> with_school_tables
    {| schoolAggregates := schoolAggregates (school_tables st);
       curriculumAggregates := curriculumAggregates (school_tables st);
       collectionAggregates := collectionAggregates (school_tables st);
       courseAggregates := courseAggregates (school_tables st);
       chapterAggregates := chapterAggregates (school_tables st);
       studentAggregates := studentAggregates (school_tables st);
       studentsForSelector := v; cohorts := cohorts (school_tables st) |}.

Definition setCohorts v (st : AppState) : AppState :=
  st |> with_school_tables
    {| schoolAggregates := schoolAggregates (school_tables st);
       curriculumAggregates := curriculumAggregates (school_tables st);
       collectionAggregates := collectionAggregates (school_tables st);
       courseAggregates := courseAggregates (school_tables st);
       chapterAggregates := chapterAggregates (school_tables st);
       studentAggregates := studentAggregates (school_tables st);
       studentsForSelector := studentsForSelector (school_tables st);
       cohorts := v |}.

Definition setCohortAggregates v (st : AppState) : AppState :=
  st |> with_cohort_tables
    {| cohortAggregates := v;
       cohortCurriculumAggregates := cohortCurriculumAggregates (cohort_tables st);
       cohortCollectionAggregates := cohortCollectionAggregates (cohort_tables st);
       cohortCourseAggregates := cohortCourseAggregates (cohort_tables st);
       cohortChapterAggregates := cohortChapterAggregates (cohort_tables st);
       cohortStudentAggregates := cohortStudentAggregates (cohort_tables st) |}.

Definition setCohortCurriculumAggregates v (st : AppState) : AppState :=
  st |> with_cohort_tables
    {| cohortAggregates := cohortAggregates (cohort_tables st);
       cohortCurriculumAggregates := v;
       cohortCollectionAggregates := cohortCollectionAggregates (cohort_tables st);
       cohortCourseAggregates := cohortCourseAggregates (cohort_tables st);
       cohortChapterAggregates := cohortChapterAggregates (cohort_tables st);
       cohortStudentAggregates := cohortStudentAggregates (cohort_tables st) |}.

Definition setCohortCollectionAggregates v (st : AppState) : AppState :=
  st |> with_cohort_tables
    {| cohortAggregates := cohortAggregates (cohort_tables st);
       cohortCurriculumAggregates := cohortCurriculumAggregates (cohort_tables st);
       cohortCollectionAggregates := v;
       cohortCourseAggregates := cohortCourseAggregates (cohort_tables st);
       cohortChapterAggregates := cohortChapterAggregates (cohort_tables st);
       cohortStudentAggregates := cohortStudentAggregates (cohort_tables st) |}.

Definition setCohortCourseAggregates v (st : AppState) : AppState :=
  st |> with_cohort_tables
    {| cohortAggregates := cohortAggregates (cohort_tables st);
       cohortCurriculumAggregates := cohortCurriculumAggregates (cohort_tables st);
       cohortCollectionAggregates := cohortCollectionAggregates (cohort_tables st);
       cohortCourseAggregates := v;
       cohortChapterAggregates := cohortChapterAggregates (cohort_tables st);
       cohortStudentAggregates := cohortStudentAggregates (cohort_tables st) |}.

Definition setCohortChapterAggregates v (st : AppState) : AppState :=
  st |> with_cohort_tables
    {| cohortAggregates := cohortAggregates (cohort_tables st);
       cohortCurriculumAggregates := cohortCurriculumAggregates (cohort_tables st);
       cohortCollectionAggregates := cohortCollectionAggregates (cohort_tables st);
       cohortCourseAggregates := cohortCourseAggregates (cohort_tables st);
       cohortChapterAggregates := v;
       cohortStudentAggregates := cohortStudentAggregates (cohort_tables st) |}.

Definition setCohortStudentAggregates v (st : AppState) : AppState :=
  st |> with_cohort_tables
    {| cohortAggregates := cohortAggregates (cohort_tables st);
       cohortCurriculumAggregates := cohortCurriculumAggregates (cohort_tables st);
       cohortCollectionAggregates := cohortCollectionAggregates (cohort_tables st);
       cohortCourseAggregates := cohortCourseAggregates (cohort_tables st);
       cohortChapterAggregates := cohortChapterAggregates (cohort_tables st);
       cohortStudentAggregates := v |}.

Definition setLoading v (st : AppState) : AppState :=
  st |> with_status
    {| loading := v; studentLoading := studentLoading (status st);
       error := error (status st) |}.

Definition setStudentLoading v (st : AppState) : AppState :=
  st |> with_status
    {| loading := loading (status st); studentLoading := v;
       error := error (status st) |}.

Definition setError v (st : AppState) : AppState :=
  st |> with_status
    {| loading := loading (status st);
       studentLoading := studentLoading (status st); error := v |}.

(** ** Per-student aggregator *)

(** *** A JavaScript [Map] with string keys

    Entries are kept in insertion order, which is the order in which
    [Array.from(map.values())] lists them. *)

Module JsMap.
Section Ops.
Context {V : Type}.

Definition t := list (string * V).

Definition empty : t := [].

Fixpoint get (k : string) (m : t) : option V :=
  match m with
  | [] => None
  | (k', v) :: rest => if (k' =? k)%string then Some v else get k rest
  end.

Definition has (k : string) (m : t) : bool :=
  match get k m with
  | Some _ => true
  | None => false
  end.

(** [map.set(k, v)]: overwrites in place when the key is present, appends
    otherwise. *)
Fixpoint set (k : string) (v : V) (m : t) : t :=
  match m with
  | [] => [(k, v)]
  | (k', v') :: rest =>
      if (k' =? k)%string then (k', v) :: rest else (k', v') :: set k v rest
  end.

(** In-place mutation of the object stored under [k]. *)
Fixpoint update (k : string) (f : V -> V) (m : t) : t :=
  match m with
  | [] => []
  | (k', v') :: rest =>
      if (k' =? k)%string then (k', f v') :: rest
      else (k', v') :: update k f rest
  end.

Definition keys (m : t) : list string := map fst m.
Definition values (m : t) : list V := map snd m.
End Ops.
Arguments t : clear implicits.
End JsMap.

(** One entry of a grouping aggregate: the id and name of the group, the
    number of lessons in it and the number of those completed. *)
Record GroupEntry := {
  group_id : Z;
  group_name : option string;
  total_lessons : Z;
  completed_lessons : Z
}.

(** The three hierarchy levels the aggregator groups by. *)
Inductive Level := Collection | Course | Chapter.

Definition level_id (lv : Level) (lesson : Lesson) : Z :=
  match lv with
  | Collection => l_collection_id lesson
  | Course => l_course_id lesson
  | Chapter => l_chapter_id lesson
  end.

Definition level_name (lv : Level) (lesson : Lesson) : option string :=
  match lv with
  | Collection => l_collection_name lesson
  | Course => l_course_name lesson
  | Chapter => l_chapter_name lesson
  end.

(** [`${lesson.collection_id}-${lesson.collection_name}`] and its siblings. *)
Definition level_key (lv : Level) (lesson : Lesson) : string :=
  Js.show_Z (level_id lv lesson) ++ "-" ++ Js.show_str (level_name lv lesson).

(** [entry.total_lessons++; if (lesson.completion_date) entry.completed_lessons++]. *)
Definition count_lesson (lesson : Lesson) (e : GroupEntry) : GroupEntry :=
  {| group_id := group_id e;
     group_name := group_name e;
     total_lessons := total_lessons e + 1;
     completed_lessons :=
       if Js.truthy_str (completion_date lesson)
       then completed_lessons e + 1 else completed_lessons e |}.

(** One level of the body of the [forEach]. *)
Definition aggregate_level (lv : Level) (lesson : Lesson)
    (m : JsMap.t GroupEntry) : JsMap.t GroupEntry :=
  let key := level_key lv lesson in
  let m :=
    if negb (JsMap.has key m)
    then JsMap.set key
           {| group_id := level_id lv lesson;
              group_name := level_name lv lesson;
              total_lessons := 0;
              completed_lessons := 0 |} m
    else m in
  JsMap.update key (count_lesson lesson) m.

Record GroupMaps := {
  collectionMap : JsMap.t GroupEntry;
  courseMap : JsMap.t GroupEntry;
  chapterMap : JsMap.t GroupEntry
}.

(** The whole body of the [forEach]: the three maps advance together. *)
Definition aggregate_lesson (maps : GroupMaps) (lesson : Lesson) : GroupMaps :=
  {| collectionMap := aggregate_level Collection lesson (collectionMap maps);
     courseMap := aggregate_level Course lesson (courseMap maps);
     chapterMap := aggregate_level Chapter lesson (chapterMap maps) |}.

Record StudentAggregates := {
  ps_collectionAggregates : list GroupEntry;
  ps_courseAggregates : list GroupEntry;
  ps_chapterAggregates : list GroupEntry
}.

(** [perStudentAggregates]: reads the selected student and the lesson rows,
    and nothing else. *)
Definition perStudentAggregates (st : AppState) : StudentAggregates :=
  match individualStudentData (entity st) with
  | Some data =>
      if Js.truthy_id (selectedStudentId (entity st)) then
        let maps :=
          fold_left aggregate_lesson data
            {| collectionMap := JsMap.empty;
               courseMap := JsMap.empty;
               chapterMap := JsMap.empty |} in
        {| ps_collectionAggregates := JsMap.values (collectionMap maps);
           ps_courseAggregates := JsMap.values (courseMap maps);
           ps_chapterAggregates := JsMap.values (chapterMap maps) |}
      else
        {| ps_collectionAggregates := [];
           ps_courseAggregates := [];
           ps_chapterAggregates := [] |}
  | None =>
      {| ps_collectionAggregates := [];
         ps_courseAggregates := [];
         ps_chapterAggregates := [] |}
  end.

(** *** Filtered metrics *)

(** The [let filteredData] of [calculatedStudentMetrics]: at most one filter,
    the most specific one whose id passes [if (id)]. *)
Definition filteredData (f : Filters) (data : list Lesson) : list Lesson :=
  if Js.truthy_id (selectedChapterId f) then
    filter (fun lesson =>
      Js.strict_eq (Some (l_chapter_id lesson)) (selectedChapterId f)) data
  else if Js.truthy_id (selectedCourseId f) then
    filter (fun lesson =>
      Js.strict_eq (Some (l_course_id lesson)) (selectedCourseId f)) data
  else if Js.truthy_id (selectedCollectionId f) then
    filter (fun lesson =>
      Js.strict_eq (Some (l_collection_id lesson)) (selectedCollectionId f)) data
  else if Js.truthy_id (selectedCurriculumId f) then
    filter (fun lesson =>
      Js.strict_eq (Some (l_curriculum_id lesson)) (selectedCurriculumId f)) data
  else data.

(** [first?.name || dflt] on the first row of the filtered data. *)
Definition first_name_or (name : Lesson -> option string) (dflt : string)
    (rows : list Lesson) : string :=
  match hd_error rows with
  | Some first => Js.or_str (name first) dflt
  | None => dflt
  end.

Definition studentTitle (f : Filters) (rows : list Lesson) : string :=
  if Js.truthy_id (selectedChapterId f) then
    "Student: " ++ first_name_or l_chapter_name "Chapter" rows
  else if Js.truthy_id (selectedCourseId f) then
    "Student: " ++ first_name_or l_course_name "Course" rows
  else if Js.truthy_id (selectedCollectionId f) then
    "Student: " ++ first_name_or l_collection_name "Collection" rows
  else if Js.truthy_id (selectedCurriculumId f) then
    "Student: " ++ first_name_or l_curriculum_name "Curriculum" rows
  else "Student Progress".

Definition completed (lesson : Lesson) : bool :=
  Js.truthy_str (completion_date lesson).

(** The metrics computed from an already filtered list of rows. *)
Definition metricsOf (f : Filters) (rows : list Lesson) : Metrics :=
  {| totalLessons := Js.length_Z rows;
     totalCompleted := Js.length_Z (filter completed rows);
     requiredLessons := Js.length_Z (filter is_required rows);
     requiredCompleted :=
       Js.length_Z (filter (fun l => is_required l && completed l) rows);
     title := studentTitle f rows |}.

(** [calculatedStudentMetrics]: [null] unless a student is selected and the
    lesson rows are there. *)
Definition calculatedStudentMetrics (st : AppState) : option Metrics :=
  match individualStudentData (entity st) with
  | Some data =>
      if Js.truthy_id (selectedStudentId (entity st))
      then Some (metricsOf (filters st) (filteredData (filters st) data))
      else None
  | None => None
  end.

(** ** Aggregate resolver *)

(** [selectedCohortId && cohortAggregates.length > 0]. *)
Definition useCohortData (st : AppState) : bool :=
  Js.truthy_id (selectedCohortId (entity st))
  && (0 <? Js.length_Z (cohortAggregates (cohort_tables st))).

(** The row looked up at one filter level, with its title. *)
Definition lookup_level (st : AppState) (field : AggregateRow -> option Z)
    (name : AggregateRow -> option string) (label : string)
    (sel : option Z) (cohortTable schoolTable : list AggregateRow)
    : option (AggregateRow * string) :=
  let data :=
    if useCohortData st
    then find (fun c => Js.strict_eq (field c) sel) cohortTable
    else find (fun c => Js.strict_eq (field c) sel) schoolTable in
  match data with
  | Some data => Some (data, label ++ Js.show_str (name data))
  | None => None
  end.

(** The pair [aggregateData], [title] after the chain of [if]s; [None] is
    [aggregateData === null]. *)
Definition aggregateData (st : AppState) : option (AggregateRow * string) :=
  let f := filters st in
  let s := school_tables st in
  let c := cohort_tables st in
  if Js.truthy_id (selectedChapterId f) then
    lookup_level st chapter_id chapter_name "Chapter: " (selectedChapterId f)
      (cohortChapterAggregates c) (chapterAggregates s)
  else if Js.truthy_id (selectedCourseId f) then
    lookup_level st course_id course_name "Course: " (selectedCourseId f)
      (cohortCourseAggregates c) (courseAggregates s)
  else if Js.truthy_id (selectedCollectionId f) then
    lookup_level st collection_id collection_name "Collection: "
      (selectedCollectionId f)
      (cohortCollectionAggregates c) (collectionAggregates s)
  else if Js.truthy_id (selectedCurriculumId f) then
    lookup_level st curriculum_id curriculum_name "Curriculum: "
      (selectedCurriculumId f)
      (cohortCurriculumAggregates c) (curriculumAggregates s)
  else
    let data :=
      if useCohortData st
      then find (fun agg =>
             Js.strict_eq (cohort_id agg) (selectedCohortId (entity st)))
             (cohortAggregates c)
      else hd_error (schoolAggregates s) in
    match data with
    | Some data =>
        Some (data,
              if useCohortData st
              then "Cohort: " ++ Js.show_str (cohort_name data)
              else "School: " ++ Js.show_str (school_name data))
    | None => None
    end.

(** The renaming of a found row into the chart's shape. *)
Definition formatAggregate (data : AggregateRow) (title : string) : Metrics :=
  {| totalLessons := Js.or_zero (total_lessons_expected data);
     totalCompleted := Js.or_zero (total_lessons_completed data);
     requiredLessons := Js.or_zero (required_lessons_expected data);
     requiredCompleted := Js.or_zero (required_lessons_completed data);
     title := title |}.

(** [currentAggregate]: the student's metrics when a student is selected and
    they exist, else the row of the most specific level, else [null]. *)
Definition currentAggregate (st : AppState) : option Metrics :=
  match Js.truthy_id (selectedStudentId (entity st)),
        calculatedStudentMetrics st with
  | true, Some metrics => Some metrics
  | _, _ =>
      match aggregateData st with
      | Some (data, title) => Some (formatAggregate data title)
      | None => None
      end
  end.

(** ** Display projection *)

Module Number.

(** A JavaScript number is an IEEE-754 binary64 value. *)
Definition prec : Z := 53.
Definition emax : Z := 1024.

Definition of_Z (n : Z) : spec_float := binary_normalize prec emax n 0 false.
Definition div (x y : spec_float) : spec_float := SFdiv prec emax x y.
Definition mul (x y : spec_float) : spec_float := SFmul prec emax x y.

(** [Math.round]: the nearest integer, ties towards plus infinity; [NaN],
    the infinities, the zeros and the integers are returned as they are. *)
Definition round (x : spec_float) : spec_float :=
  match x with
  | S754_finite s m e =>
      if 0 <=? e then x
      else
        let n := (2 * cond_Zopp s (Zpos m) + 2 ^ (- e)) / 2 ^ (1 - e) in
        match n with
        | 0 => S754_zero s
        | _ => of_Z n
        end
  | _ => x
  end.

Definition is_nan (x : spec_float) : bool :=
  match x with
  | S754_nan => true
  | _ => false
  end.

End Number.

(** [calculatedStudentMetrics || currentAggregate || { zeros }]. *)
Definition displayData (st : AppState) : Metrics :=
  match calculatedStudentMetrics st with
  | Some metrics => metrics
  | None =>
      match currentAggregate st with
      | Some metrics => metrics
      | None =>
          {| totalLessons := 0;
             totalCompleted := 0;
             requiredLessons := 0;
             requiredCompleted := 0;
             title := "No Data Available" |}
      end
  end.

(** [den > 0 ? Math.round((num / den) * 100) : 0]. *)
Definition percentage (num den : Z) : spec_float :=
  if 0 <? den
  then Number.round
         (Number.mul (Number.div (Number.of_Z num) (Number.of_Z den))
                     (Number.of_Z 100))
  else Number.of_Z 0.

Definition totalPercentage (d : Metrics) : spec_float :=
  percentage (totalCompleted d) (totalLessons d).

Definition requiredPercentage (d : Metrics) : spec_float :=
  percentage (requiredCompleted d) (requiredLessons d).

(** ** Selection handlers *)

(** The outcome of an awaited request: the value it resolves to, or the
    message of the error it rejects with. *)
Inductive Response (A : Type) :=
  | Resolved (value : A)
  | Rejected (message : string).
Arguments Resolved {A} value.
Arguments Rejected {A} message.

(** The body of the response of [/api/school-aggregates]; a key that the
    response lacks is [None]. *)
Record SchoolBundle := {
  schoolAggregate : option (list AggregateRow);
  curriculumAggregate : option (list AggregateRow);
  schoolCollectionAggregate : option (list AggregateRow);
  schoolCourseAggregate : option (list AggregateRow);
  schoolChapterAggregate : option (list AggregateRow);
  studentAggregate : option (list StudentAggregate);
  schoolStudentAggregate : option (list StudentAggregate);
  cohortAggregate : option (list AggregateRow);
  cohortCurriculumAggregate : option (list AggregateRow);
  cohortCollectionAggregate : option (list AggregateRow);
  cohortCourseAggregate : option (list AggregateRow);
  cohortChapterAggregate : option (list AggregateRow);
  cohortStudentAggregate : option (list StudentAggregate)
}.

(** What the collaborators answer: the access check of [AuthService] and the
    fetches of [ApiService].  [cohortsRejectFirst] is the order of arrival
    that [Promise.all] depends on: when both requests of a school are
    rejected, whether the cohorts request is rejected before the aggregates
    request. *)
Record Backend := {
  canAccessSchool : Z -> bool;
  getAggregatedDataForSchool : Z -> Response SchoolBundle;
  getCohorts : Z -> Response (option (list Cohort));
  cohortsRejectFirst : Z -> bool;
  getIndividualStudentData : Z -> Response (list Lesson)
}.

(** [x || []]. *)
Definition or_nil {A} (o : option (list A)) : list A :=
  match o with
  | Some l => l
  | None => []
  end.

(** [s || ''] on a nullable string. *)
Definition or_empty (o : option string) : string :=
  match o with
  | Some s => s
  | None => ""
  end.

Definition toStudent (studentAgg : StudentAggregate) : Student :=
  {| id := student_id studentAgg;
     student_email := or_empty (sa_student_email studentAgg);
     student_first := or_empty (sa_student_first studentAgg);
     student_last := or_empty (sa_student_last studentAgg);
     school_id := sa_school_id studentAgg |}.

(** *** [handleSchoolSelection] *)

(** The branch [if (!schoolId)]. *)
Definition schoolDeselected (st : AppState) : AppState :=
  st |> setSelectedSchoolId None
     |> setSelectedCohortId None
     |> setCohorts []
     |> setSchoolAggregates []
     |> setCurriculumAggregates []
     |> setCollectionAggregates []
     |> setCourseAggregates []
     |> setChapterAggregates []
     |> setStudentAggregates []
     |> setStudentsForSelector []
     |> setSelectedStudentId None
     |> setIndividualStudentData None.

(** The condition of the permission check:
    [currentUser && !(currentUser.role === 'supaadmin')
       && !(await authService.canAccessSchool(schoolId))]. *)
Definition accessDenied (b : Backend) (st : AppState) (schoolId : Z) : bool :=
  match currentUser st with
  | Some user =>
      negb (role user =? "supaadmin")%string
      && negb (canAccessSchool b schoolId)
  | None => false
  end.

Definition permissionError : string :=
  "You do not have permission to access this school".

(** The first [try] block: the synchronous part of a granted selection. *)
Definition schoolApplied (schoolId : Z) (st : AppState) : AppState :=
  st |> setLoading true
     |> setError None
     |> setSelectedCohortId None
     |> setSelectedStudentId None
     |> setIndividualStudentData None
     |> setSelectedSchoolId (Some schoolId).

(** The second [try] block once [Promise.all] has resolved. *)
Definition schoolLoaded (millenniumFalcon : SchoolBundle)
    (cohortsData : option (list Cohort)) (st : AppState) : AppState :=
  st |> setSchoolAggregates (or_nil (schoolAggregate millenniumFalcon))
     |> setCurriculumAggregates (or_nil (curriculumAggregate millenniumFalcon))
     |> setCollectionAggregates
          (or_nil (schoolCollectionAggregate millenniumFalcon))
     |> setCourseAggregates (or_nil (schoolCourseAggregate millenniumFalcon))
     |> setChapterAggregates (or_nil (schoolChapterAggregate millenniumFalcon))
     |> setStudentAggregates (or_nil (studentAggregate millenniumFalcon))
     |> setCohorts (or_nil cohortsData)
     |> setCohortAggregates (or_nil (cohortAggregate millenniumFalcon))
     |> setCohortCurriculumAggregates
          (or_nil (cohortCurriculumAggregate millenniumFalcon))
     |> setCohortCollectionAggregates
          (or_nil (cohortCollectionAggregate millenniumFalcon))
     |> setCohortCourseAggregates
          (or_nil (cohortCourseAggregate millenniumFalcon))
     |> setCohortChapterAggregates
          (or_nil (cohortChapterAggregate millenniumFalcon))
     |> setCohortStudentAggregates
          (or_nil (cohortStudentAggregate millenniumFalcon))
     |> setStudentsForSelector
          (map toStudent (or_nil (schoolStudentAggregate millenniumFalcon))).

(** Its [catch]. *)
Definition schoolLoadFailed (message : string) (st : AppState) : AppState :=
  st |> setError (Some ("Failed to load school data: " ++ message)).

(** The continuation after [await Promise.all([...])]: [Promise.all]
    resolves when both requests resolve and is rejected with the error of the
    request that is rejected first. *)
Definition schoolFetched (b : Backend) (schoolId : Z) (st : AppState)
    : AppState :=
  match getAggregatedDataForSchool b schoolId, getCohorts b schoolId with
  | Resolved millenniumFalcon, Resolved cohortsData =>
      schoolLoaded millenniumFalcon cohortsData st
  | Rejected message, Resolved _ => schoolLoadFailed message st
  | Resolved _, Rejected message => schoolLoadFailed message st
  | Rejected message, Rejected cohortsMessage =>
      if cohortsRejectFirst b schoolId
      then schoolLoadFailed cohortsMessage st
      else schoolLoadFailed message st
  end.

(** The handler run to completion against the backend [b]. *)
Definition handleSchoolSelection (b : Backend) (schoolId : option Z)
    (st : AppState) : AppState :=
  match schoolId with
  | Some n =>
      if Js.truthy_id schoolId then
        if accessDenied b st n
        then st |> setError (Some permissionError)
        else st |> schoolApplied n |> schoolFetched b n
      else schoolDeselected st
  | None => schoolDeselected st
  end.

(** *** Curriculum filters *)

Definition handleCurriculumSelection (curriculumId : option Z)
    (st : AppState) : AppState :=
  st |> setSelectedCurriculumId curriculumId
     |> setSelectedCollectionId None
     |> setSelectedCourseId None
     |> setSelectedChapterId None.

Definition handleCollectionSelection (collectionId : option Z)
    (st : AppState) : AppState :=
  st |> setSelectedCollectionId collectionId
     |> setSelectedCourseId None
     |> setSelectedChapterId None.

Definition handleCourseSelection (courseId : option Z)
    (st : AppState) : AppState :=
  st |> setSelectedCourseId courseId
     |> setSelectedChapterId None.

Definition handleChapterSelection (chapterId : option Z)
    (st : AppState) : AppState :=
  st |> setSelectedChapterId chapterId.

(** *** [handleCohortSelection] *)

Definition handleCohortSelection (cohortId : option Z) (st : AppState)
    : AppState :=
  if Js.truthy_id cohortId then
    let selectedCohortStudentAggregates :=
      filter (fun agg => Js.strict_eq (sa_cohort_id agg) cohortId)
        (cohortStudentAggregates (cohort_tables st)) in
    st |> setSelectedCohortId cohortId
       |> setSelectedStudentId None
       |> setIndividualStudentData None
       |> setStudentsForSelector
            (map toStudent selectedCohortStudentAggregates)
  else
    let st' :=
      st |> setSelectedCohortId None
         |> setSelectedStudentId None
         |> setIndividualStudentData None in
    if Js.truthy_id (selectedSchoolId (entity st))
       && (0 <? Js.length_Z (studentAggregates (school_tables st)))
    then st' |> setStudentsForSelector
                  (map toStudent (studentAggregates (school_tables st)))
    else st'.

(** *** [handleStudentSelection]

    The handler suspends at [await ApiService.getIndividualStudentData];
    what runs before the suspension and what runs when the response arrives
    are two transitions, and other handlers may run in between. *)

(** Up to the [await]; a falsy id takes the deselection branch and does not
    suspend. *)
Definition studentSelected (studentId : option Z) (st : AppState) : AppState :=
  if Js.truthy_id studentId then
    st |> setStudentLoading true
       |> setError None
       |> setSelectedStudentId studentId
  else
    st |> setSelectedStudentId None
       |> setIndividualStudentData None.

(** From the [await] to the end of [finally]. *)
Definition studentFetched (response : Response (list Lesson)) (st : AppState)
    : AppState :=
  match response with
  | Resolved individualStudentData =>
      st |> setIndividualStudentData (Some individualStudentData)
         |> setStudentLoading false
  | Rejected message =>
      st |> setError (Some ("Failed to load student data: " ++ message))
         |> setStudentLoading false
  end.

(** The handler run to completion against the backend [b]. *)
Definition handleStudentSelection (b : Backend) (studentId : option Z)
    (st : AppState) : AppState :=
  match studentId with
  | Some n =>
      if Js.truthy_id studentId
      then st |> studentSelected studentId
              |> studentFetched (getIndividualStudentData b n)
      else studentSelected studentId st
  | None => studentSelected studentId st
  end.

(** ** Sequences of handler calls *)

(** A call of one of the seven selection handlers. *)
Inductive Call :=
  | SelectSchool (schoolId : option Z)
  | SelectCohort (cohortId : option Z)
  | SelectStudent (studentId : option Z)
  | SelectCurriculum (curriculumId : option Z)
  | SelectCollection (collectionId : option Z)
  | SelectCourse (courseId : option Z)
  | SelectChapter (chapterId : option Z).

Definition call (b : Backend) (c : Call) (st : AppState) : AppState :=
  match c with
  | SelectSchool schoolId => handleSchoolSelection b schoolId st
  | SelectCohort cohortId => handleCohortSelection cohortId st
  | SelectStudent studentId => handleStudentSelection b studentId st
  | SelectCurriculum curriculumId => handleCurriculumSelection curriculumId st
  | SelectCollection collectionId => handleCollectionSelection collectionId st
  | SelectCourse courseId => handleCourseSelection courseId st
  | SelectChapter chapterId => handleChapterSelection chapterId st
  end.

(** The states after each call of a sequence, in order. *)
Fixpoint run (b : Backend) (calls : list Call) (st : AppState)
    : list AppState :=
  match calls with
  | [] => []
  | c :: rest => let st' := call b c st in st' :: run b rest st'
  end.

(** The [disabled] attributes of the selectors in the rendered page: the
    cohort and student selectors are disabled while [!selectedSchoolId], the
    collection selector while [!selectedCurriculumId], the course selector
    while [!selectedCollectionId], the chapter selector while
    [!selectedCourseId].  A disabled selector issues no call. *)
Definition enabled (st : AppState) (c : Call) : bool :=
  match c with
  | SelectSchool _ => true
  | SelectCohort _ => Js.truthy_id (selectedSchoolId (entity st))
  | SelectStudent _ => Js.truthy_id (selectedSchoolId (entity st))
  | SelectCurriculum _ => true
  | SelectCollection _ => Js.truthy_id (selectedCurriculumId (filters st))
  | SelectCourse _ => Js.truthy_id (selectedCollectionId (filters st))
  | SelectChapter _ => Js.truthy_id (selectedCourseId (filters st))
  end.

(** Every call of the sequence comes from a selector that is enabled in the
    state the call is issued in. *)
Fixpoint allowed (b : Backend) (calls : list Call) (st : AppState) : bool :=
  match calls with
  | [] => true
  | c :: rest => enabled st c && allowed b rest (call b c st)
  end.

Definition isSet (o : option Z) : bool :=
  match o with
  | Some _ => true
  | None => false
  end.

(** A finer id is non-null only if its ancestors in the same cascade are. *)
Definition cascade (st : AppState) : bool :=
  let e := entity st in
  let f := filters st in
  implb (isSet (selectedStudentId e)) (isSet (selectedSchoolId e))
  && implb (isSet (selectedCohortId e)) (isSet (selectedSchoolId e))
  && implb (isSet (selectedChapterId f)) (isSet (selectedCourseId f))
  && implb (isSet (selectedCourseId f)) (isSet (selectedCollectionId f))
  && implb (isSet (selectedCollectionId f)) (isSet (selectedCurriculumId f)).

(** The state of a freshly mounted component, for a given logged-in user. *)
Definition initialState (user : option FacultyUser) : AppState :=
  {| currentUser := user;
     entity :=
       {| selectedSchoolId := None; selectedCohortId := None;
          selectedStudentId := None; individualStudentData := None |};
     filters :=
       {| selectedCurriculumId := None; selectedCollectionId := None;
          selectedCourseId := None; selectedChapterId := None |};
     school_tables :=
       {| schoolAggregates := []; curriculumAggregates := [];
          collectionAggregates := []; courseAggregates := [];
          chapterAggregates := []; studentAggregates := [];
          studentsForSelector := []; cohorts := [] |};
     cohort_tables :=
       {| cohortAggregates := []; cohortCurriculumAggregates := [];
          cohortCollectionAggregates := []; cohortCourseAggregates := [];
          cohortChapterAggregates := []; cohortStudentAggregates := [] |};
     status := {| loading := false; studentLoading := false; error := None |} |}.

(** *** Arrival of responses

    [handleStudentSelection] under interleaving: a selection runs up to its
    [await]; the response to the request issued for a student arrives later
    and resumes that call. *)
Inductive Event :=
  | Choose (studentId : Z)
  | Arrive (studentId : Z).

Definition react (b : Backend) (ev : Event) (st : AppState) : AppState :=
  match ev with
  | Choose studentId => studentSelected (Some studentId) st
  | Arrive studentId => studentFetched (getIndividualStudentData b studentId) st
  end.

Definition play (b : Backend) (events : list Event) (st : AppState)
    : AppState :=
  fold_left (fun st ev => react b ev st) events st.

(** ** Sample data *)

Module Sample.

Definition lesson (collection : Z) (collectionName : option string)
    (chapter : Z) (curriculum : Z) (done : option string) : Lesson :=
  {| lesson_id := 1; lesson_name := None;
     l_chapter_id := chapter; l_chapter_name := None;
     l_course_id := 1; l_course_name := None;
     l_collection_id := collection; l_collection_name := collectionName;
     l_curriculum_id := curriculum; l_curriculum_name := None;
     is_required := true;
     completion_date := done; engagement_date := None |}.

Definition row (chapter : option Z) (total : Z) : AggregateRow :=
  {| school_name := Some "North"; cohort_id := None; cohort_name := None;
     curriculum_id := None; curriculum_name := None;
     collection_id := None; collection_name := None;
     course_id := None; course_name := None;
     chapter_id := chapter; chapter_name := Some "Airway";
     total_lessons_expected := Some total;
     total_lessons_completed := Some 1;
     required_lessons_expected := Some 1;
     required_lessons_completed := Some 0 |}.

Definition guest : FacultyUser := {| user_id := 1; role := "guest" |}.
Definition supaadmin : FacultyUser := {| user_id := -1; role := "supaadmin" |}.

Definition emptyBundle : SchoolBundle :=
  {| schoolAggregate := None; curriculumAggregate := None;
     schoolCollectionAggregate := None; schoolCourseAggregate := None;
     schoolChapterAggregate := None; studentAggregate := None;
     schoolStudentAggregate := None; cohortAggregate := None;
     cohortCurriculumAggregate := None; cohortCollectionAggregate := None;
     cohortCourseAggregate := None; cohortChapterAggregate := None;
     cohortStudentAggregate := None |}.

(** A backend that grants access to school [1] only and serves, for student
    [n], one lesson of collection [n]. *)
Definition backend : Backend :=
  {| canAccessSchool := fun schoolId => schoolId =? 1;
     getAggregatedDataForSchool := fun _ => Resolved emptyBundle;
     getCohorts := fun _ => Resolved None;
     cohortsRejectFirst := fun _ => false;
     getIndividualStudentData :=
       fun n => Resolved [lesson n None 1 1 None] |}.

(** A state with student [7] selected and two lessons loaded. *)
Definition withStudent : AppState :=
  initialState (Some guest)
    |> setSelectedSchoolId (Some 1)
    |> setSelectedStudentId (Some 7)
    |> setIndividualStudentData
         (Some [lesson 1 None 5 9 (Some "2024-01-01"); lesson 2 None 6 9 None])
    |> setChapterAggregates [row (Some 5) 40].

End Sample.

(** ** Reference definitions

    What the documentation says the functions above compute, written
    independently of them; the theorems below compare the two. *)

Module Reference.

(** The filter levels from the most specific to the least, each with the
    lesson field it tests. *)
Definition filterLevels (f : Filters) : list (option Z * (Lesson -> Z)) :=
  [ (selectedChapterId f, l_chapter_id);
    (selectedCourseId f, l_course_id);
    (selectedCollectionId f, l_collection_id);
    (selectedCurriculumId f, l_curriculum_id) ].

(** The one filter that applies: the first level that is set. *)
Definition mostSpecific (f : Filters) : option (option Z * (Lesson -> Z)) :=
  find (fun level => Js.truthy_id (fst level)) (filterLevels f).

(** Whether a lesson passes the filter that applies. *)
Definition kept (f : Filters) (lesson : Lesson) : bool :=
  match mostSpecific f with
  | Some (sel, field) => Js.strict_eq (Some (field lesson)) sel
  | None => true
  end.

(** The rule of the documentation with "set" read as "non-null": the most
    specific filter whose id is not [null] applies, [0] included. *)
Definition mostSpecificNonNull (f : Filters)
    : option (option Z * (Lesson -> Z)) :=
  find (fun level => isSet (fst level)) (filterLevels f).

Definition keptNonNull (f : Filters) (lesson : Lesson) : bool :=
  match mostSpecificNonNull f with
  | Some (sel, field) => Js.strict_eq (Some (field lesson)) sel
  | None => true
  end.

(** The table the resolver consults: that of the most specific filter level
    that is set, cohort-scoped when cohort data is in use; without any
    filter, the cohort rows or the school row. *)
Definition chosenTable (st : AppState) : list AggregateRow :=
  let f := filters st in
  let s := school_tables st in
  let c := cohort_tables st in
  let pick (cohortTable schoolTable : list AggregateRow) :=
    if useCohortData st then cohortTable else schoolTable in
  if Js.truthy_id (selectedChapterId f)
  then pick (cohortChapterAggregates c) (chapterAggregates s)
  else if Js.truthy_id (selectedCourseId f)
  then pick (cohortCourseAggregates c) (courseAggregates s)
  else if Js.truthy_id (selectedCollectionId f)
  then pick (cohortCollectionAggregates c) (collectionAggregates s)
  else if Js.truthy_id (selectedCurriculumId f)
  then pick (cohortCurriculumAggregates c) (curriculumAggregates s)
  else pick (cohortAggregates c) (schoolAggregates s).

(** Whether a row of the consulted table is the one asked for. *)
Definition rowMatches (st : AppState) (r : AggregateRow) : bool :=
  let f := filters st in
  if Js.truthy_id (selectedChapterId f)
  then Js.strict_eq (chapter_id r) (selectedChapterId f)
  else if Js.truthy_id (selectedCourseId f)
  then Js.strict_eq (course_id r) (selectedCourseId f)
  else if Js.truthy_id (selectedCollectionId f)
  then Js.strict_eq (collection_id r) (selectedCollectionId f)
  else if Js.truthy_id (selectedCurriculumId f)
  then Js.strict_eq (curriculum_id r) (selectedCurriculumId f)
  else if useCohortData st
  then Js.strict_eq (cohort_id r) (selectedCohortId (entity st))
  else true.

(** A lesson belongs to the group of an entry: same id and same name as
    interpolated into the key. *)
Definition sameGroup (lv : Level) (e : GroupEntry) (lesson : Lesson) : bool :=
  (level_id lv lesson =? group_id e)
  && (Js.show_str (level_name lv lesson) =? Js.show_str (group_name e))%string.

(** A lesson carries the id of an entry, whatever its name. *)
Definition sameId (lv : Level) (e : GroupEntry) (lesson : Lesson) : bool :=
  level_id lv lesson =? group_id e.

(** Number of elements of a list that pass a test. *)
Definition count {A} (p : A -> bool) (l : list A) : Z :=
  Js.length_Z (filter p l).

(** [round(100 * num / den)], [0] when the denominator is [0]: the product
    first, then the quotient, then [Math.round]. *)
Definition percentage (num den : Z) : spec_float :=
  if den =? 0 then Number.of_Z 0
  else Number.round
         (Number.div (Number.mul (Number.of_Z 100) (Number.of_Z num))
                     (Number.of_Z den)).

(** The same with exact arithmetic: the integer nearest to [100 * num / den],
    a half rounded up. *)
Definition percentageExact (num den : Z) : Z :=
  if den =? 0 then 0 else (200 * num + den) / (2 * den).

(** Whether the percentage the chart shows is an integer nearest to
    [100 * num / den]. *)
Definition showsNearest (shown : spec_float) (num den : Z) : bool :=
  let low := 100 * num / den in
  existsb (fun k =>
             SFeqb shown (Number.of_Z k)
             && (Z.abs (200 * num - 2 * k * den) <=? den))
          [low; low + 1].

(** The integers from [0] to [n]. *)
Definition upTo (n : nat) : list Z := map Z.of_nat (seq 0 (S n)).

End Reference.

(** The entries of one level as [perStudentAggregates] lists them. *)
Definition entriesOf (lv : Level) (a : StudentAggregates) : list GroupEntry :=
  match lv with
  | Collection => ps_collectionAggregates a
  | Course => ps_courseAggregates a
  | Chapter => ps_chapterAggregates a
  end.

(** One level of the [forEach] on its own. *)
Definition groupMap (lv : Level) (data : list Lesson) : JsMap.t GroupEntry :=
  fold_left (fun m lesson => aggregate_level lv lesson m) data JsMap.empty.

(** The entry a lesson opens when its key is new. *)
Definition freshEntry (lv : Level) (lesson : Lesson) : GroupEntry :=
  {| group_id := level_id lv lesson;
     group_name := level_name lv lesson;
     total_lessons := 0;
     completed_lessons := 0 |}.

(** What one lesson does to the entry stored under the key [k]. *)
Definition tally (lv : Level) (k : string) (acc : option GroupEntry)
    (lesson : Lesson) : option GroupEntry :=
  if (level_key lv lesson =? k)%string
  then Some (count_lesson lesson
               match acc with
               | Some e => e
               | None => freshEntry lv lesson
               end)
  else acc.

(** The key under which an entry is stored. *)
Definition entryKey (e : GroupEntry) : string :=
  Js.show_Z (group_id e) ++ "-" ++ Js.show_str (group_name e).

(** Whether a lesson is filed under the key [k]. *)
Definition hasKey (lv : Level) (k : string) (lesson : Lesson) : bool :=
  (level_key lv lesson =? k)%string.

(** ** Further parts of the page

    The table and the view chosen by [ProgressChart], the option lists and
    the annotations of [CurriculumFilters], and the route that serves the
    aggregates of a school. *)

(** *** [ProgressChart] *)

(** [processedTableData]: the rows of the table view; the curriculum filters
    are the chain of [calculatedStudentMetrics], then the toggle
    [includeOptionalLessons]. *)
Definition processedTableData (st : AppState) (includeOptionalLessons : bool)
    : list Lesson :=
  match individualStudentData (entity st) with
  | Some data =>
      if Js.truthy_id (selectedStudentId (entity st)) then
        let filteredData := filteredData (filters st) data in
        if negb includeOptionalLessons
        then filter (fun lesson => Bool.eqb (is_required lesson) true)
               filteredData
        else filteredData
      else []
  | None => []
  end.

(** The badge of the status column. *)
Inductive LessonStatus := Completed | InProgress | NotStarted.

Definition lessonStatus (lesson : Lesson) : LessonStatus :=
  if Js.truthy_str (completion_date lesson) then Completed
  else if Js.truthy_str (engagement_date lesson) then InProgress
  else NotStarted.

Definition isCompleted (s : LessonStatus) : bool :=
  match s with
  | Completed => true
  | _ => false
  end.

(** [s.slice(n)] for [0 <= n]. *)
Fixpoint slice (n : nat) (s : string) : string :=
  match n, s with
  | O, _ => s
  | S n', String _ rest => slice n' rest
  | S _, EmptyString => EmptyString
  end.

(** [getDisplayCourseName]: the course name without the leading
    ["<collection>: "]. *)
Definition getDisplayCourseName (course collection : option string)
    : option string :=
  match collection, course with
  | Some collection_name, Some course_name =>
      if Js.truthy_str collection && Js.truthy_str course
         && String.prefix (collection_name ++ ": ") course_name
      then Some (slice (String.length (collection_name ++ ": ")) course_name)
      else course
  | _, _ => course
  end.

(** The cell of the course column:
    [getDisplayCourseName(...) || 'N/A']. *)
Definition courseCell (lesson : Lesson) : string :=
  Js.or_str
    (getDisplayCourseName (l_course_name lesson) (l_collection_name lesson))
    "N/A".

(** What the body of the chart renders. *)
Inductive ChartView := EmptyState | TableView | SummaryView.

(** [!displayData.totalLessons ? <empty state>
      : selectedStudentId && isTableView ? <TableView /> : <summary>]. *)
Definition chartView (st : AppState) (isTableView : bool) : ChartView :=
  if totalLessons (displayData st) =? 0 then EmptyState
  else if Js.truthy_id (selectedStudentId (entity st)) && isTableView
  then TableView
  else SummaryView.

(** *** [CurriculumFilters] *)

(** One row of the curriculum hierarchy; the ids below the curriculum come
    from left joins and may be [null]. *)
Module Hierarchy.
Record Node := {
  curriculum_id : option Z;
  curriculum_name : option string;
  collection_id : option Z;
  collection_name : option string;
  course_id : option Z;
  course_name : option string;
  chapter_id : option Z;
  chapter_name : option string
}.
End Hierarchy.

(** A [Map] whose keys are ids or [null], in insertion order. *)
Module IdMap.
Section Ops.
Context {V : Type}.

(** Key equality of a [Map] on numbers and [null]. *)
Definition sameKey (a b : option Z) : bool :=
  match a, b with
  | Some x, Some y => x =? y
  | None, None => true
  | _, _ => false
  end.

Definition t := list (option Z * V).

Fixpoint get (k : option Z) (m : t) : option V :=
  match m with
  | [] => None
  | (k', v) :: rest => if sameKey k' k then Some v else get k rest
  end.

Fixpoint set (k : option Z) (v : V) (m : t) : t :=
  match m with
  | [] => [(k, v)]
  | (k', v') :: rest =>
      if sameKey k' k then (k', v) :: rest else (k', v') :: set k v rest
  end.

(** [new Map(entries)]. *)
Definition ofEntries (entries : list (option Z * V)) : t :=
  fold_left (fun m entry => set (fst entry) (snd entry) m) entries [].

Definition keys (m : t) : list (option Z) := map fst m.
Definition values (m : t) : list V := map snd m.
End Ops.
Arguments t : clear implicits.
End IdMap.

(** [[...new Map(rows.map(item => [key(item), item])).values()]]. *)
Definition uniqueBy (key : Hierarchy.Node -> option Z)
    (rows : list Hierarchy.Node) : list Hierarchy.Node :=
  IdMap.values (IdMap.ofEntries (map (fun item => (key item, item)) rows)).

(** [!selected || field === selected]. *)
Definition underParent (selected field : option Z) : bool :=
  negb (Js.truthy_id selected) || Js.strict_eq field selected.

(** The options of one select: the rows under the selected parent, one per
    id. *)
Definition optionsUnder (key : Hierarchy.Node -> option Z)
    (selected : option Z) (parent : Hierarchy.Node -> option Z)
    (hierarchyData : list Hierarchy.Node) : list Hierarchy.Node :=
  uniqueBy key
    (filter (fun item => underParent selected (parent item)) hierarchyData).

Definition curricula (hierarchyData : list Hierarchy.Node)
    : list Hierarchy.Node :=
  uniqueBy Hierarchy.curriculum_id hierarchyData.

Definition collections (f : Filters) (hierarchyData : list Hierarchy.Node)
    : list Hierarchy.Node :=
  optionsUnder Hierarchy.collection_id
    (selectedCurriculumId f) Hierarchy.curriculum_id hierarchyData.

Definition courses (f : Filters) (hierarchyData : list Hierarchy.Node)
    : list Hierarchy.Node :=
  optionsUnder Hierarchy.course_id
    (selectedCollectionId f) Hierarchy.collection_id hierarchyData.

Definition chapters (f : Filters) (hierarchyData : list Hierarchy.Node)
    : list Hierarchy.Node :=
  optionsUnder Hierarchy.chapter_id
    (selectedCourseId f) Hierarchy.course_id hierarchyData.

(** A row of the aggregates handed to the filters: a row of a pre-computed
    table, or an entry of the per-student aggregates. *)
Inductive FilterRow :=
  | TableRow (r : AggregateRow)
  | StudentRow (e : GroupEntry).

(** The id field of a row at a level ([a.collection_id] and its siblings). *)
Definition filterRowId (lv : Level) (a : FilterRow) : option Z :=
  match a with
  | TableRow r =>
      match lv with
      | Collection => collection_id r
      | Course => course_id r
      | Chapter => chapter_id r
      end
  | StudentRow e => Some (group_id e)
  end.

(** The tables in use: [activeAggregates]. *)
Definition activeAggregates (lv : Level) (st : AppState) : list AggregateRow :=
  if useCohortData st then
    match lv with
    | Collection => cohortCollectionAggregates (cohort_tables st)
    | Course => cohortCourseAggregates (cohort_tables st)
    | Chapter => cohortChapterAggregates (cohort_tables st)
    end
  else
    match lv with
    | Collection => collectionAggregates (school_tables st)
    | Course => courseAggregates (school_tables st)
    | Chapter => chapterAggregates (school_tables st)
    end.

(** The [collectionAggregates], [courseAggregates] and [chapterAggregates]
    props: [selectedStudentId && perStudentAggregates
              ? perStudentAggregates.x : activeAggregates.x]. *)
Definition filterAggregates (lv : Level) (st : AppState) : list FilterRow :=
  if Js.truthy_id (selectedStudentId (entity st))
  then map StudentRow (entriesOf lv (perStudentAggregates st))
  else map TableRow (activeAggregates lv st).

(** [getCollectionCompleted] and its siblings: the number put in brackets
    after an option; [None] is [undefined] or [null].  An entry of the
    per-student aggregates has no field [total_lessons_completed]. *)
Definition getCompleted (lv : Level) (aggregates : list FilterRow)
    (optionId : option Z) : option Z :=
  match find (fun a => IdMap.sameKey (filterRowId lv a) optionId) aggregates with
  | Some (TableRow r) => total_lessons_completed r
  | Some (StudentRow _) => None
  | None => Some 0
  end.

(** *** The route [/api/school-aggregates] and its client *)

(** The rows of the twelve queries. *)
Record SchoolQueries := {
  q_schoolAggregate : list AggregateRow;
  q_curriculumAggregate : list AggregateRow;
  q_schoolCollectionAggregate : list AggregateRow;
  q_schoolCourseAggregate : list AggregateRow;
  q_schoolChapterAggregate : list AggregateRow;
  q_schoolStudentAggregate : list StudentAggregate;
  q_cohortAggregate : list AggregateRow;
  q_cohortCurriculumAggregate : list AggregateRow;
  q_cohortCollectionAggregate : list AggregateRow;
  q_cohortCourseAggregate : list AggregateRow;
  q_cohortChapterAggregate : list AggregateRow;
  q_cohortStudentAggregate : list StudentAggregate
}.

Inductive Body :=
  | ErrorBody (error : string)
  | BundleBody (bundle : SchoolBundle).

(** The body of the [200] response: twelve keys, none of them
    [studentAggregate]. *)
Definition bundleOf (q : SchoolQueries) : SchoolBundle :=
  {| schoolAggregate := Some (q_schoolAggregate q);
     curriculumAggregate := Some (q_curriculumAggregate q);
     schoolCollectionAggregate := Some (q_schoolCollectionAggregate q);
     schoolCourseAggregate := Some (q_schoolCourseAggregate q);
     schoolChapterAggregate := Some (q_schoolChapterAggregate q);
     studentAggregate := None;
     schoolStudentAggregate := Some (q_schoolStudentAggregate q);
     cohortAggregate := Some (q_cohortAggregate q);
     cohortCurriculumAggregate := Some (q_cohortCurriculumAggregate q);
     cohortCollectionAggregate := Some (q_cohortCollectionAggregate q);
     cohortCourseAggregate := Some (q_cohortCourseAggregate q);
     cohortChapterAggregate := Some (q_cohortChapterAggregate q);
     cohortStudentAggregate := Some (q_cohortStudentAggregate q) |}.

(** The handler of the route: the status and the body it answers with, given
    the method, the [schoolId] query parameter and what the database does
    with the twelve queries for that parameter. *)
Definition schoolAggregatesHandler (method : string) (schoolId : option string)
    (db : string -> Response SchoolQueries) : Z * Body :=
  if negb (method =? "GET")%string then (405, ErrorBody "Method not allowed")
  else
    match schoolId with
    | Some param =>
        if Js.truthy_str schoolId then
          match db param with
          | Resolved rows => (200, BundleBody (bundleOf rows))
          | Rejected message => (500, ErrorBody message)
          end
        else (400, ErrorBody "schoolId is required")
    | None => (400, ErrorBody "schoolId is required")
    end.

(** A body without any of the keys the client reads. *)
Definition noKeys : SchoolBundle :=
  {| schoolAggregate := None; curriculumAggregate := None;
     schoolCollectionAggregate := None; schoolCourseAggregate := None;
     schoolChapterAggregate := None; studentAggregate := None;
     schoolStudentAggregate := None; cohortAggregate := None;
     cohortCurriculumAggregate := None; cohortCollectionAggregate := None;
     cohortCourseAggregate := None; cohortChapterAggregate := None;
     cohortStudentAggregate := None |}.

(** [ApiService.getAggregatedDataForSchool] against that handler: the request
    is [GET /api/school-aggregates?schoolId=${schoolId}]; a status outside
    [200..299] is thrown as an error. *)
Definition getAggregatedDataForSchoolFrom (db : string -> Response SchoolQueries)
    (schoolId : Z) : Response SchoolBundle :=
  match schoolAggregatesHandler "GET" (Some (Js.show_Z schoolId)) db with
  | (status, BundleBody data) =>
      if (200 <=? status) && (status <=? 299) then Resolved data
      else Rejected ("HTTP error! status: " ++ Js.show_Z status)
  | (status, ErrorBody _) =>
      if (200 <=? status) && (status <=? 299) then Resolved noKeys
      else Rejected ("HTTP error! status: " ++ Js.show_Z status)
  end.

(** Sum of a list of counters. *)
Definition sumZ (l : list Z) : Z := fold_right Z.add 0 l.

(** A backend whose school aggregates come from the route over a database. *)
Definition servedBy (db : string -> Response SchoolQueries) (b : Backend)
    : Backend :=
  {| canAccessSchool := canAccessSchool b;
     getAggregatedDataForSchool := getAggregatedDataForSchoolFrom db;
     getCohorts := getCohorts b;
     cohortsRejectFirst := cohortsRejectFirst b;
     getIndividualStudentData := getIndividualStudentData b |}.

Module SampleRoute.

Definition student (n : Z) (cohort : Z) : StudentAggregate :=
  {| student_id := n; sa_student_email := None;
     sa_student_first := Some "Ada"; sa_student_last := Some "Ray";
     sa_school_id := 1; sa_cohort_id := Some cohort |}.

Definition cohortRow (cohort : Z) (chapter : option Z) (total : Z)
    : AggregateRow :=
  {| school_name := None; cohort_id := Some cohort;
     cohort_name := Some "Faculty";
     curriculum_id := None; curriculum_name := None;
     collection_id := None; collection_name := None;
     course_id := None; course_name := None;
     chapter_id := chapter; chapter_name := Some "Airway";
     total_lessons_expected := Some total;
     total_lessons_completed := Some 2;
     required_lessons_expected := Some 1;
     required_lessons_completed := Some 1 |}.

Definition queries : SchoolQueries :=
  {| q_schoolAggregate := [Sample.row None 90];
     q_curriculumAggregate := [];
     q_schoolCollectionAggregate := [];
     q_schoolCourseAggregate := [];
     q_schoolChapterAggregate := [Sample.row (Some 5) 40];
     q_schoolStudentAggregate := [student 7 4; student 8 5];
     q_cohortAggregate := [cohortRow 4 None 30; cohortRow 5 None 60];
     q_cohortCurriculumAggregate := [];
     q_cohortCollectionAggregate := [];
     q_cohortCourseAggregate := [];
     q_cohortChapterAggregate :=
       [cohortRow 4 (Some 5) 10; cohortRow 5 (Some 5) 20];
     q_cohortStudentAggregate := [student 7 4; student 8 5] |}.

(** The database knows school [1] and fails on every other parameter. *)
Definition db (param : string) : Response SchoolQueries :=
  if (param =? "1")%string then Resolved queries
  else Rejected "relation does not exist".

Definition backend : Backend := servedBy db Sample.backend.

(** The state after school [1] has been loaded. *)
Definition loaded : AppState :=
  handleSchoolSelection backend (Some 1) (initialState (Some Sample.guest)).

End SampleRoute.

(** The sum of a counter over the entries of a map. *)
Definition weightOf (w : GroupEntry -> Z) (m : JsMap.t GroupEntry) : Z :=
  sumZ (map w (JsMap.values m)).

(** Whether one of the four curriculum filters is set. *)
Definition anyFilter (f : Filters) : bool :=
  Js.truthy_id (selectedChapterId f)
  || Js.truthy_id (selectedCourseId f)
  || Js.truthy_id (selectedCollectionId f)
  || Js.truthy_id (selectedCurriculumId f).

(** ** Logout *)

Definition setCurrentUser v (st : AppState) : AppState :=
  {| currentUser := v; entity := entity st; filters := filters st;
     school_tables := school_tables st; cohort_tables := cohort_tables st;
     status := status st |}.

(** [handleLogout]: [await authService.logout()] removes the stored user and
    may throw, in which case the [catch] only logs.  The [try] block also
    calls [setIsAuthenticated], [setAuthError], [setSchools] and
    [setStudents]; those four cells are read by no handler and by no
    resolver, and are not part of [AppState]. *)
Definition handleLogout (logout : Response unit) (st : AppState) : AppState :=
  match logout with
  | Resolved _ =>
      st |> setCurrentUser None
         |> setSelectedSchoolId None
         |> setSelectedCohortId None
         |> setSelectedStudentId None
         |> setIndividualStudentData None
         |> setCohorts []
  | Rejected _ => st
  end.

(** Lesson rows are held only while a student is selected. *)
Definition rowsNeedStudent (st : AppState) : bool :=
  match individualStudentData (entity st) with
  | Some _ => Js.truthy_id (selectedStudentId (entity st))
  | None => true
  end.

(** Two schools whose aggregates differ. *)
Module SampleSchools.

Definition bundle (total : Z) : SchoolBundle :=
  {| schoolAggregate := Some [Sample.row None total];
     curriculumAggregate := None;
     schoolCollectionAggregate := None; schoolCourseAggregate := None;
     schoolChapterAggregate := None; studentAggregate := None;
     schoolStudentAggregate := None; cohortAggregate := None;
     cohortCurriculumAggregate := None; cohortCollectionAggregate := None;
     cohortCourseAggregate := None; cohortChapterAggregate := None;
     cohortStudentAggregate := None |}.

(** School [n] has [10 * n] lessons. *)
Definition backend : Backend :=
  {| canAccessSchool := fun _ => true;
     getAggregatedDataForSchool := fun n => Resolved (bundle (10 * n));
     getCohorts := fun _ => Resolved None;
     cohortsRejectFirst := fun _ => false;
     getIndividualStudentData := fun _ => Resolved [] |}.

End SampleSchools.

(** * Properties *)

(** ** Aggregate resolver *)

Section Resolver.

(** The student's metrics exist only when a student is selected. *)
Lemma metrics_need_student (st : AppState) (metrics : Metrics) :
  calculatedStudentMetrics st = Some metrics ->
  Js.truthy_id (selectedStudentId (entity st)) = true.
Proof.
  unfold calculatedStudentMetrics.
  destruct (individualStudentData (entity st)); [|discriminate].
  destruct (Js.truthy_id (selectedStudentId (entity st))); [reflexivity|discriminate].
Qed.

(** They depend on the student, the lesson rows and the filters only. *)
Lemma metrics_ignore_aggregates (st : AppState) cohortId s c :
  calculatedStudentMetrics
    (st |> setSelectedCohortId cohortId
        |> with_school_tables s
        |> with_cohort_tables c)
  = calculatedStudentMetrics st.
Proof. reflexivity. Qed.

(** C1. Whenever a student is selected and the filtered student metrics are
    available, [currentAggregate] returns exactly those metrics; replacing
    the selected cohort id, the school-scoped tables and the cohort-scoped
    tables by anything else does not change that answer. *)
Theorem resolver_returns_student_metrics :
  forall (st : AppState) (metrics : Metrics),
    selectedStudentId (entity st) <> None ->
    calculatedStudentMetrics st = Some metrics ->
    currentAggregate st = Some metrics
    /\ forall cohortId s c,
         currentAggregate
           (st |> setSelectedCohortId cohortId
               |> with_school_tables s
               |> with_cohort_tables c)
         = Some metrics.
Proof.
  intros st metrics _ Hm.
  assert (Hsel := metrics_need_student st metrics Hm).
  split.
  - unfold currentAggregate. now rewrite Hsel, Hm.
  - intros cohortId s c.
    unfold currentAggregate.
    rewrite metrics_ignore_aggregates, Hm.
    cbn. now rewrite Hsel.
Qed.

Lemma resolver_returns_student_metrics_witness :
  currentAggregate Sample.withStudent
  = Some {| totalLessons := 2; totalCompleted := 1; requiredLessons := 2;
            requiredCompleted := 1; title := "Student Progress" |}.
Proof.
  apply (resolver_returns_student_metrics Sample.withStudent).
  - discriminate.
  - reflexivity.
Defined.

(** When no row of the consulted table matches, no row is found. *)
Lemma find_none_of_no_match {A} (p : A -> bool) (l : list A) :
  (forall x, In x l -> p x = false) -> find p l = None.
Proof.
  induction l as [|x l IH]; intros H; [reflexivity|].
  cbn. rewrite (H x (or_introl eq_refl)).
  apply IH. intros y Hy. apply H. now right.
Qed.

Lemma lookup_level_none st field name label sel cohortTable schoolTable :
  (forall r, In r (if useCohortData st then cohortTable else schoolTable) ->
             Js.strict_eq (field r) sel = false) ->
  lookup_level st field name label sel cohortTable schoolTable = None.
Proof.
  intros H. unfold lookup_level.
  destruct (useCohortData st); now rewrite find_none_of_no_match.
Qed.

Lemma aggregateData_none (st : AppState) :
  (forall r, In r (Reference.chosenTable st) ->
             Reference.rowMatches st r = false) ->
  aggregateData st = None.
Proof.
  unfold Reference.chosenTable, Reference.rowMatches, aggregateData.
  intros H.
  destruct (Js.truthy_id (selectedChapterId (filters st)));
    [now apply lookup_level_none|].
  destruct (Js.truthy_id (selectedCourseId (filters st)));
    [now apply lookup_level_none|].
  destruct (Js.truthy_id (selectedCollectionId (filters st)));
    [now apply lookup_level_none|].
  destruct (Js.truthy_id (selectedCurriculumId (filters st)));
    [now apply lookup_level_none|].
  destruct (useCohortData st).
  - now rewrite find_none_of_no_match.
  - destruct (schoolAggregates (school_tables st)) as [|r rest];
      [reflexivity|].
    specialize (H r (or_introl eq_refl)). discriminate.
Qed.



(** The freshly mounted component shows no data. *)
Lemma resolver_initially_no_data (user : option FacultyUser) :
  currentAggregate (initialState user) = None.
Proof. reflexivity. Qed.

(** With every table empty there is never a row to show. *)
Lemma resolver_empty_tables (st : AppState) :
  calculatedStudentMetrics st = None ->
  school_tables st = school_tables (initialState None) ->
  cohort_tables st = cohort_tables (initialState None) ->
  currentAggregate st = None.
Proof.
  intros Hm Hs Hc. unfold currentAggregate.
  rewrite Hm, aggregateData_none.
  - now destruct (Js.truthy_id (selectedStudentId (entity st))).
  - unfold Reference.chosenTable. rewrite Hs, Hc. cbn.
    intros r.
    repeat match goal with
           | |- context [if ?b then _ else _] => destruct b
           end; intros [].
Qed.

End Resolver.

(** ** Selection handlers *)

Section Handlers.

Variable b : Backend.

(** C10. Each of the four curriculum handlers leaves the selected school,
    cohort and student ids and the held lesson rows as they were (and the
    aggregate tables, the status and the user as well): only the four filter
    ids can change. *)
Theorem curriculum_handlers_frame :
  forall (st : AppState) (newId : option Z),
    let unchanged (st' : AppState) :=
      selectedSchoolId (entity st') = selectedSchoolId (entity st)
      /\ selectedCohortId (entity st') = selectedCohortId (entity st)
      /\ selectedStudentId (entity st') = selectedStudentId (entity st)
      /\ individualStudentData (entity st') = individualStudentData (entity st)
      /\ school_tables st' = school_tables st
      /\ cohort_tables st' = cohort_tables st
      /\ status st' = status st
      /\ currentUser st' = currentUser st in
    unchanged (handleCurriculumSelection newId st)
    /\ unchanged (handleCollectionSelection newId st)
    /\ unchanged (handleCourseSelection newId st)
    /\ unchanged (handleChapterSelection newId st).
Proof.
  intros st newId unchanged. subst unchanged. cbn.
  repeat split.
Qed.

(** What each curriculum handler does to the filter ids. *)
Lemma curriculum_handlers_filters (st : AppState) (newId : option Z) :
  filters (handleCurriculumSelection newId st)
  = {| selectedCurriculumId := newId; selectedCollectionId := None;
       selectedCourseId := None; selectedChapterId := None |}
  /\ filters (handleCollectionSelection newId st)
     = {| selectedCurriculumId := selectedCurriculumId (filters st);
          selectedCollectionId := newId;
          selectedCourseId := None; selectedChapterId := None |}
  /\ filters (handleCourseSelection newId st)
     = {| selectedCurriculumId := selectedCurriculumId (filters st);
          selectedCollectionId := selectedCollectionId (filters st);
          selectedCourseId := newId; selectedChapterId := None |}
  /\ filters (handleChapterSelection newId st)
     = {| selectedCurriculumId := selectedCurriculumId (filters st);
          selectedCollectionId := selectedCollectionId (filters st);
          selectedCourseId := selectedCourseId (filters st);
          selectedChapterId := newId |}.
Proof. repeat split. Qed.

(** No branch of [handleSchoolSelection] writes a filter id. *)
Lemma school_selection_keeps_filters (st : AppState) (schoolId : option Z) :
  filters (handleSchoolSelection b schoolId st) = filters st.
Proof.
  unfold handleSchoolSelection.
  destruct schoolId as [n|]; [|reflexivity].
  destruct (Js.truthy_id (Some n)); [|reflexivity].
  destruct (accessDenied b st n); [reflexivity|].
  unfold schoolFetched.
  destruct (getAggregatedDataForSchool b n), (getCohorts b n);
    try destruct (cohortsRejectFirst b n); reflexivity.
Qed.

(** Nor does the fetch of the aggregates touch the selection. *)
Lemma schoolFetched_entity (st : AppState) (n : Z) :
  entity (schoolFetched b n st) = entity st.
Proof.
  unfold schoolFetched.
  destruct (getAggregatedDataForSchool b n), (getCohorts b n);
    try destruct (cohortsRejectFirst b n); reflexivity.
Qed.

(** The selection after a call that the permission check lets through. *)
Lemma school_selection_entity (st : AppState) (n : Z) :
  accessDenied b st n = false ->
  entity (handleSchoolSelection b (Some n) st)
  = {| selectedSchoolId := if n =? 0 then None else Some n;
       selectedCohortId := None;
       selectedStudentId := None;
       individualStudentData := None |}.
Proof.
  intros Hgranted. unfold handleSchoolSelection. cbn.
  destruct (n =? 0); cbn; [reflexivity|].
  rewrite Hgranted, schoolFetched_entity. reflexivity.
Qed.

(** C2, as the code has it.  A call of [handleSchoolSelection] with a
    non-null school id that the permission check does not refuse leaves the
    selected cohort id and the selected student id null (and drops the held
    lesson rows); the four curriculum filter ids are not cleared: they keep
    the values they had before the call. *)
Theorem school_selection_clears_cohort_and_student :
  forall (st : AppState) (schoolId : Z),
    accessDenied b st schoolId = false ->
    let st' := handleSchoolSelection b (Some schoolId) st in
    selectedCohortId (entity st') = None
    /\ selectedStudentId (entity st') = None
    /\ individualStudentData (entity st') = None
    /\ filters st' = filters st.
Proof.
  intros st schoolId Hgranted st'. subst st'.
  rewrite (school_selection_entity st schoolId Hgranted).
  rewrite school_selection_keeps_filters.
  repeat split.
Qed.

(** A refused selection changes the error message and nothing else. *)
Lemma school_selection_refused (st : AppState) (n : Z) :
  n <> 0 ->
  accessDenied b st n = true ->
  handleSchoolSelection b (Some n) st = setError (Some permissionError) st.
Proof.
  intros Hn Hdenied. unfold handleSchoolSelection. cbn.
  destruct (Z.eqb_spec n 0) as [->|_]; [now elim Hn|].
  cbn. now rewrite Hdenied.
Qed.

(** C8, as the code has it.  For a logged-in user whose role is not
    [supaadmin] and a school id (other than [0]) for which [canAccessSchool]
    answers [false], [handleSchoolSelection] leaves the whole selection, the
    filters and every aggregate table as they were, and sets the error
    message shown to the user. *)
Theorem refused_school_selection_changes_nothing :
  forall (st : AppState) (user : FacultyUser) (schoolId : Z),
    currentUser st = Some user ->
    role user <> "supaadmin" ->
    schoolId <> 0 ->
    canAccessSchool b schoolId = false ->
    let st' := handleSchoolSelection b (Some schoolId) st in
    entity st' = entity st
    /\ filters st' = filters st
    /\ school_tables st' = school_tables st
    /\ cohort_tables st' = cohort_tables st
    /\ currentUser st' = currentUser st
    /\ loading (status st') = loading (status st)
    /\ studentLoading (status st') = studentLoading (status st)
    /\ error (status st') = Some permissionError.
Proof.
  intros st user schoolId Huser Hrole Hid Hcan st'. subst st'.
  rewrite school_selection_refused; [repeat split|exact Hid|].
  unfold accessDenied. rewrite Huser, Hcan.
  destruct (String.eqb_spec (role user) "supaadmin"); [contradiction|reflexivity].
Qed.

End Handlers.

Lemma school_selection_clears_cohort_and_student_witness :
  let st := Sample.withStudent |> setSelectedCurriculumId (Some 3) in
  let st' := handleSchoolSelection Sample.backend (Some 1) st in
  selectedCohortId (entity st') = None
  /\ selectedStudentId (entity st') = None
  /\ individualStudentData (entity st') = None
  /\ filters st' = filters st.
Proof.
  apply (school_selection_clears_cohort_and_student Sample.backend).
  reflexivity.
Defined.

(** C2 fails as stated: a curriculum filter chosen before the school is
    changed is still there afterwards. *)
Lemma school_selection_keeps_filters_counterexample :
  let st :=
    initialState (Some Sample.supaadmin) |> setSelectedCurriculumId (Some 3) in
  let st' := handleSchoolSelection Sample.backend (Some 5) st in
  selectedSchoolId (entity st') = Some 5
  /\ selectedCurriculumId (filters st') = Some 3
  /\ ~ (selectedCohortId (entity st') = None
        /\ selectedStudentId (entity st') = None
        /\ selectedCurriculumId (filters st') = None
        /\ selectedCollectionId (filters st') = None
        /\ selectedCourseId (filters st') = None
        /\ selectedChapterId (filters st') = None).
Proof.
  cbv zeta. repeat split.
  intros (_ & _ & Hcurriculum & _). discriminate Hcurriculum.
Qed.

Lemma refused_school_selection_changes_nothing_witness :
  let st := Sample.withStudent in
  let st' := handleSchoolSelection Sample.backend (Some 5) st in
  entity st' = entity st
  /\ filters st' = filters st
  /\ school_tables st' = school_tables st
  /\ cohort_tables st' = cohort_tables st
  /\ currentUser st' = currentUser st
  /\ loading (status st') = loading (status st)
  /\ studentLoading (status st') = studentLoading (status st)
  /\ error (status st') = Some permissionError.
Proof.
  apply (refused_school_selection_changes_nothing
           Sample.backend Sample.withStudent Sample.guest 5).
  - reflexivity.
  - discriminate.
  - discriminate.
  - reflexivity.
Defined.

(** C8 fails as stated: the permission check is skipped for a [supaadmin],
    whose selection is applied although [canAccessSchool] answers [false]
    for the school. *)
Lemma supaadmin_selection_applied_counterexample :
  let st := initialState (Some Sample.supaadmin) in
  let st' := handleSchoolSelection Sample.backend (Some 5) st in
  canAccessSchool Sample.backend 5 = false
  /\ selectedSchoolId (entity st') = Some 5
  /\ error (status st') = None
  /\ ~ (entity st' = entity st /\ error (status st') <> None).
Proof.
  cbv zeta. repeat split.
  intros [Hentity _]. discriminate Hentity.
Qed.

(** ** The cascade along sequences of calls *)

Section Cascade.

Variable b : Backend.

Lemma studentFetched_ids (r : Response (list Lesson)) (st : AppState) :
  selectedSchoolId (entity (studentFetched r st)) = selectedSchoolId (entity st)
  /\ selectedCohortId (entity (studentFetched r st))
     = selectedCohortId (entity st)
  /\ selectedStudentId (entity (studentFetched r st))
     = selectedStudentId (entity st)
  /\ filters (studentFetched r st) = filters st.
Proof. destruct r; repeat split. Qed.

(** A call issued by an enabled selector keeps the cascade consistent. *)
Lemma enabled_call_keeps_cascade (st : AppState) (c : Call) :
  cascade st = true ->
  enabled st c = true ->
  cascade (call b c st) = true.
Proof.
  intros Hinv Hen.
  destruct c as [i|i|i|i|i|i|i]; cbn [call enabled] in *.
  - (* school *)
    unfold cascade.
    rewrite school_selection_keeps_filters.
    destruct i as [n|].
    + destruct (accessDenied b st n) eqn:Hden.
      * destruct (Z.eqb_spec n 0) as [->|Hn].
        -- unfold cascade in Hinv. cbn in *.
           now rewrite !andb_true_iff in *.
        -- rewrite (school_selection_refused b st n Hn Hden).
           exact Hinv.
      * rewrite (school_selection_entity b st n Hden). cbn.
        unfold cascade in Hinv. rewrite !andb_true_iff in *.
        destruct (n =? 0); tauto.
    + cbn. unfold cascade in Hinv. rewrite !andb_true_iff in *. tauto.
  - (* cohort *)
    unfold cascade in *. unfold handleCohortSelection.
    destruct (selectedSchoolId (entity st)) as [s|] eqn:Hs; [|discriminate].
    destruct (Js.truthy_id i), i;
      repeat match goal with
             | |- context [if ?c then _ else _] => destruct c
             end; cbn; rewrite ?Hs; cbn;
      rewrite !andb_true_iff in *; tauto.
  - (* student *)
    unfold cascade in *.
    destruct (selectedSchoolId (entity st)) as [s|] eqn:Hs; [|discriminate].
    unfold handleStudentSelection.
    destruct i as [n|]; [destruct (Js.truthy_id (Some n)) eqn:Hn|].
    + destruct (studentFetched_ids (getIndividualStudentData b n)
                  (studentSelected (Some n) st)) as (-> & -> & -> & ->).
      unfold studentSelected. rewrite Hn. cbn. rewrite Hs. cbn.
      rewrite !andb_true_iff in *. tauto.
    + unfold studentSelected. rewrite Hn. cbn. rewrite Hs. cbn.
      rewrite !andb_true_iff in *. tauto.
    + cbn. rewrite Hs. cbn. rewrite !andb_true_iff in *. tauto.
  - (* curriculum *)
    unfold cascade in *. cbn. rewrite !andb_true_iff in *.
    destruct i; cbn; tauto.
  - (* collection *)
    unfold cascade in *. cbn.
    destruct (selectedCurriculumId (filters st)); [|discriminate].
    rewrite !andb_true_iff in *. destruct i; cbn; tauto.
  - (* course *)
    unfold cascade in *. cbn.
    destruct (selectedCollectionId (filters st)); [|discriminate].
    rewrite !andb_true_iff in *. destruct i; cbn in *; tauto.
  - (* chapter *)
    unfold cascade in *. cbn.
    destruct (selectedCourseId (filters st)); [|discriminate].
    rewrite !andb_true_iff in *. destruct i; cbn in *; tauto.
Qed.

(** C3, as the code has it.  The handlers do not check the ancestors of the
    id they are given; the page does, by disabling a selector while its
    parent is unset.  Along every finite sequence of calls in which each
    call comes from a selector that is enabled when it is issued, starting
    from a state that satisfies the cascade (the all-null state does), the
    state after each call satisfies it: student and cohort imply school,
    chapter implies course implies collection implies curriculum. *)
Theorem enabled_calls_keep_cascade :
  forall (calls : list Call) (st : AppState),
    cascade st = true ->
    allowed b calls st = true ->
    forallb cascade (run b calls st) = true.
Proof.
  induction calls as [|c rest IH]; intros st Hinv Hallowed; [reflexivity|].
  cbn in *. apply andb_true_iff in Hallowed as [Hen Hrest].
  pose proof (enabled_call_keeps_cascade st c Hinv Hen) as Hnext.
  rewrite Hnext. cbn. now apply IH.
Qed.

End Cascade.

Lemma enabled_calls_keep_cascade_witness :
  forallb cascade
    (run Sample.backend
       [SelectSchool (Some 1); SelectCohort (Some 4); SelectStudent (Some 7);
        SelectCurriculum (Some 9); SelectCollection (Some 2);
        SelectCourse (Some 3); SelectChapter (Some 5);
        SelectCollection None; SelectSchool (Some 5); SelectSchool None]
       (initialState (Some Sample.guest)))
  = true.
Proof.
  apply enabled_calls_keep_cascade; reflexivity.
Defined.

(** C3 fails as stated: called on the all-null state, [handleStudentSelection]
    sets a student without a school, and [handleChapterSelection] a chapter
    without a course. *)
Lemma unguarded_calls_break_cascade_counterexample :
  let st0 := initialState (Some Sample.guest) in
  forallb cascade (run Sample.backend [SelectStudent (Some 7)] st0) = false
  /\ forallb cascade (run Sample.backend [SelectChapter (Some 5)] st0) = false
  /\ selectedStudentId
       (entity (handleStudentSelection Sample.backend (Some 7) st0)) = Some 7
  /\ selectedSchoolId
       (entity (handleStudentSelection Sample.backend (Some 7) st0)) = None.
Proof. repeat split. Qed.

(** ** Late responses *)

Section Responses.

Variable b : Backend.

(** The continuation of a fetch stores what arrived, whoever is selected. *)
Lemma arrival_overwrites (st : AppState) (studentId : Z) (rows : list Lesson) :
  getIndividualStudentData b studentId = Resolved rows ->
  individualStudentData (entity (react b (Arrive studentId) st)) = Some rows
  /\ selectedStudentId (entity (react b (Arrive studentId) st))
     = selectedStudentId (entity st).
Proof. intros H. cbn. rewrite H. split; reflexivity. Qed.

(** C9, as the code has it.  A fetch is issued for student [x] and, before
    it resolves, student [y] is selected and a fetch is issued for [y].
    Once both responses have arrived the selected student is [y] in either
    order, and the held lesson rows are those of the response that arrived
    last: the rows of [y] when the response for [x] arrives first, the rows
    of [x] when it arrives last.  No response is discarded. *)
Theorem last_response_is_held :
  forall (st : AppState) (x y : Z) (rowsX rowsY : list Lesson),
    x <> 0 -> y <> 0 ->
    getIndividualStudentData b x = Resolved rowsX ->
    getIndividualStudentData b y = Resolved rowsY ->
    let xFirst := play b [Choose x; Choose y; Arrive x; Arrive y] st in
    let xLast := play b [Choose x; Choose y; Arrive y; Arrive x] st in
    selectedStudentId (entity xFirst) = Some y
    /\ individualStudentData (entity xFirst) = Some rowsY
    /\ selectedStudentId (entity xLast) = Some y
    /\ individualStudentData (entity xLast) = Some rowsX.
Proof.
  intros st x y rowsX rowsY Hx Hy HrowsX HrowsY xFirst xLast.
  subst xFirst xLast. unfold play. cbn [fold_left].
  set (chosen := react b (Choose y) (react b (Choose x) st)).
  assert (Hsel : selectedStudentId (entity chosen) = Some y).
  { subst chosen. cbn. unfold studentSelected at 1. cbn.
    destruct (Z.eqb_spec y 0); [contradiction|reflexivity]. }
  destruct (arrival_overwrites chosen x rowsX HrowsX) as [HdataX HselX].
  destruct (arrival_overwrites chosen y rowsY HrowsY) as [HdataY HselY].
  destruct (arrival_overwrites (react b (Arrive x) chosen) y rowsY HrowsY)
    as [Hdata1 Hsel1].
  destruct (arrival_overwrites (react b (Arrive y) chosen) x rowsX HrowsX)
    as [Hdata2 Hsel2].
  repeat split; congruence.
Qed.

End Responses.

Lemma last_response_is_held_witness :
  let xLast :=
    play Sample.backend [Choose 1; Choose 2; Arrive 2; Arrive 1]
      (initialState (Some Sample.guest)) in
  selectedStudentId (entity xLast) = Some 2
  /\ individualStudentData (entity xLast)
     = Some [Sample.lesson 1 None 1 1 None].
Proof.
  pose proof (last_response_is_held Sample.backend
                (initialState (Some Sample.guest)) 1 2
                [Sample.lesson 1 None 1 1 None] [Sample.lesson 2 None 1 1 None])
    as H.
  cbv zeta in H.
  destruct H as (_ & _ & Hsel & Hrows);
    [discriminate | discriminate | reflexivity | reflexivity |].
  split; [exact Hsel | exact Hrows].
Defined.

(** C9 fails as stated: student [1] is selected, then student [2]; the
    response for [2] arrives, then the late response for [1].  Student [2]
    is selected and the rows held are those of student [1]. *)
Lemma stale_response_overwrites_counterexample :
  let st :=
    play Sample.backend [Choose 1; Choose 2; Arrive 2; Arrive 1]
      (initialState (Some Sample.guest)) in
  selectedStudentId (entity st) = Some 2
  /\ getIndividualStudentData Sample.backend 2
     = Resolved [Sample.lesson 2 None 1 1 None]
  /\ individualStudentData (entity st) = Some [Sample.lesson 1 None 1 1 None]
  /\ individualStudentData (entity st) <> Some [Sample.lesson 2 None 1 1 None].
Proof.
  cbv zeta. repeat split. discriminate.
Qed.

(** ** Filtered metrics *)

Section FilteredMetrics.

Lemma filter_all {A} (l : list A) : filter (fun _ => true) l = l.
Proof. induction l as [|x l IH]; cbn; [reflexivity|now rewrite IH]. Qed.

(** The rows kept are those that pass the most specific filter that is set. *)
Lemma filteredData_most_specific (f : Filters) (data : list Lesson) :
  filteredData f data = filter (Reference.kept f) data.
Proof.
  unfold filteredData, Reference.kept, Reference.mostSpecific,
    Reference.filterLevels.
  cbn [find fst].
  destruct (Js.truthy_id (selectedChapterId f)); [reflexivity|].
  destruct (Js.truthy_id (selectedCourseId f)); [reflexivity|].
  destruct (Js.truthy_id (selectedCollectionId f)); [reflexivity|].
  destruct (Js.truthy_id (selectedCurriculumId f)); [reflexivity|].
  symmetry. apply filter_all.
Qed.

(** With a student selected and the rows loaded, the metrics are those of the
    filtered rows. *)
Lemma calculatedStudentMetrics_selected (st : AppState) (data : list Lesson) :
  Js.truthy_id (selectedStudentId (entity st)) = true ->
  individualStudentData (entity st) = Some data ->
  calculatedStudentMetrics st
  = Some (metricsOf (filters st) (filter (Reference.kept (filters st)) data)).
Proof.
  intros Hsel Hdata. unfold calculatedStudentMetrics.
  now rewrite Hdata, Hsel, filteredData_most_specific.
Qed.

(** Once a chapter is set, the other three ids play no part. *)
Lemma chapter_filter_alone (f f' : Filters) (data : list Lesson) :
  Js.truthy_id (selectedChapterId f) = true ->
  selectedChapterId f' = selectedChapterId f ->
  filteredData f' data = filteredData f data
  /\ metricsOf f' (filteredData f' data) = metricsOf f (filteredData f data).
Proof.
  intros Hset Hsame.
  assert (Hrows : filteredData f' data = filteredData f data).
  { unfold filteredData. now rewrite Hsame, Hset. }
  split; [exact Hrows|].
  unfold metricsOf, studentTitle. now rewrite Hrows, Hsame, Hset.
Qed.

(** An id that fails the test [if (id)] counts as no id at all. *)
Lemma unset_filter_is_null (st : AppState) :
  (Js.truthy_id (selectedChapterId (filters st)) = false ->
   calculatedStudentMetrics (setSelectedChapterId None st)
   = calculatedStudentMetrics st)
  /\ (Js.truthy_id (selectedCourseId (filters st)) = false ->
      calculatedStudentMetrics (setSelectedCourseId None st)
      = calculatedStudentMetrics st)
  /\ (Js.truthy_id (selectedCollectionId (filters st)) = false ->
      calculatedStudentMetrics (setSelectedCollectionId None st)
      = calculatedStudentMetrics st)
  /\ (Js.truthy_id (selectedCurriculumId (filters st)) = false ->
      calculatedStudentMetrics (setSelectedCurriculumId None st)
      = calculatedStudentMetrics st).
Proof.
  unfold calculatedStudentMetrics, metricsOf, studentTitle, filteredData.
  repeat split; intros Hunset; cbn; rewrite Hunset; reflexivity.
Qed.

(** C4.  With a student selected and the lesson rows held,
    [calculatedStudentMetrics] is computed from the rows that pass exactly
    one filter, the most specific one that is set: chapter, else course,
    else collection, else curriculum, else none.  An id is set when it
    passes the code's test [if (id)]: it is neither [null] nor [0], and an
    id that is not set counts as [null].  The four counters are the counts
    over the rows kept.  In particular, when the chapter id is set, the rows
    kept are those of that chapter, and the course, collection and
    curriculum ids have no effect on the metrics. *)
Theorem filtered_metrics_use_most_specific_filter :
  forall (st : AppState) (data : list Lesson),
    Js.truthy_id (selectedStudentId (entity st)) = true ->
    individualStudentData (entity st) = Some data ->
    let f := filters st in
    let rows := filter (Reference.kept f) data in
    calculatedStudentMetrics st
    = Some {| totalLessons := Reference.count (fun _ => true) rows;
              totalCompleted := Reference.count completed rows;
              requiredLessons := Reference.count is_required rows;
              requiredCompleted :=
                Reference.count (fun l => is_required l && completed l) rows;
              title := studentTitle f rows |}
    /\ (Js.truthy_id (selectedChapterId f) = true ->
        rows = filter (fun l => Js.strict_eq (Some (l_chapter_id l))
                                  (selectedChapterId f)) data
        /\ forall curriculumId collectionId courseId : option Z,
             calculatedStudentMetrics
               (st |> setSelectedCurriculumId curriculumId
                   |> setSelectedCollectionId collectionId
                   |> setSelectedCourseId courseId)
             = calculatedStudentMetrics st)
    /\ (Js.truthy_id (selectedChapterId f) = false ->
        calculatedStudentMetrics (setSelectedChapterId None st)
        = calculatedStudentMetrics st)
    /\ (Js.truthy_id (selectedCourseId f) = false ->
        calculatedStudentMetrics (setSelectedCourseId None st)
        = calculatedStudentMetrics st)
    /\ (Js.truthy_id (selectedCollectionId f) = false ->
        calculatedStudentMetrics (setSelectedCollectionId None st)
        = calculatedStudentMetrics st)
    /\ (Js.truthy_id (selectedCurriculumId f) = false ->
        calculatedStudentMetrics (setSelectedCurriculumId None st)
        = calculatedStudentMetrics st).
Proof.
  intros st data Hsel Hdata f rows. subst f rows.
  split; [|split; [|exact (unset_filter_is_null st)]].
  - rewrite (calculatedStudentMetrics_selected st data Hsel Hdata).
    unfold Reference.count, metricsOf. now rewrite filter_all.
  - intros Hset. split.
    + rewrite <- filteredData_most_specific. unfold filteredData.
      now rewrite Hset.
    + intros curriculumId collectionId courseId.
      unfold calculatedStudentMetrics.
      cbn [entity filters setSelectedCurriculumId setSelectedCollectionId
           setSelectedCourseId with_filters individualStudentData
           selectedStudentId].
      rewrite Hdata, Hsel. f_equal.
      apply (chapter_filter_alone (filters st)); [exact Hset | reflexivity].
Qed.

End FilteredMetrics.

(** The example of the documentation: chapter [5] and curriculum [9] are both
    set; the one row of chapter [5] is counted, whatever the course,
    collection and curriculum ids. *)
Lemma filtered_metrics_use_most_specific_filter_witness :
  let st :=
    Sample.withStudent |> setSelectedChapterId (Some 5)
                       |> setSelectedCurriculumId (Some 9) in
  calculatedStudentMetrics st
  = Some {| totalLessons := 1; totalCompleted := 1; requiredLessons := 1;
            requiredCompleted := 1; title := "Student: Chapter" |}
  /\ calculatedStudentMetrics
       (st |> setSelectedCurriculumId None
           |> setSelectedCollectionId (Some 2)
           |> setSelectedCourseId (Some 3))
     = calculatedStudentMetrics st.
Proof.
  intros st.
  destruct (filtered_metrics_use_most_specific_filter st
              [Sample.lesson 1 None 5 9 (Some "2024-01-01");
               Sample.lesson 2 None 6 9 None] eq_refl eq_refl)
    as (Hmetrics & Hchapter & _).
  split.
  - rewrite Hmetrics. reflexivity.
  - apply (Hchapter eq_refl).
Defined.

(** A chapter id [0] is not [null], but the code does not filter by it: with
    chapter [0] and curriculum [9] the rows of curriculum [9] are counted,
    two of them, where the most specific non-null filter keeps the one row
    of chapter [0]. *)
Lemma zero_chapter_id_is_no_filter_counterexample :
  let data :=
    [Sample.lesson 1 None 0 9 None; Sample.lesson 1 None 5 9 None] in
  let st :=
    Sample.withStudent |> setIndividualStudentData (Some data)
                       |> setSelectedChapterId (Some 0)
                       |> setSelectedCurriculumId (Some 9) in
  selectedChapterId (filters st) <> None
  /\ filter (Reference.keptNonNull (filters st)) data
     = [Sample.lesson 1 None 0 9 None]
  /\ filteredData (filters st) data = data
  /\ calculatedStudentMetrics st
     = Some {| totalLessons := 2; totalCompleted := 0; requiredLessons := 2;
               requiredCompleted := 0; title := "Student: Curriculum" |}.
Proof.
  cbv zeta. repeat split. discriminate.
Qed.

(** ** Grouping aggregates *)

(** *** The map operations *)

Section MapFacts.

Context {V : Type}.
Implicit Types (m : JsMap.t V) (k : string) (v : V).

Lemma get_set k k' v m :
  JsMap.get k (JsMap.set k' v m)
  = if (k' =? k)%string then Some v else JsMap.get k m.
Proof.
  induction m as [|[k0 v0] m IH]; cbn.
  - reflexivity.
  - destruct (String.eqb_spec k0 k') as [->|Hne]; cbn.
    + now destruct (k' =? k)%string.
    + rewrite IH.
      destruct (String.eqb_spec k0 k) as [->|]; [|reflexivity].
      destruct (String.eqb_spec k' k) as [->|]; [now elim Hne|reflexivity].
Qed.

Lemma get_update k k' (f : V -> V) m :
  JsMap.get k (JsMap.update k' f m)
  = if (k' =? k)%string then option_map f (JsMap.get k m) else JsMap.get k m.
Proof.
  induction m as [|[k0 v0] m IH]; cbn.
  - now destruct (k' =? k)%string.
  - destruct (String.eqb_spec k0 k') as [->|Hne]; cbn.
    + now destruct (k' =? k)%string.
    + rewrite IH.
      destruct (String.eqb_spec k0 k) as [->|]; [|reflexivity].
      destruct (String.eqb_spec k' k) as [->|]; [now elim Hne|reflexivity].
Qed.

Lemma keys_update k (f : V -> V) m :
  JsMap.keys (JsMap.update k f m) = JsMap.keys m.
Proof.
  induction m as [|[k0 v0] m IH]; cbn; [reflexivity|].
  destruct (k0 =? k)%string; cbn; [reflexivity|].
  f_equal. exact IH.
Qed.

Lemma get_none_not_in k m :
  JsMap.get k m = None -> ~ In k (JsMap.keys m).
Proof.
  induction m as [|[k0 v0] m IH]; cbn; [tauto|].
  destruct (String.eqb_spec k0 k) as [->|Hne]; [discriminate|].
  intros Hget [Heq|Hin]; [contradiction|]. now apply IH.
Qed.

Lemma keys_set_fresh k v m :
  JsMap.get k m = None ->
  JsMap.keys (JsMap.set k v m) = (JsMap.keys m ++ [k])%list.
Proof.
  induction m as [|[k0 v0] m IH]; cbn; [reflexivity|].
  destruct (k0 =? k)%string; [discriminate|].
  intros Hget. cbn. f_equal. now apply IH.
Qed.

(** With distinct keys, an entry of the map is what [get] returns. *)
Lemma in_get k v m :
  NoDup (JsMap.keys m) -> In (k, v) m -> JsMap.get k m = Some v.
Proof.
  induction m as [|[k0 v0] m IH]; cbn; [tauto|].
  intros Hnd [Heq|Hin].
  - injection Heq as -> ->. now rewrite String.eqb_refl.
  - inversion Hnd as [|? ? Hnotin Hnd']; subst.
    destruct (String.eqb_spec k0 k) as [->|_].
    + elim Hnotin. change k with (fst (k, v)). now apply in_map.
    + now apply IH.
Qed.

Lemma get_in k v m : JsMap.get k m = Some v -> In (k, v) m.
Proof.
  induction m as [|[k0 v0] m IH]; cbn; [discriminate|].
  destruct (String.eqb_spec k0 k) as [->|_].
  - intros [= ->]. now left.
  - intros H. right. now apply IH.
Qed.

End MapFacts.

(** *** The interpolated keys are unambiguous *)

Section Keys.

Import Decimal.

Lemma digits_then_dash (d1 d2 : uint) (r1 r2 : string) :
  NilEmpty.string_of_uint d1 ++ String "-" r1
  = NilEmpty.string_of_uint d2 ++ String "-" r2 ->
  d1 = d2 /\ r1 = r2.
Proof.
  revert d2.
  induction d1 as [|d1 IH|d1 IH|d1 IH|d1 IH|d1 IH|d1 IH|d1 IH|d1 IH|d1 IH|d1 IH];
    intros [|d2|d2|d2|d2|d2|d2|d2|d2|d2|d2]; cbn; intros H;
    try discriminate H;
    try (injection H as H; destruct (IH _ H) as [-> ->]; now split).
  injection H as ->. now split.
Qed.

Lemma nonnil_string (d : uint) :
  d <> Nil -> NilZero.string_of_uint d = NilEmpty.string_of_uint d.
Proof. destruct d; [intros H; now elim H | reflexivity ..]. Qed.

Lemma digits_start_with_a_digit (d : uint) (r r' : string) :
  d <> Nil -> NilEmpty.string_of_uint d ++ r <> String "-" r'.
Proof. destruct d; [intros H; now elim H | cbn; discriminate ..]. Qed.

Lemma to_int_nonnil (n : Z) :
  match Z.to_int n with
  | Pos d => d <> Nil
  | Neg d => d <> Nil
  end.
Proof.
  destruct n; cbn; try apply Unsigned.to_uint_nonnil. discriminate.
Qed.

(** [`${a}-${s}`] determines [a] and [s]. *)
Lemma show_key_inj (a a' : Z) (s s' : string) :
  Js.show_Z a ++ "-" ++ s = Js.show_Z a' ++ "-" ++ s' ->
  a = a' /\ s = s'.
Proof.
  unfold Js.show_Z. intros H.
  assert (Hint : Z.to_int a = Z.to_int a' /\ s = s').
  { pose proof (to_int_nonnil a) as Ha.
    pose proof (to_int_nonnil a') as Ha'.
    destruct (Z.to_int a) as [d|d], (Z.to_int a') as [d'|d'];
      cbn [NilZero.string_of_int] in H;
      rewrite ?(nonnil_string d Ha), ?(nonnil_string d' Ha') in H.
    - destruct (digits_then_dash _ _ _ _ H) as [-> ->]. now split.
    - exfalso. exact (digits_start_with_a_digit d _ _ Ha H).
    - exfalso. symmetry in H.
      exact (digits_start_with_a_digit d' _ _ Ha' H).
    - cbn in H. injection H as H.
      destruct (digits_then_dash _ _ _ _ H) as [-> ->]. now split. }
  destruct Hint as [Hint ->]. split; [|reflexivity].
  rewrite <- (DecimalZ.of_to a), <- (DecimalZ.of_to a'). now rewrite Hint.
Qed.

End Keys.

(** *** One level of the aggregation *)

Section Grouping.

Variable lv : Level.

Lemma get_aggregate_level (k : string) (lesson : Lesson) m :
  JsMap.get k (aggregate_level lv lesson m) = tally lv k (JsMap.get k m) lesson.
Proof.
  unfold aggregate_level, tally, JsMap.has.
  fold (freshEntry lv lesson).
  destruct (JsMap.get (level_key lv lesson) m) as [e0|] eqn:Hget; cbn [negb].
  - rewrite get_update.
    destruct (String.eqb_spec (level_key lv lesson) k) as [<-|_];
      [now rewrite Hget | reflexivity].
  - rewrite get_update, get_set.
    destruct (String.eqb_spec (level_key lv lesson) k) as [<-|_];
      [now rewrite Hget | reflexivity].
Qed.

Lemma get_fold (k : string) (data : list Lesson) m :
  JsMap.get k (fold_left (fun m l => aggregate_level lv l m) data m)
  = fold_left (tally lv k) data (JsMap.get k m).
Proof.
  revert m. induction data as [|lesson data IH]; intros m; cbn [fold_left];
    [reflexivity|].
  now rewrite IH, get_aggregate_level.
Qed.

Lemma count_cons {A} (p : A -> bool) (x : A) (l : list A) :
  Reference.count p (x :: l) = (if p x then 1 else 0) + Reference.count p l.
Proof.
  unfold Reference.count, Js.length_Z. cbn [filter].
  destruct (p x); [|reflexivity].
  change (List.length (x :: filter p l)) with (S (List.length (filter p l))).
  rewrite Nat2Z.inj_succ. lia.
Qed.

(** An entry that exists keeps its id and name and gains the lessons of its
    key. *)
Lemma tally_some (k : string) (data : list Lesson) (e : GroupEntry) :
  fold_left (tally lv k) data (Some e)
  = Some {| group_id := group_id e;
            group_name := group_name e;
            total_lessons := total_lessons e + Reference.count (hasKey lv k) data;
            completed_lessons :=
              completed_lessons e
              + Reference.count (fun l => hasKey lv k l && completed l) data |}.
Proof.
  revert e. induction data as [|lesson data IH]; intros e.
  - cbn. destruct e. cbn. now rewrite !Z.add_0_r.
  - cbn [fold_left]. rewrite !count_cons.
    change (tally lv k (Some e) lesson)
      with (if hasKey lv k lesson then Some (count_lesson lesson e) else Some e).
    destruct (hasKey lv k lesson); rewrite IH; [|now rewrite !Z.add_0_l].
    unfold count_lesson, completed.
    cbn [group_id group_name total_lessons completed_lessons andb].
    destruct (Js.truthy_str (completion_date lesson)); f_equal; f_equal; lia.
Qed.

(** A key that is not there yet is opened by the first lesson that has it. *)
Lemma tally_none (k : string) (data : list Lesson) :
  fold_left (tally lv k) data None
  = match find (hasKey lv k) data with
    | Some first =>
        Some {| group_id := level_id lv first;
                group_name := level_name lv first;
                total_lessons := Reference.count (hasKey lv k) data;
                completed_lessons :=
                  Reference.count (fun l => hasKey lv k l && completed l) data |}
    | None => None
    end.
Proof.
  induction data as [|lesson data IH]; [reflexivity|].
  cbn [fold_left find]. rewrite !count_cons.
  change (tally lv k None lesson)
    with (if hasKey lv k lesson
          then Some (count_lesson lesson (freshEntry lv lesson)) else None).
  destruct (hasKey lv k lesson).
  - rewrite tally_some. unfold count_lesson, freshEntry, completed.
    cbn [group_id group_name total_lessons completed_lessons andb].
    destruct (Js.truthy_str (completion_date lesson)); f_equal; f_equal; lia.
  - rewrite IH, !Z.add_0_l.
    destruct (find (hasKey lv k) data); reflexivity.
Qed.

Lemma get_groupMap (k : string) (data : list Lesson) :
  JsMap.get k (groupMap lv data)
  = match find (hasKey lv k) data with
    | Some first =>
        Some {| group_id := level_id lv first;
                group_name := level_name lv first;
                total_lessons := Reference.count (hasKey lv k) data;
                completed_lessons :=
                  Reference.count (fun l => hasKey lv k l && completed l) data |}
    | None => None
    end.
Proof.
  unfold groupMap. rewrite get_fold. apply tally_none.
Qed.

Lemma NoDup_snoc {A} (l : list A) (x : A) :
  NoDup l -> ~ In x l -> NoDup (l ++ [x])%list.
Proof.
  induction l as [|y l IH]; cbn; intros Hnd Hnotin.
  - constructor; [tauto|constructor].
  - inversion Hnd as [|? ? Hy Hnd']; subst.
    constructor.
    + rewrite in_app_iff. cbn. intros [Hin|[->|[]]]; [tauto|].
      apply Hnotin. now left.
    + apply IH; [exact Hnd'|tauto].
Qed.

Lemma keys_aggregate_level (lesson : Lesson) m :
  NoDup (JsMap.keys m) -> NoDup (JsMap.keys (aggregate_level lv lesson m)).
Proof.
  intros Hnd. unfold aggregate_level, JsMap.has.
  destruct (JsMap.get (level_key lv lesson) m) eqn:Hget; cbn [negb];
    rewrite keys_update; [exact Hnd|].
  rewrite (keys_set_fresh _ _ _ Hget).
  apply NoDup_snoc; [exact Hnd|]. now apply get_none_not_in.
Qed.

Lemma keys_groupMap (data : list Lesson) : NoDup (JsMap.keys (groupMap lv data)).
Proof.
  unfold groupMap.
  assert (H : forall m, NoDup (JsMap.keys m) ->
                NoDup (JsMap.keys
                         (fold_left (fun m l => aggregate_level lv l m)
                            data m))).
  { induction data as [|lesson data IH]; intros m Hm; [exact Hm|].
    cbn. apply IH. now apply keys_aggregate_level. }
  apply H. constructor.
Qed.

(** The lessons that share the key of an entry are those of its group. *)
Lemma hasKey_sameGroup (e : GroupEntry) (lesson : Lesson) :
  hasKey lv (entryKey e) lesson = Reference.sameGroup lv e lesson.
Proof.
  unfold hasKey, Reference.sameGroup, entryKey, level_key.
  destruct (String.eqb_spec
              (Js.show_Z (level_id lv lesson) ++ "-"
               ++ Js.show_str (level_name lv lesson))
              (Js.show_Z (group_id e) ++ "-" ++ Js.show_str (group_name e)))
    as [Heq|Hne].
  - destruct (show_key_inj _ _ _ _ Heq) as [-> ->].
    now rewrite Z.eqb_refl, String.eqb_refl.
  - destruct (Z.eqb_spec (level_id lv lesson) (group_id e)) as [Hid|];
      [|reflexivity].
    destruct (String.eqb_spec (Js.show_str (level_name lv lesson))
                (Js.show_str (group_name e))) as [Hname|]; [|reflexivity].
    elim Hne. now rewrite Hid, Hname.
Qed.

(** Every stored entry sits under its own key and counts its own group. *)
Lemma entry_of_groupMap (k : string) (e : GroupEntry) (data : list Lesson) :
  In (k, e) (groupMap lv data) ->
  k = entryKey e
  /\ total_lessons e = Reference.count (Reference.sameGroup lv e) data
  /\ completed_lessons e
     = Reference.count (fun l => Reference.sameGroup lv e l && completed l) data
  /\ exists first, In first data /\ Reference.sameGroup lv e first = true.
Proof.
  intros Hin.
  apply (in_get _ _ _ (keys_groupMap data)) in Hin.
  rewrite get_groupMap in Hin.
  destruct (find (hasKey lv k) data) as [first|] eqn:Hfind; [|discriminate].
  apply find_some in Hfind as [Hfirst Hkey].
  unfold hasKey in Hkey. apply String.eqb_eq in Hkey.
  injection Hin as <-.
  set (e := {| group_id := level_id lv first;
               group_name := level_name lv first;
               total_lessons := Reference.count (hasKey lv k) data;
               completed_lessons :=
                 Reference.count (fun l => hasKey lv k l && completed l) data |}).
  assert (Hk : k = entryKey e) by (now rewrite <- Hkey).
  assert (Hext : forall l, hasKey lv k l = Reference.sameGroup lv e l).
  { intros l. rewrite <- hasKey_sameGroup. now rewrite <- Hk. }
  split; [exact Hk|].
  cbn [e total_lessons completed_lessons]. unfold Reference.count.
  repeat split; try (f_equal; apply filter_ext; intros l; now rewrite Hext).
  exists first. split; [exact Hfirst|].
  rewrite <- Hext. unfold hasKey. rewrite Hkey. apply String.eqb_refl.
Qed.

(** Every lesson is counted by some entry. *)
Lemma lesson_has_entry (lesson : Lesson) (data : list Lesson) :
  In lesson data ->
  exists e, In e (JsMap.values (groupMap lv data))
            /\ Reference.sameGroup lv e lesson = true.
Proof.
  intros Hin.
  pose proof (get_groupMap (level_key lv lesson) data) as Hget.
  destruct (find (hasKey lv (level_key lv lesson)) data) as [first|] eqn:Hfind.
  - apply get_in in Hget.
    match type of Hget with In (_, ?entry) _ => set (e := entry) in * end.
    destruct (entry_of_groupMap _ e _ Hget) as (Hk & _).
    exists e. split.
    + unfold JsMap.values. apply in_map_iff.
      exists (level_key lv lesson, e). now split.
    + rewrite <- hasKey_sameGroup, <- Hk. unfold hasKey.
      apply String.eqb_refl.
  - apply (find_none _ _ Hfind) in Hin. unfold hasKey in Hin.
    now rewrite String.eqb_refl in Hin.
Qed.

(** No two entries have both the same id and the same name. *)
Lemma entries_distinct (data : list Lesson) :
  NoDup (map (fun e => (group_id e, Js.show_str (group_name e)))
             (JsMap.values (groupMap lv data))).
Proof.
  pose proof (keys_groupMap data) as Hnd.
  assert (Hkeys : JsMap.keys (groupMap lv data)
                  = map entryKey (JsMap.values (groupMap lv data))).
  { unfold JsMap.keys, JsMap.values. rewrite map_map.
    apply map_ext_in. intros [k e] Hin.
    now destruct (entry_of_groupMap k e data Hin) as [-> _]. }
  rewrite Hkeys in Hnd.
  replace (map entryKey (JsMap.values (groupMap lv data)))
    with (map (fun p : Z * string => Js.show_Z (fst p) ++ "-" ++ snd p)
            (map (fun e => (group_id e, Js.show_str (group_name e)))
               (JsMap.values (groupMap lv data)))) in Hnd
    by (now rewrite map_map).
  exact (NoDup_map_inv _ _ Hnd).
Qed.

End Grouping.

(** *** The three levels together *)

Section PerStudent.

(** The three maps of the [forEach] advance independently. *)
Lemma fold_aggregate_lesson (data : list Lesson) (maps : GroupMaps) :
  fold_left aggregate_lesson data maps
  = {| collectionMap :=
         fold_left (fun m l => aggregate_level Collection l m) data
           (collectionMap maps);
       courseMap :=
         fold_left (fun m l => aggregate_level Course l m) data
           (courseMap maps);
       chapterMap :=
         fold_left (fun m l => aggregate_level Chapter l m) data
           (chapterMap maps) |}.
Proof.
  revert maps. induction data as [|lesson data IH]; intros maps.
  - now destruct maps.
  - cbn [fold_left]. now rewrite IH.
Qed.

Lemma perStudentAggregates_entries (st : AppState) (data : list Lesson)
    (lv : Level) :
  Js.truthy_id (selectedStudentId (entity st)) = true ->
  individualStudentData (entity st) = Some data ->
  entriesOf lv (perStudentAggregates st) = JsMap.values (groupMap lv data).
Proof.
  intros Hsel Hdata. unfold perStudentAggregates.
  rewrite Hdata, Hsel, fold_aggregate_lesson.
  now destruct lv.
Qed.

(** The filters are not read. *)
Lemma perStudentAggregates_ignores_filters (st : AppState) (f : Filters) :
  perStudentAggregates (with_filters f st) = perStudentAggregates st.
Proof. reflexivity. Qed.

(** When a group id always comes with the same name, grouping by id and name
    is grouping by id. *)
Lemma sameGroup_sameId (lv : Level) (e : GroupEntry) (data : list Lesson) :
  (forall l1 l2, In l1 data -> In l2 data ->
     level_id lv l1 = level_id lv l2 ->
     Js.show_str (level_name lv l1) = Js.show_str (level_name lv l2)) ->
  (exists first, In first data /\ Reference.sameGroup lv e first = true) ->
  forall l, In l data -> Reference.sameGroup lv e l = Reference.sameId lv e l.
Proof.
  intros Hnames (first & Hfirst & Hsame) l Hl.
  unfold Reference.sameGroup, Reference.sameId in *.
  apply andb_true_iff in Hsame as [Hid Hname].
  apply Z.eqb_eq in Hid. apply String.eqb_eq in Hname.
  destruct (Z.eqb_spec (level_id lv l) (group_id e)) as [Heq|]; [|reflexivity].
  cbn. rewrite <- Hname, (Hnames l first Hl Hfirst) by congruence.
  apply String.eqb_refl.
Qed.

(** C5, as the code has it.  With a student selected and the lesson rows
    loaded, the grouping aggregates are computed from all the rows, whatever
    the four filter ids.  At each of the three levels the map is keyed by the
    id together with the name ([`${id}-${name}`]), not by the id alone:
    there is exactly one entry per pair of id and name that occurs, every
    row is counted by one entry, the [total_lessons] of an entry is the
    number of rows with its id and its name, and its [completed_lessons] the
    number of those whose [completion_date] passes the test [if (date)].
    When every id comes with one name only, these are the counts of the rows
    with that id. *)
Theorem grouping_counts_per_id_and_name :
  forall (st : AppState) (data : list Lesson) (lv : Level),
    Js.truthy_id (selectedStudentId (entity st)) = true ->
    individualStudentData (entity st) = Some data ->
    let entries := entriesOf lv (perStudentAggregates st) in
    (forall f, perStudentAggregates (with_filters f st) = perStudentAggregates st)
    /\ NoDup (map (fun e => (group_id e, Js.show_str (group_name e))) entries)
    /\ (forall l, In l data ->
          exists e, In e entries /\ Reference.sameGroup lv e l = true)
    /\ (forall e, In e entries ->
          total_lessons e = Reference.count (Reference.sameGroup lv e) data
          /\ completed_lessons e
             = Reference.count
                 (fun l => Reference.sameGroup lv e l && completed l) data)
    /\ ((forall l1 l2, In l1 data -> In l2 data ->
           level_id lv l1 = level_id lv l2 ->
           Js.show_str (level_name lv l1) = Js.show_str (level_name lv l2)) ->
        forall e, In e entries ->
          total_lessons e = Reference.count (Reference.sameId lv e) data
          /\ completed_lessons e
             = Reference.count
                 (fun l => Reference.sameId lv e l && completed l) data).
Proof.
  intros st data lv Hsel Hdata entries. subst entries.
  rewrite (perStudentAggregates_entries st data lv Hsel Hdata).
  assert (Hentry : forall e, In e (JsMap.values (groupMap lv data)) ->
            exists k, In (k, e) (groupMap lv data)).
  { intros e He. apply in_map_iff in He as [[k e'] [Heq Hin]].
    cbn in Heq. subst e'. now exists k. }
  split; [intros f; apply perStudentAggregates_ignores_filters|].
  split; [apply entries_distinct|].
  split; [intros l Hl; now apply lesson_has_entry|].
  split.
  - intros e He. destruct (Hentry e He) as [k Hin].
    destruct (entry_of_groupMap lv k e data Hin) as (_ & Htotal & Hdone & _).
    now split.
  - intros Hnames e He. destruct (Hentry e He) as [k Hin].
    destruct (entry_of_groupMap lv k e data Hin)
      as (_ & Htotal & Hdone & Hfirst).
    pose proof (sameGroup_sameId lv e data Hnames Hfirst) as Hsame.
    rewrite Htotal, Hdone. unfold Reference.count.
    split; f_equal; apply filter_ext_in; intros l Hl;
      now rewrite (Hsame l Hl).
Qed.

End PerStudent.

(** The example of the documentation: two lessons of collection [1], one of
    them completed, and one lesson of collection [2], not completed. *)
Lemma grouping_counts_per_id_and_name_witness :
  let data :=
    [Sample.lesson 1 None 5 9 None;
     Sample.lesson 1 None 5 9 (Some "2024-01-01");
     Sample.lesson 2 None 6 9 None] in
  let st :=
    initialState (Some Sample.guest)
      |> setSelectedStudentId (Some 7)
      |> setIndividualStudentData (Some data) in
  ps_collectionAggregates (perStudentAggregates st)
  = [ {| group_id := 1; group_name := None;
         total_lessons := 2; completed_lessons := 1 |};
      {| group_id := 2; group_name := None;
         total_lessons := 1; completed_lessons := 0 |} ]
  /\ forall e, In e (ps_collectionAggregates (perStudentAggregates st)) ->
       total_lessons e
       = Reference.count (Reference.sameGroup Collection e) data.
Proof.
  intros data st. split; [reflexivity|].
  intros e He.
  destruct (grouping_counts_per_id_and_name st data Collection
              eq_refl eq_refl) as (_ & _ & _ & Hcount & _).
  now apply Hcount.
Defined.

(** The same example with the fields it leaves out left open: whatever else
    the three rows hold, as long as the two rows of collection [1] carry the
    same name. *)
Lemma grouping_example (r1 r2 r3 : Lesson) (st : AppState) :
  Js.truthy_id (selectedStudentId (entity st)) = true ->
  individualStudentData (entity st) = Some [r1; r2; r3] ->
  l_collection_id r1 = 1 -> l_collection_id r2 = 1 -> l_collection_id r3 = 2 ->
  l_collection_name r2 = l_collection_name r1 ->
  completion_date r1 = None ->
  Js.truthy_str (completion_date r2) = true ->
  completion_date r3 = None ->
  ps_collectionAggregates (perStudentAggregates st)
  = [ {| group_id := 1; group_name := l_collection_name r1;
         total_lessons := 2; completed_lessons := 1 |};
      {| group_id := 2; group_name := l_collection_name r3;
         total_lessons := 1; completed_lessons := 0 |} ].
Proof.
  intros Hsel Hdata Hc1 Hc2 Hc3 Hname Hd1 Hd2 Hd3.
  change (ps_collectionAggregates (perStudentAggregates st))
    with (entriesOf Collection (perStudentAggregates st)).
  rewrite (perStudentAggregates_entries st _ Collection Hsel Hdata).
  unfold groupMap, aggregate_level, level_key, count_lesson.
  cbn [fold_left level_id level_name].
  rewrite Hc1, Hc2, Hc3, Hname, Hd1, Hd2, Hd3.
  unfold JsMap.has.
  repeat (cbn; rewrite ?String.eqb_refl).
  reflexivity.
Qed.

(** C5 fails as stated: two rows of collection [1] that carry different
    names open two entries with the id [1], each counting one lesson, while
    two rows have that id. *)
Lemma grouping_splits_an_id_counterexample :
  let data :=
    [Sample.lesson 1 (Some "Family Medicine") 5 9 None;
     Sample.lesson 1 (Some "Family Med.") 5 9 None] in
  let st :=
    initialState (Some Sample.guest)
      |> setSelectedStudentId (Some 7)
      |> setIndividualStudentData (Some data) in
  let first :=
    {| group_id := 1; group_name := Some "Family Medicine";
       total_lessons := 1; completed_lessons := 0 |} in
  ps_collectionAggregates (perStudentAggregates st)
  = [ first;
      {| group_id := 1; group_name := Some "Family Med.";
         total_lessons := 1; completed_lessons := 0 |} ]
  /\ Reference.count (Reference.sameId Collection first) data = 2
  /\ ~ (forall e, In e (ps_collectionAggregates (perStudentAggregates st)) ->
          total_lessons e
          = Reference.count (Reference.sameId Collection e) data).
Proof.
  cbv zeta. split; [reflexivity|]. split; [reflexivity|].
  intros H. specialize (H _ (or_introl eq_refl)). discriminate H.
Qed.

(** ** Display projection *)

Section Percentages.

(** The quotient is taken first and scaled by [100] afterwards, each step
    rounded to binary64, before [Math.round] is applied. *)
Lemma percentage_positive (num den : Z) :
  0 < den ->
  percentage num den
  = Number.round
      (Number.mul (Number.div (Number.of_Z num) (Number.of_Z den))
                  (Number.of_Z 100)).
Proof.
  intros Hden. unfold percentage.
  now destruct (Z.ltb_spec 0 den); [|lia].
Qed.

(** Without a positive denominator nothing is divided. *)
Lemma percentage_guard (num den : Z) :
  den <= 0 -> percentage num den = Number.of_Z 0.
Proof.
  intros Hden. unfold percentage.
  now destruct (Z.ltb_spec 0 den); [lia|].
Qed.

(** C6, as the code has it.  Each percentage is
    [Math.round((completed / total) * 100)]: the quotient first, then the
    product, both in binary64, so that at an exact half the result can fall
    on either side (29 of 200 shows 14, 1 of 200 shows 1).  Whenever the
    denominator is [0] (or is not positive) the percentage is the number
    [0]; no division takes place and the result is not [NaN]. *)
Theorem percentages_divide_then_scale :
  forall d : Metrics,
    let shown num den :=
      Number.round
        (Number.mul (Number.div (Number.of_Z num) (Number.of_Z den))
                    (Number.of_Z 100)) in
    (0 < totalLessons d ->
     totalPercentage d = shown (totalCompleted d) (totalLessons d))
    /\ (0 < requiredLessons d ->
        requiredPercentage d = shown (requiredCompleted d) (requiredLessons d))
    /\ (totalLessons d <= 0 ->
        totalPercentage d = Number.of_Z 0
        /\ Number.is_nan (totalPercentage d) = false)
    /\ (requiredLessons d <= 0 ->
        requiredPercentage d = Number.of_Z 0
        /\ Number.is_nan (requiredPercentage d) = false).
Proof.
  intros d shown. subst shown. unfold totalPercentage, requiredPercentage.
  repeat split.
  - now apply percentage_positive.
  - now apply percentage_positive.
  - now apply percentage_guard.
  - now rewrite percentage_guard.
  - now apply percentage_guard.
  - now rewrite percentage_guard.
Qed.

(** Whenever at most [200] lessons are expected and no more are completed
    than expected, the percentage shown is an integer nearest to the exact
    one. *)
Lemma percentage_nearest_small :
  forallb (fun den =>
             forallb (fun num =>
                        (den =? 0)
                        || Reference.showsNearest (percentage num den) num den)
                     (Reference.upTo (Z.to_nat den)))
          (Reference.upTo 200)
  = true.
Proof. vm_compute. reflexivity. Qed.

Lemma in_upTo (n : nat) (z : Z) :
  0 <= z <= Z.of_nat n -> In z (Reference.upTo n).
Proof.
  intros Hz. unfold Reference.upTo. apply in_map_iff.
  exists (Z.to_nat z). split; [lia|].
  apply in_seq. lia.
Qed.

Lemma percentage_nearest (num den : Z) :
  0 <= num <= den -> 0 < den <= 200 ->
  Reference.showsNearest (percentage num den) num den = true.
Proof.
  intros Hnum Hden.
  pose proof percentage_nearest_small as Hall.
  rewrite forallb_forall in Hall.
  specialize (Hall den (in_upTo 200 den ltac:(lia))).
  rewrite forallb_forall in Hall.
  specialize (Hall num (in_upTo (Z.to_nat den) num ltac:(lia))).
  apply orb_true_iff in Hall as [Hzero|Hok]; [|exact Hok].
  apply Z.eqb_eq in Hzero. lia.
Qed.

End Percentages.

Lemma percentages_divide_then_scale_witness :
  let d :=
    {| totalLessons := 200; totalCompleted := 29;
       requiredLessons := 0; requiredCompleted := 0;
       title := "Student Progress" |} in
  totalPercentage d = Number.of_Z 14
  /\ requiredPercentage d = Number.of_Z 0
  /\ Number.is_nan (requiredPercentage d) = false.
Proof.
  intros d.
  destruct (percentages_divide_then_scale d) as (Htotal & _ & _ & Hrequired).
  split.
  - rewrite Htotal by (cbn; lia). vm_compute. reflexivity.
  - apply Hrequired. cbn. lia.
Defined.

(** C6 fails as stated: with 29 lessons completed out of 200 the exact
    percentage is 14.5 and [round(100 * 29 / 200)] is 15, whether computed
    exactly or in binary64; the chart shows 14, because 29 / 200 rounds to a
    binary64 number whose product by 100 is 14.499999999999998.  With 1
    lesson out of 200 the exact percentage is 0.5 and the chart shows 1. *)
Lemma percentage_of_29_in_200_counterexample :
  let d :=
    {| totalLessons := 200; totalCompleted := 29;
       requiredLessons := 200; requiredCompleted := 1;
       title := "Student Progress" |} in
  totalPercentage d = Number.of_Z 14
  /\ Reference.percentage (totalCompleted d) (totalLessons d) = Number.of_Z 15
  /\ Reference.percentageExact (totalCompleted d) (totalLessons d) = 15
  /\ totalPercentage d
     <> Reference.percentage (totalCompleted d) (totalLessons d)
  /\ requiredPercentage d = Number.of_Z 1.
Proof.
  cbv zeta. repeat split; try (vm_compute; reflexivity).
  vm_compute. discriminate.
Qed.

(** * Further properties *)

(** ** Cohort selection *)

Section CohortSelection.

(** X1.  Selecting a cohort lists in the student selector exactly the
    students whose row in the cohort-student table carries that cohort id;
    it sets the cohort, clears the student and the held lesson rows, and
    leaves the school, the filters and the cohort tables as they were. *)
Theorem cohort_selection_lists_its_students :
  forall (st : AppState) (cohortId : Z),
    cohortId <> 0 ->
    let st' := handleCohortSelection (Some cohortId) st in
    selectedCohortId (entity st') = Some cohortId
    /\ selectedStudentId (entity st') = None
    /\ individualStudentData (entity st') = None
    /\ selectedSchoolId (entity st') = selectedSchoolId (entity st)
    /\ filters st' = filters st
    /\ cohort_tables st' = cohort_tables st
    /\ forall s : Student,
         In s (studentsForSelector (school_tables st')) <->
         exists agg,
           In agg (cohortStudentAggregates (cohort_tables st))
           /\ sa_cohort_id agg = Some cohortId
           /\ s = toStudent agg.
Proof.
  intros st cohortId Hid st'. subst st'.
  unfold handleCohortSelection. cbn [Js.truthy_id].
  destruct (Z.eqb_spec cohortId 0) as [|_]; [contradiction|].
  cbn. do 6 (split; [reflexivity|]).
  intros s. rewrite in_map_iff. split.
  - intros (agg & <- & Hin). apply filter_In in Hin as [Hin Hcohort].
    exists agg. repeat split; [exact Hin|].
    destruct (sa_cohort_id agg) as [c|]; [|discriminate].
    cbn in Hcohort. apply Z.eqb_eq in Hcohort. now subst.
  - intros (agg & Hin & Hcohort & ->).
    exists agg. split; [reflexivity|].
    apply filter_In. split; [exact Hin|].
    rewrite Hcohort. cbn. apply Z.eqb_refl.
Qed.

End CohortSelection.

Lemma cohort_selection_lists_its_students_witness :
  let rows :=
    [ {| student_id := 7; sa_student_email := Some "a@x.org";
         sa_student_first := Some "Ada"; sa_student_last := None;
         sa_school_id := 1; sa_cohort_id := Some 4 |};
      {| student_id := 8; sa_student_email := None;
         sa_student_first := Some "Bob"; sa_student_last := Some "Ray";
         sa_school_id := 1; sa_cohort_id := Some 5 |} ] in
  let st := Sample.withStudent |> setCohortStudentAggregates rows in
  selectedStudentId (entity (handleCohortSelection (Some 4) st)) = None.
Proof.
  intros rows st.
  apply (cohort_selection_lists_its_students st 4). discriminate.
Defined.

(** ** Loading a school *)

Section SchoolLoad.

Variable b : Backend.
Variable db : string -> Response SchoolQueries.

(** The client talks to the route of this repository. *)
Hypothesis served :
  forall n, getAggregatedDataForSchool b n = getAggregatedDataForSchoolFrom db n.

Lemma show_Z_truthy (n : Z) : Js.truthy_str (Some (Js.show_Z n)) = true.
Proof.
  unfold Js.truthy_str, Js.show_Z.
  pose proof (to_int_nonnil n) as Hn.
  destruct (Z.to_int n) as [d|d]; cbn [NilZero.string_of_int];
    [rewrite (nonnil_string d Hn); destruct d;
       [now elim Hn | reflexivity ..]
    | reflexivity].
Qed.

(** What the client makes of the answer of the route. *)
Lemma client_of_route (n : Z) :
  getAggregatedDataForSchool b n
  = match db (Js.show_Z n) with
    | Resolved rows => Resolved (bundleOf rows)
    | Rejected _ => Rejected "HTTP error! status: 500"
    end.
Proof.
  rewrite served.
  unfold getAggregatedDataForSchoolFrom, schoolAggregatesHandler.
  cbn [String.eqb Ascii.eqb Bool.eqb negb].
  rewrite show_Z_truthy.
  destruct (db (Js.show_Z n)); reflexivity.
Qed.

Lemma granted_selection (st : AppState) (n : Z) :
  n <> 0 ->
  accessDenied b st n = false ->
  handleSchoolSelection b (Some n) st
  = schoolFetched b n (schoolApplied n st).
Proof.
  intros Hn Hgranted. unfold handleSchoolSelection. cbn [Js.truthy_id].
  destruct (Z.eqb_spec n 0) as [|_]; [contradiction|].
  cbn [negb]. now rewrite Hgranted.
Qed.

(** X2.  A granted selection of a school whose twelve queries succeed, and
    whose cohorts request resolves, replaces every aggregate table by the
    rows of the matching query, sets the cohort list to the answer, fills
    the student selector with all students of the school, and clears the
    error; the filters are kept.  The route sends no [studentAggregate] key,
    so the table [studentAggregates] is always left empty, and the handler
    never sets [loading] back to [false]. *)
Theorem school_load_replaces_tables :
  forall (st : AppState) (n : Z) (q : SchoolQueries)
         (cohortsData : option (list Cohort)),
    n <> 0 ->
    accessDenied b st n = false ->
    db (Js.show_Z n) = Resolved q ->
    getCohorts b n = Resolved cohortsData ->
    let st' := handleSchoolSelection b (Some n) st in
    school_tables st'
    = {| schoolAggregates := q_schoolAggregate q;
         curriculumAggregates := q_curriculumAggregate q;
         collectionAggregates := q_schoolCollectionAggregate q;
         courseAggregates := q_schoolCourseAggregate q;
         chapterAggregates := q_schoolChapterAggregate q;
         studentAggregates := [];
         studentsForSelector := map toStudent (q_schoolStudentAggregate q);
         cohorts := or_nil cohortsData |}
    /\ cohort_tables st'
       = {| cohortAggregates := q_cohortAggregate q;
            cohortCurriculumAggregates := q_cohortCurriculumAggregate q;
            cohortCollectionAggregates := q_cohortCollectionAggregate q;
            cohortCourseAggregates := q_cohortCourseAggregate q;
            cohortChapterAggregates := q_cohortChapterAggregate q;
            cohortStudentAggregates := q_cohortStudentAggregate q |}
    /\ entity st'
       = {| selectedSchoolId := Some n; selectedCohortId := None;
            selectedStudentId := None; individualStudentData := None |}
    /\ filters st' = filters st
    /\ error (status st') = None
    /\ loading (status st') = true.
Proof.
  intros st n q cohortsData Hn Hgranted Hdb Hcohorts st'. subst st'.
  rewrite (granted_selection st n Hn Hgranted).
  unfold schoolFetched. rewrite client_of_route, Hdb, Hcohorts.
  repeat split.
Qed.

(** X3.  When the database fails on the queries of a granted selection, the
    school is already switched and the cohort and student cleared, every
    aggregate table keeps the rows of the school shown before, and [loading]
    stays [true].  The error shown is that of the request [Promise.all] saw
    rejected first: the status of the response of the route, which replaces
    the message of the database, unless the cohorts request was rejected
    before it, whose message is then shown. *)
Theorem school_load_failure_keeps_tables :
  forall (st : AppState) (n : Z) (message : string),
    n <> 0 ->
    accessDenied b st n = false ->
    db (Js.show_Z n) = Rejected message ->
    let st' := handleSchoolSelection b (Some n) st in
    let shown :=
      match getCohorts b n with
      | Rejected cohortsMessage =>
          if cohortsRejectFirst b n then cohortsMessage
          else "HTTP error! status: 500"
      | Resolved _ => "HTTP error! status: 500"
      end in
    school_tables st' = school_tables st
    /\ cohort_tables st' = cohort_tables st
    /\ entity st'
       = {| selectedSchoolId := Some n; selectedCohortId := None;
            selectedStudentId := None; individualStudentData := None |}
    /\ filters st' = filters st
    /\ error (status st') = Some ("Failed to load school data: " ++ shown)
    /\ loading (status st') = true.
Proof.
  intros st n message Hn Hgranted Hdb st' shown. subst st' shown.
  rewrite (granted_selection st n Hn Hgranted).
  unfold schoolFetched. rewrite client_of_route, Hdb.
  destruct (getCohorts b n) as [cohortsData|cohortsMessage];
    [|destruct (cohortsRejectFirst b n)]; repeat split.
Qed.

(** X4.  After a school has been loaded from the route, selecting a cohort
    and then clearing it does not bring the students of the whole school
    back into the student selector: the list stays that of the cohort,
    because the table the reset reads, [studentAggregates], is empty. *)
Theorem cohort_reset_keeps_cohort_students :
  forall (st : AppState) (n cohortId : Z) (q : SchoolQueries)
         (cohortsData : option (list Cohort)),
    n <> 0 ->
    cohortId <> 0 ->
    accessDenied b st n = false ->
    db (Js.show_Z n) = Resolved q ->
    getCohorts b n = Resolved cohortsData ->
    let loaded := handleSchoolSelection b (Some n) st in
    let inCohort := handleCohortSelection (Some cohortId) loaded in
    let cleared := handleCohortSelection None inCohort in
    studentsForSelector (school_tables loaded)
    = map toStudent (q_schoolStudentAggregate q)
    /\ studentsForSelector (school_tables inCohort)
       = map toStudent
           (filter (fun agg => Js.strict_eq (sa_cohort_id agg) (Some cohortId))
              (q_cohortStudentAggregate q))
    /\ selectedCohortId (entity cleared) = None
    /\ studentsForSelector (school_tables cleared)
       = studentsForSelector (school_tables inCohort).
Proof.
  intros st n cohortId q cohortsData Hn Hc Hgranted Hdb Hcohorts.
  cbv zeta.
  rewrite (granted_selection st n Hn Hgranted).
  unfold schoolFetched. rewrite client_of_route, Hdb, Hcohorts.
  unfold handleCohortSelection. cbn [Js.truthy_id].
  destruct (Z.eqb_spec cohortId 0) as [|_]; [contradiction|].
  cbn. rewrite andb_false_r. repeat split.
Qed.

End SchoolLoad.

Lemma school_load_replaces_tables_witness :
  let st' :=
    handleSchoolSelection SampleRoute.backend (Some 1)
      (initialState (Some Sample.guest)) in
  studentAggregates (school_tables st') = []
  /\ loading (status st') = true.
Proof.
  destruct (school_load_replaces_tables SampleRoute.backend SampleRoute.db
              (fun n => eq_refl) (initialState (Some Sample.guest)) 1
              SampleRoute.queries None)
    as (Htables & _ & _ & _ & _ & Hloading);
    [discriminate | reflexivity | reflexivity | reflexivity |].
  split; [now rewrite Htables | exact Hloading].
Defined.

Lemma school_load_failure_keeps_tables_witness :
  let unreachable :=
    servedBy SampleRoute.db
      {| canAccessSchool := fun _ => true;
         getAggregatedDataForSchool := fun _ => Resolved Sample.emptyBundle;
         getCohorts := fun _ => Rejected "HTTP error! status: 404";
         cohortsRejectFirst := fun _ => true;
         getIndividualStudentData := fun _ => Resolved [] |} in
  let st :=
    initialState (Some Sample.supaadmin)
      |> with_school_tables (school_tables SampleRoute.loaded) in
  (let st' := handleSchoolSelection SampleRoute.backend (Some 5) st in
   school_tables st' = school_tables st
   /\ selectedSchoolId (entity st') = Some 5
   /\ error (status st')
      = Some "Failed to load school data: HTTP error! status: 500"
   /\ loading (status st') = true)
  /\ (let st' := handleSchoolSelection unreachable (Some 5) st in
      school_tables st' = school_tables st
      /\ selectedSchoolId (entity st') = Some 5
      /\ error (status st')
         = Some "Failed to load school data: HTTP error! status: 404"
      /\ loading (status st') = true).
Proof.
  intros unreachable st. split.
  - destruct (school_load_failure_keeps_tables SampleRoute.backend
                SampleRoute.db (fun n => eq_refl) st 5
                "relation does not exist")
      as (Htables & _ & Hentity & _ & Herror & Hloading);
      [discriminate | reflexivity | reflexivity |].
    cbv zeta. rewrite Htables, Hentity, Herror, Hloading. repeat split.
  - destruct (school_load_failure_keeps_tables unreachable
                SampleRoute.db (fun n => eq_refl) st 5
                "relation does not exist")
      as (Htables & _ & Hentity & _ & Herror & Hloading);
      [discriminate | reflexivity | reflexivity |].
    cbv zeta. rewrite Htables, Hentity, Herror, Hloading. repeat split.
Defined.

Lemma cohort_reset_keeps_cohort_students_witness :
  let inCohort := handleCohortSelection (Some 4) SampleRoute.loaded in
  let cleared := handleCohortSelection None inCohort in
  studentsForSelector (school_tables cleared)
  = [toStudent (SampleRoute.student 7 4)]
  /\ List.length (studentsForSelector (school_tables SampleRoute.loaded)) = 2%nat.
Proof.
  destruct (cohort_reset_keeps_cohort_students SampleRoute.backend
              SampleRoute.db (fun n => eq_refl)
              (initialState (Some Sample.guest)) 1 4 SampleRoute.queries None)
    as (_ & Hcohort & _ & Hcleared);
    [discriminate | discriminate | reflexivity | reflexivity | reflexivity |].
  intros inCohort cleared. subst inCohort cleared.
  split; [|reflexivity].
  unfold SampleRoute.loaded. rewrite Hcleared, Hcohort. reflexivity.
Defined.

(** ** Handlers and the resolver together *)

Section HandlersAndResolver.

Variable b : Backend.

(** The row the resolver designates does not depend on the student. *)
Lemma aggregateData_ignores_student (st : AppState) studentId rows :
  aggregateData
    (st |> setSelectedStudentId studentId |> setIndividualStudentData rows)
  = aggregateData st.
Proof. reflexivity. Qed.

Lemma aggregateData_ignores_status (st : AppState) (s : Status) :
  aggregateData (with_status s st) = aggregateData st.
Proof. reflexivity. Qed.

(** What the resolver answers when no student metrics exist. *)
Lemma currentAggregate_without_metrics (st : AppState) :
  calculatedStudentMetrics st = None ->
  currentAggregate st
  = match aggregateData st with
    | Some (data, title) => Some (formatAggregate data title)
    | None => None
    end.
Proof.
  intros Hm. unfold currentAggregate. rewrite Hm.
  now destruct (Js.truthy_id (selectedStudentId (entity st))).
Qed.


(** X6.  When the fetch of the lesson rows of a newly selected student
    fails, the new student is selected, the rows held before the call are
    kept, the error message is set and the student spinner is stopped; the
    metrics shown for the new student are therefore computed from the rows
    that were held before. *)
Theorem student_fetch_failure_keeps_rows :
  forall (st : AppState) (studentId : Z) (message : string),
    studentId <> 0 ->
    getIndividualStudentData b studentId = Rejected message ->
    let st' := handleStudentSelection b (Some studentId) st in
    selectedStudentId (entity st') = Some studentId
    /\ individualStudentData (entity st') = individualStudentData (entity st)
    /\ error (status st')
       = Some ("Failed to load student data: " ++ message)
    /\ studentLoading (status st') = false
    /\ currentAggregate st'
       = match individualStudentData (entity st) with
         | Some rows =>
             Some (metricsOf (filters st) (filteredData (filters st) rows))
         | None => currentAggregate (st |> setSelectedStudentId None)
         end.
Proof.
  intros st studentId message Hid Hfetch st'. subst st'.
  unfold handleStudentSelection, studentSelected. cbn [Js.truthy_id].
  destruct (Z.eqb_spec studentId 0) as [|_]; [contradiction|].
  cbn [negb]. rewrite Hfetch.
  do 4 (split; [reflexivity|]).
  unfold currentAggregate, calculatedStudentMetrics. cbn.
  destruct (Z.eqb_spec studentId 0) as [|_]; [contradiction|]. cbn.
  destruct (individualStudentData (entity st)); reflexivity.
Qed.

(** X7.  When the fetch succeeds, the rows received are held and the
    resolver answers with the metrics of those rows under the current
    filters, whatever the aggregate tables hold; the error is cleared and
    everything but the student, the rows and the status is untouched. *)
Theorem student_selection_shows_its_metrics :
  forall (st : AppState) (studentId : Z) (rows : list Lesson),
    studentId <> 0 ->
    getIndividualStudentData b studentId = Resolved rows ->
    let st' := handleStudentSelection b (Some studentId) st in
    currentAggregate st'
    = Some (metricsOf (filters st) (filteredData (filters st) rows))
    /\ selectedStudentId (entity st') = Some studentId
    /\ individualStudentData (entity st') = Some rows
    /\ selectedSchoolId (entity st') = selectedSchoolId (entity st)
    /\ selectedCohortId (entity st') = selectedCohortId (entity st)
    /\ filters st' = filters st
    /\ school_tables st' = school_tables st
    /\ cohort_tables st' = cohort_tables st
    /\ error (status st') = None
    /\ studentLoading (status st') = false.
Proof.
  intros st studentId rows Hid Hfetch st'. subst st'.
  unfold handleStudentSelection, studentSelected. cbn [Js.truthy_id].
  destruct (Z.eqb_spec studentId 0) as [|_]; [contradiction|].
  cbn [negb]. rewrite Hfetch.
  split; [|repeat split].
  unfold currentAggregate, calculatedStudentMetrics. cbn.
  destruct (Z.eqb_spec studentId 0) as [|_]; [contradiction|]. reflexivity.
Qed.

(** X8.  Clearing the student drops the held lesson rows and returns the
    resolver to the aggregate row that the cohort, the filters and the
    tables designate: the answer is the one the state had apart from the
    student. *)
Theorem student_deselection_returns_to_aggregates :
  forall (st : AppState) (studentId : option Z),
    Js.truthy_id studentId = false ->
    let st' := handleStudentSelection b studentId st in
    selectedStudentId (entity st') = None
    /\ individualStudentData (entity st') = None
    /\ status st' = status st
    /\ currentAggregate st'
       = match aggregateData st with
         | Some (data, title) => Some (formatAggregate data title)
         | None => None
         end.
Proof.
  intros st studentId Hfalsy st'.
  assert (Hst : st' = st |> setSelectedStudentId None
                         |> setIndividualStudentData None).
  { subst st'. unfold handleStudentSelection, studentSelected.
    destruct studentId as [n|]; now rewrite ?Hfalsy. }
  rewrite Hst. do 3 (split; [reflexivity|]).
  rewrite currentAggregate_without_metrics by reflexivity.
  now rewrite aggregateData_ignores_student.
Qed.

End HandlersAndResolver.


Lemma student_fetch_failure_keeps_rows_witness :
  let failing :=
    {| canAccessSchool := fun _ => true;
       getAggregatedDataForSchool := fun _ => Rejected "offline";
       getCohorts := fun _ => Rejected "offline";
       cohortsRejectFirst := fun _ => false;
       getIndividualStudentData := fun _ => Rejected "offline" |} in
  let st' := handleStudentSelection failing (Some 8) Sample.withStudent in
  selectedStudentId (entity st') = Some 8
  /\ individualStudentData (entity st')
     = individualStudentData (entity Sample.withStudent)
  /\ error (status st') = Some "Failed to load student data: offline".
Proof.
  intros failing st'.
  destruct (student_fetch_failure_keeps_rows failing Sample.withStudent 8
              "offline") as (Hsel & Hrows & Herror & _);
    [discriminate | reflexivity |].
  split; [exact Hsel | split; [exact Hrows | exact Herror]].
Defined.

Lemma student_selection_shows_its_metrics_witness :
  currentAggregate
    (handleStudentSelection Sample.backend (Some 3) SampleRoute.loaded)
  = Some {| totalLessons := 1; totalCompleted := 0; requiredLessons := 1;
            requiredCompleted := 0; title := "Student Progress" |}.
Proof.
  destruct (student_selection_shows_its_metrics Sample.backend
              SampleRoute.loaded 3 [Sample.lesson 3 None 1 1 None])
    as (Hshown & _); [discriminate | reflexivity |].
  exact Hshown.
Defined.

Lemma student_deselection_returns_to_aggregates_witness :
  currentAggregate
    (handleStudentSelection Sample.backend None
       (Sample.withStudent |> setSelectedChapterId (Some 5)))
  = Some {| totalLessons := 40; totalCompleted := 1; requiredLessons := 1;
            requiredCompleted := 0; title := "Chapter: Airway" |}.
Proof.
  destruct (student_deselection_returns_to_aggregates Sample.backend
              (Sample.withStudent |> setSelectedChapterId (Some 5)) None
              eq_refl) as (_ & _ & _ & Hshown).
  exact Hshown.
Defined.

(** ** Cohort-scoped resolution *)

Section CohortResolution.

Lemma useCohortData_selected (st : AppState) (cohortId : Z) :
  cohortId <> 0 ->
  useCohortData (setSelectedCohortId (Some cohortId) st)
  = (0 <? Js.length_Z (cohortAggregates (cohort_tables st))).
Proof.
  intros Hid. unfold useCohortData. cbn.
  now destruct (Z.eqb_spec cohortId 0).
Qed.

(** X9.  While a curriculum filter is set, the resolver looks the row up in
    the cohort-scoped table by the filter id alone: which cohort is
    selected makes no difference to its answer, so the row shown can be
    that of another cohort of the school. *)
Theorem filtered_cohort_lookup_ignores_cohort :
  forall (st : AppState) (cohortA cohortB : Z),
    cohortA <> 0 ->
    cohortB <> 0 ->
    anyFilter (filters st) = true ->
    currentAggregate (setSelectedCohortId (Some cohortA) st)
    = currentAggregate (setSelectedCohortId (Some cohortB) st).
Proof.
  intros st cohortA cohortB HA HB Hfilter.
  unfold currentAggregate.
  change (calculatedStudentMetrics (setSelectedCohortId (Some cohortA) st))
    with (calculatedStudentMetrics st).
  change (calculatedStudentMetrics (setSelectedCohortId (Some cohortB) st))
    with (calculatedStudentMetrics st).
  cbn [entity setSelectedCohortId with_entity selectedStudentId].
  assert (Hrow : aggregateData (setSelectedCohortId (Some cohortA) st)
                 = aggregateData (setSelectedCohortId (Some cohortB) st)).
  { unfold aggregateData, lookup_level.
    rewrite !useCohortData_selected by assumption.
    unfold anyFilter in Hfilter. cbn.
    destruct (Js.truthy_id (selectedChapterId (filters st))); [reflexivity|].
    destruct (Js.truthy_id (selectedCourseId (filters st))); [reflexivity|].
    destruct (Js.truthy_id (selectedCollectionId (filters st)));
      [reflexivity|].
    destruct (Js.truthy_id (selectedCurriculumId (filters st)));
      [reflexivity|discriminate]. }
  now rewrite Hrow.
Qed.

(** X10.  With no filter set: selecting a cohort that has a row in the
    cohort table makes the resolver answer with that row, titled
    ["Cohort: <name>"]; clearing the cohort afterwards makes it answer with
    the first row of the school table, titled ["School: <name>"]. *)
Theorem cohort_round_trip :
  forall (st : AppState) (cohortId : Z) (cohortRow schoolRow : AggregateRow),
    cohortId <> 0 ->
    anyFilter (filters st) = false ->
    find (fun agg => Js.strict_eq (cohort_id agg) (Some cohortId))
      (cohortAggregates (cohort_tables st)) = Some cohortRow ->
    hd_error (schoolAggregates (school_tables st)) = Some schoolRow ->
    let inCohort := handleCohortSelection (Some cohortId) st in
    let cleared := handleCohortSelection None inCohort in
    currentAggregate inCohort
    = Some (formatAggregate cohortRow
              ("Cohort: " ++ Js.show_str (cohort_name cohortRow)))
    /\ currentAggregate cleared
       = Some (formatAggregate schoolRow
                 ("School: " ++ Js.show_str (school_name schoolRow))).
Proof.
  intros st cohortId cohortRow schoolRow Hid Hfilter Hcohort Hschool.
  cbv zeta. unfold anyFilter in Hfilter.
  apply orb_false_iff in Hfilter as [Hfilter Hcurriculum].
  apply orb_false_iff in Hfilter as [Hfilter Hcollection].
  apply orb_false_iff in Hfilter as [Hchapter Hcourse].
  assert (Hnonempty :
            (0 <? Js.length_Z (cohortAggregates (cohort_tables st))) = true).
  { destruct (cohortAggregates (cohort_tables st)) as [|r rows];
      [discriminate Hcohort|].
    unfold Js.length_Z.
    change (List.length (r :: rows)) with (S (List.length rows)).
    apply Z.ltb_lt. lia. }
  unfold handleCohortSelection. cbn [Js.truthy_id].
  destruct (Z.eqb_spec cohortId 0) as [|_]; [contradiction|]. cbn [negb].
  split.
  - rewrite currentAggregate_without_metrics by reflexivity.
    unfold aggregateData, useCohortData. cbn.
    destruct (Z.eqb_spec cohortId 0) as [|_]; [contradiction|]. cbn.
    now rewrite Hchapter, Hcourse, Hcollection, Hcurriculum, Hnonempty, Hcohort.
  - match goal with
    | |- currentAggregate ?s = _ =>
        rewrite (currentAggregate_without_metrics s)
          by (destruct (_ && _); reflexivity)
    end.
    unfold aggregateData, useCohortData.
    destruct (_ && _); cbn;
      now rewrite Hchapter, Hcourse, Hcollection, Hcurriculum, Hschool.
Qed.

(** X11.  While the cohort table is empty, for instance before the
    aggregates of the school have arrived, a selected cohort has no effect
    on the resolver: it answers as it does with no cohort selected. *)
Theorem empty_cohort_table_falls_back_to_school :
  forall (st : AppState),
    cohortAggregates (cohort_tables st) = [] ->
    currentAggregate st = currentAggregate (setSelectedCohortId None st).
Proof.
  intros st Hempty. unfold currentAggregate.
  change (calculatedStudentMetrics (setSelectedCohortId None st))
    with (calculatedStudentMetrics st).
  cbn [entity setSelectedCohortId with_entity selectedStudentId].
  assert (Hrow : aggregateData st = aggregateData (setSelectedCohortId None st)).
  { unfold aggregateData, lookup_level, useCohortData.
    cbn. rewrite Hempty. cbn. rewrite andb_false_r. reflexivity. }
  now rewrite Hrow.
Qed.

End CohortResolution.

Lemma filtered_cohort_lookup_ignores_cohort_witness :
  let st := SampleRoute.loaded |> setSelectedChapterId (Some 5) in
  currentAggregate (setSelectedCohortId (Some 5) st)
  = currentAggregate (setSelectedCohortId (Some 4) st)
  /\ currentAggregate (setSelectedCohortId (Some 5) st)
     = Some {| totalLessons := 10; totalCompleted := 2; requiredLessons := 1;
               requiredCompleted := 1; title := "Chapter: Airway" |}.
Proof.
  intros st. split; [|reflexivity].
  apply filtered_cohort_lookup_ignores_cohort;
    [discriminate | discriminate | reflexivity].
Defined.

Lemma cohort_round_trip_witness :
  let inCohort := handleCohortSelection (Some 5) SampleRoute.loaded in
  let cleared := handleCohortSelection None inCohort in
  currentAggregate inCohort
  = Some {| totalLessons := 60; totalCompleted := 2; requiredLessons := 1;
            requiredCompleted := 1; title := "Cohort: Faculty" |}
  /\ currentAggregate cleared
     = Some {| totalLessons := 90; totalCompleted := 1; requiredLessons := 1;
               requiredCompleted := 0; title := "School: North" |}.
Proof.
  apply (cohort_round_trip SampleRoute.loaded 5
           (SampleRoute.cohortRow 5 None 60) (Sample.row None 90));
    [discriminate | reflexivity | reflexivity | reflexivity].
Defined.

Lemma empty_cohort_table_falls_back_to_school_witness :
  let st :=
    Sample.withStudent |> setSelectedStudentId None
                       |> setSelectedCohortId (Some 4)
                       |> setSelectedChapterId (Some 5) in
  currentAggregate st = currentAggregate (setSelectedCohortId None st).
Proof.
  intros st. apply empty_cohort_table_falls_back_to_school. reflexivity.
Defined.

(** ** The chart *)

Section Chart.

Lemma filter_filter {A} (p q : A -> bool) (l : list A) :
  filter p (filter q l) = filter (fun x => q x && p x) l.
Proof.
  induction l as [|x l IH]; [reflexivity|].
  cbn. destruct (q x); cbn; [destruct (p x)|]; now rewrite IH.
Qed.

Lemma isCompleted_status (lesson : Lesson) :
  isCompleted (lessonStatus lesson) = completed lesson.
Proof.
  unfold lessonStatus, completed.
  destruct (Js.truthy_str (completion_date lesson)); [reflexivity|].
  now destruct (Js.truthy_str (engagement_date lesson)).
Qed.

Lemma required_rows (rows : list Lesson) :
  filter (fun lesson => Bool.eqb (is_required lesson) true) rows
  = filter is_required rows.
Proof.
  apply filter_ext. intros lesson. now destruct (is_required lesson).
Qed.

(** X12.  The table view and the metric cards agree.  When the student
    metrics exist, the table lists as many rows as the card "Total Lessons"
    says, and as many as "Required Lessons" once optional lessons are
    excluded; the rows it marks "Completed" are as many as "Total Completed",
    respectively "Required Completed".  When the metrics do not exist the
    table is empty. *)
Theorem table_agrees_with_cards :
  forall st : AppState,
    let shownCompleted rows :=
      Reference.count (fun lesson => isCompleted (lessonStatus lesson)) rows in
    match calculatedStudentMetrics st with
    | Some metrics =>
        Js.length_Z (processedTableData st true) = totalLessons metrics
        /\ Js.length_Z (processedTableData st false) = requiredLessons metrics
        /\ shownCompleted (processedTableData st true) = totalCompleted metrics
        /\ shownCompleted (processedTableData st false)
           = requiredCompleted metrics
    | None =>
        forall includeOptionalLessons,
          processedTableData st includeOptionalLessons = []
    end.
Proof.
  intros st shownCompleted. subst shownCompleted.
  unfold calculatedStudentMetrics, processedTableData.
  destruct (individualStudentData (entity st)) as [data|]; [|reflexivity].
  destruct (Js.truthy_id (selectedStudentId (entity st))); [|reflexivity].
  cbn [negb metricsOf totalLessons totalCompleted requiredLessons
       requiredCompleted].
  rewrite required_rows. unfold Reference.count.
  repeat split.
  - f_equal. apply filter_ext. apply isCompleted_status.
  - rewrite filter_filter. f_equal. apply filter_ext. intros lesson.
    now rewrite isCompleted_status.
Qed.

Lemma string_append_assoc (a c d : string) : (a ++ c) ++ d = a ++ c ++ d.
Proof. induction a as [|x a IH]; cbn; [reflexivity|now rewrite IH]. Qed.

Lemma slice_append (p rest : string) :
  slice (String.length p) (p ++ rest) = rest.
Proof. induction p as [|c p IH]; [reflexivity|exact IH]. Qed.

Lemma prefix_append (p rest : string) : String.prefix p (p ++ rest) = true.
Proof.
  induction p as [|c p IH]; cbn; [now destruct rest|].
  destruct (Ascii.ascii_dec c c); [exact IH|contradiction].
Qed.

Lemma prefix_split (p s : string) :
  String.prefix p s = true -> s = p ++ slice (String.length p) s.
Proof.
  revert s. induction p as [|c p IH]; intros s Hp; [reflexivity|].
  destruct s as [|c' s]; [discriminate|]. cbn in Hp.
  destruct (Ascii.ascii_dec c c') as [<-|]; [|discriminate].
  cbn. f_equal. now apply IH.
Qed.

(** X13.  [getDisplayCourseName] removes one leading ["<collection>: "] from
    a course name and nothing else: a course named
    ["<collection>: <rest>"], with a non-empty collection name, is shown as
    ["<rest>"], and in every other case the course name is returned as it
    is. *)
Theorem display_course_name_strips_collection :
  forall (collection rest : string),
    collection <> "" ->
    getDisplayCourseName (Some (collection ++ ": " ++ rest)) (Some collection)
    = Some rest
    /\ forall course other,
         getDisplayCourseName course other = course
         \/ exists name shown,
              other = Some name
              /\ course = Some (name ++ ": " ++ shown)
              /\ getDisplayCourseName course other = Some shown.
Proof.
  intros collection rest Hne. split.
  - unfold getDisplayCourseName.
    assert (Hcoll : Js.truthy_str (Some collection) = true).
    { cbn. now destruct (String.eqb_spec collection ""). }
    assert (Hcourse : Js.truthy_str (Some (collection ++ ": " ++ rest)) = true).
    { destruct collection; [now elim Hne|reflexivity]. }
    rewrite Hcoll, Hcourse.
    replace (collection ++ ": " ++ rest) with ((collection ++ ": ") ++ rest)
      by apply string_append_assoc.
    now rewrite prefix_append, slice_append.
  - intros course other. unfold getDisplayCourseName.
    destruct other as [name|]; [|now left].
    destruct course as [course|]; [|now left].
    destruct (Js.truthy_str (Some name) && Js.truthy_str (Some course)
              && String.prefix (name ++ ": ") course) eqn:Hcond; [|now left].
    right. apply andb_true_iff in Hcond as [_ Hprefix].
    exists name, (slice (String.length (name ++ ": ")) course).
    repeat split. f_equal.
    rewrite (prefix_split _ _ Hprefix) at 1.
    apply string_append_assoc.
Qed.

(** The zero-valued data the chart falls back to. *)
Lemma displayData_is_resolved (st : AppState) :
  displayData st
  = match currentAggregate st with
    | Some metrics => metrics
    | None =>
        {| totalLessons := 0; totalCompleted := 0; requiredLessons := 0;
           requiredCompleted := 0; title := "No Data Available" |}
    end.
Proof.
  unfold displayData.
  destruct (calculatedStudentMetrics st) as [metrics|] eqn:Hm; [|reflexivity].
  unfold currentAggregate.
  now rewrite (metrics_need_student st metrics Hm), Hm.
Qed.

(** X14.  The chart shows exactly what the resolver answers: the
    [calculatedStudentMetrics] prop never changes the data displayed.  When
    the resolver answers [null] the chart renders its empty state, in
    either view, and both percentages are [0]. *)
Theorem chart_shows_resolver_output :
  forall (st : AppState) (isTableView : bool),
    match currentAggregate st with
    | Some metrics => displayData st = metrics
    | None =>
        chartView st isTableView = EmptyState
        /\ title (displayData st) = "No Data Available"
        /\ totalPercentage (displayData st) = Number.of_Z 0
        /\ requiredPercentage (displayData st) = Number.of_Z 0
    end.
Proof.
  intros st isTableView. unfold chartView.
  rewrite !displayData_is_resolved.
  destruct (currentAggregate st); [reflexivity|].
  repeat split.
Qed.

(** X15.  A selected student none of whose lessons passes the filter in
    force (or who has no lesson at all) is given zero counters by the
    resolver, and the chart then renders the empty state "No Data
    Available" instead of the cards or the table. *)
Theorem student_without_rows_shows_empty_state :
  forall (st : AppState) (data : list Lesson) (isTableView : bool),
    Js.truthy_id (selectedStudentId (entity st)) = true ->
    individualStudentData (entity st) = Some data ->
    filteredData (filters st) data = [] ->
    currentAggregate st
    = Some {| totalLessons := 0; totalCompleted := 0; requiredLessons := 0;
              requiredCompleted := 0;
              title := studentTitle (filters st) [] |}
    /\ chartView st isTableView = EmptyState.
Proof.
  intros st data isTableView Hsel Hdata Hnone.
  assert (Hshown : currentAggregate st
            = Some {| totalLessons := 0; totalCompleted := 0;
                      requiredLessons := 0; requiredCompleted := 0;
                      title := studentTitle (filters st) [] |}).
  { unfold currentAggregate, calculatedStudentMetrics.
    now rewrite Hsel, Hdata, Hnone. }
  split; [exact Hshown|].
  unfold chartView. now rewrite displayData_is_resolved, Hshown.
Qed.

End Chart.

Lemma display_course_name_strips_collection_witness :
  getDisplayCourseName (Some "Emergency Medicine: Common Emergencies")
    (Some "Emergency Medicine")
  = Some "Common Emergencies".
Proof.
  apply (display_course_name_strips_collection "Emergency Medicine"
           "Common Emergencies").
  discriminate.
Defined.

Lemma student_without_rows_shows_empty_state_witness :
  let st := Sample.withStudent |> setSelectedChapterId (Some 77) in
  chartView st true = EmptyState.
Proof.
  intros st.
  apply (student_without_rows_shows_empty_state st
           [Sample.lesson 1 None 5 9 (Some "2024-01-01");
            Sample.lesson 2 None 6 9 None] true);
    reflexivity.
Defined.

(** ** The curriculum filters *)

Section IdMapFacts.

Context {V : Type}.
Implicit Types (m : IdMap.t V) (k : option Z) (v : V).

Lemma sameKey_spec (a c : option Z) : reflect (a = c) (IdMap.sameKey a c).
Proof.
  destruct a as [x|], c as [y|]; cbn; try (constructor; congruence).
  destruct (Z.eqb_spec x y); constructor; congruence.
Qed.

Lemma idmap_get_set k k' v m :
  IdMap.get k (IdMap.set k' v m)
  = if IdMap.sameKey k' k then Some v else IdMap.get k m.
Proof.
  induction m as [|[k0 v0] m IH]; cbn; [reflexivity|].
  destruct (sameKey_spec k0 k') as [->|Hne]; cbn.
  - now destruct (IdMap.sameKey k' k).
  - rewrite IH.
    destruct (sameKey_spec k0 k) as [->|]; [|reflexivity].
    destruct (sameKey_spec k' k) as [->|]; [now elim Hne|reflexivity].
Qed.

Lemma idmap_keys_set k v m :
  NoDup (IdMap.keys m) -> NoDup (IdMap.keys (IdMap.set k v m)).
Proof.
  intros Hnd.
  assert (Hin : forall k0, In k0 (IdMap.keys (IdMap.set k v m)) ->
                           k0 = k \/ In k0 (IdMap.keys m)).
  { clear Hnd. induction m as [|[k1 v1] m IH]; cbn; intros k0.
    - intros [<-|[]]. now left.
    - destruct (sameKey_spec k1 k) as [->|_]; cbn; [tauto|].
      intros [<-|Hk0]; [tauto|]. destruct (IH k0 Hk0); tauto. }
  induction m as [|[k1 v1] m IH]; cbn.
  - constructor; [tauto|constructor].
  - inversion Hnd as [|? ? Hnotin Hnd']; subst.
    destruct (sameKey_spec k1 k) as [->|Hne]; cbn; [exact Hnd|].
    constructor; [|apply IH; [exact Hnd'|]].
    + intros Hk1.
      assert (Hcases : k1 = k \/ In k1 (IdMap.keys m)).
      { clear -Hk1. revert Hk1.
        induction m as [|[k2 v2] m IHm]; cbn.
        - intros [<-|[]]. now left.
        - destruct (sameKey_spec k2 k) as [->|_]; cbn; [tauto|].
          intros [<-|H]; [tauto|]. destruct (IHm H); tauto. }
      destruct Hcases; [congruence|contradiction].
    + intros k0 Hk0. clear -Hk0. revert Hk0.
      induction m as [|[k2 v2] m IHm]; cbn.
      * intros [<-|[]]. now left.
      * destruct (sameKey_spec k2 k) as [->|_]; cbn; [tauto|].
        intros [<-|H]; [tauto|]. destruct (IHm H); tauto.
Qed.

Lemma idmap_in_get k v m :
  NoDup (IdMap.keys m) -> In (k, v) m -> IdMap.get k m = Some v.
Proof.
  induction m as [|[k0 v0] m IH]; cbn; [tauto|].
  intros Hnd [Heq|Hin].
  - injection Heq as -> ->. now destruct (sameKey_spec k k).
  - inversion Hnd as [|? ? Hnotin Hnd']; subst.
    destruct (sameKey_spec k0 k) as [->|_].
    + elim Hnotin. change k with (fst (k, v)). now apply in_map.
    + now apply IH.
Qed.

Lemma idmap_get_in k v m : IdMap.get k m = Some v -> In (k, v) m.
Proof.
  induction m as [|[k0 v0] m IH]; cbn; [discriminate|].
  destruct (sameKey_spec k0 k) as [->|_].
  - intros [= ->]. now left.
  - intros H. right. now apply IH.
Qed.

(** Building a map from entries: the keys stay distinct, and the value under
    a key is that of the last entry with the key. *)
Lemma idmap_fold (entries : list (option Z * V)) m :
  let result :=
    fold_left (fun m entry => IdMap.set (fst entry) (snd entry) m) entries m in
  (NoDup (IdMap.keys m) -> NoDup (IdMap.keys result))
  /\ forall k,
       IdMap.get k result
       = match find (fun entry => IdMap.sameKey (fst entry) k) (rev entries) with
         | Some entry => Some (snd entry)
         | None => IdMap.get k m
         end.
Proof.
  revert m. induction entries as [|[k0 v0] entries IH]; intros m; cbn zeta.
  - split; [tauto|reflexivity].
  - cbn [fold_left rev fst snd].
    destruct (IH (IdMap.set k0 v0 m)) as [Hnd Hget]. split.
    + intros Hm. apply Hnd. now apply idmap_keys_set.
    + intros k. rewrite Hget. clear.
      induction (rev entries) as [|[k1 v1] l IHl]; cbn.
      * rewrite idmap_get_set. now destruct (IdMap.sameKey k0 k).
      * destruct (IdMap.sameKey k1 k); [reflexivity|exact IHl].
Qed.

End IdMapFacts.

Section FilterOptions.

Variable key : Hierarchy.Node -> option Z.

Lemma uniqueBy_entry (rows : list Hierarchy.Node) (k : option Z)
    (o : Hierarchy.Node) :
  In (k, o) (IdMap.ofEntries (map (fun item => (key item, item)) rows)) ->
  find (fun r => IdMap.sameKey (key r) k) (rev rows) = Some o.
Proof.
  intros Hin.
  destruct (idmap_fold (map (fun item => (key item, item)) rows) [])
    as [Hnd Hget].
  cbv zeta in Hnd, Hget. fold (IdMap.ofEntries (V := Hierarchy.Node)) in *.
  apply (idmap_in_get _ _ _ (Hnd (NoDup_nil _))) in Hin.
  unfold IdMap.ofEntries in Hin. rewrite Hget in Hin.
  rewrite <- map_rev in Hin. cbn [IdMap.get] in Hin.
  induction (rev rows) as [|r l IHl]; cbn in *; [discriminate|].
  destruct (IdMap.sameKey (key r) k); [now injection Hin as ->|].
  now apply IHl.
Qed.

Lemma uniqueBy_last (rows : list Hierarchy.Node) (o : Hierarchy.Node) :
  In o (uniqueBy key rows) ->
  find (fun r => IdMap.sameKey (key r) (key o)) (rev rows) = Some o.
Proof.
  intros Ho. unfold uniqueBy, IdMap.values in Ho.
  apply in_map_iff in Ho as [[k o'] [Heq Hin]]. cbn in Heq. subst o'.
  pose proof (uniqueBy_entry rows k o Hin) as Hfind.
  destruct (find_some _ _ Hfind) as [_ Hk].
  destruct (sameKey_spec (key o) k) as [->|]; [exact Hfind|discriminate].
Qed.

Lemma uniqueBy_keys (rows : list Hierarchy.Node) :
  NoDup (map key (uniqueBy key rows)).
Proof.
  destruct (idmap_fold (map (fun item => (key item, item)) rows) [])
    as [Hnd _].
  cbv zeta in Hnd. specialize (Hnd (NoDup_nil _)).
  unfold uniqueBy, IdMap.values, IdMap.ofEntries. rewrite map_map.
  unfold IdMap.keys in Hnd.
  erewrite map_ext_in; [exact Hnd|].
  intros [k o] Hin. cbn.
  pose proof (uniqueBy_entry rows k o Hin) as Hfind.
  destruct (find_some _ _ Hfind) as [_ Hk].
  now destruct (sameKey_spec (key o) k).
Qed.

Lemma find_entry_of_row (l : list Hierarchy.Node) (r : Hierarchy.Node) :
  In r l ->
  exists o,
    find (fun entry : option Z * Hierarchy.Node =>
            IdMap.sameKey (fst entry) (key r))
      (map (fun item => (key item, item)) l)
    = Some (key o, o) /\ key o = key r.
Proof.
  induction l as [|x l IHl]; intros Hin; [destruct Hin|].
  cbn. destruct (sameKey_spec (key x) (key r)) as [Hx|Hx].
  - now exists x.
  - destruct Hin as [->|Hin]; [now elim Hx|]. now apply IHl.
Qed.

Lemma uniqueBy_complete (rows : list Hierarchy.Node) (r : Hierarchy.Node) :
  In r rows -> exists o, In o (uniqueBy key rows) /\ key o = key r.
Proof.
  intros Hr.
  destruct (find_entry_of_row (rev rows) r) as (o & Hfind & Hkey);
    [now apply in_rev in Hr|].
  destruct (idmap_fold (map (fun item => (key item, item)) rows) [])
    as [_ Hget].
  cbv zeta in Hget. specialize (Hget (key r)).
  rewrite <- map_rev, Hfind in Hget. cbn in Hget.
  apply idmap_get_in in Hget.
  exists o. split; [|exact Hkey].
  unfold uniqueBy, IdMap.values. apply in_map_iff.
  now exists (key r, o).
Qed.

(** X16.  The options offered by a select of the curriculum filters: no two
    options have the same id; every option is a row of the hierarchy that
    lies under the selected parent (any row when no parent is selected);
    every id that occurs under the parent is offered; and where several rows
    carry an id, the option is the last of them. *)
Theorem filter_options_are_unique_and_complete :
  forall (selected : option Z) (parent : Hierarchy.Node -> option Z)
         (hierarchyData : list Hierarchy.Node),
    let under item := underParent selected (parent item) in
    let options := optionsUnder key selected parent hierarchyData in
    NoDup (map key options)
    /\ (forall o, In o options -> In o hierarchyData /\ under o = true)
    /\ (forall r, In r hierarchyData -> under r = true ->
          exists o, In o options /\ key o = key r)
    /\ (forall o, In o options ->
          find (fun r => IdMap.sameKey (key r) (key o))
            (rev (filter under hierarchyData)) = Some o).
Proof.
  intros selected parent hierarchyData under options. subst options.
  unfold optionsUnder. fold under.
  split; [apply uniqueBy_keys|].
  split; [|split].
  - intros o Ho. apply uniqueBy_last in Ho.
    apply find_some in Ho as [Hin _].
    apply in_rev in Hin. now apply filter_In in Hin.
  - intros r Hr Hunder. apply uniqueBy_complete.
    apply filter_In. now split.
  - intros o Ho. now apply uniqueBy_last.
Qed.

End FilterOptions.

Section FilterAnnotations.

Lemma find_student_rows (p : FilterRow -> bool) (entries : list GroupEntry) :
  find p (map StudentRow entries)
  = option_map StudentRow (find (fun e => p (StudentRow e)) entries).
Proof.
  induction entries as [|e entries IH]; [reflexivity|].
  cbn. destruct (p (StudentRow e)); [reflexivity|exact IH].
Qed.

(** X17.  While a student is selected, the number in brackets after an
    option of the collection, course or chapter select is never the
    student's count of completed lessons: it is [undefined] for an id in
    which the student has a lesson, because the per-student entries have no
    field [total_lessons_completed], and [0] for every other id. *)
Theorem student_annotations_are_undefined :
  forall (st : AppState) (data : list Lesson) (lv : Level) (optionId : Z),
    Js.truthy_id (selectedStudentId (entity st)) = true ->
    individualStudentData (entity st) = Some data ->
    getCompleted lv (filterAggregates lv st) (Some optionId)
    = if existsb (fun lesson => level_id lv lesson =? optionId) data
      then None else Some 0.
Proof.
  intros st data lv optionId Hsel Hdata.
  unfold getCompleted, filterAggregates. rewrite Hsel.
  rewrite (perStudentAggregates_entries st data lv Hsel Hdata).
  rewrite find_student_rows. cbn [filterRowId IdMap.sameKey].
  destruct (find (fun e => group_id e =? optionId)
              (JsMap.values (groupMap lv data))) as [e|] eqn:Hfind; cbn.
  - apply find_some in Hfind as [He Hid]. apply Z.eqb_eq in Hid.
    apply in_map_iff in He as [[k e'] [Heq Hin]]. cbn in Heq. subst e'.
    destruct (entry_of_groupMap lv k e data Hin)
      as (_ & _ & _ & first & Hfirst & Hsame).
    unfold Reference.sameGroup in Hsame.
    apply andb_true_iff in Hsame as [Hsame _].
    replace (existsb (fun lesson => level_id lv lesson =? optionId) data)
      with true; [reflexivity|].
    symmetry. apply existsb_exists. exists first. split; [exact Hfirst|].
    now rewrite <- Hid.
  - replace (existsb (fun lesson => level_id lv lesson =? optionId) data)
      with false; [reflexivity|].
    symmetry. apply not_true_is_false. intros Hex.
    apply existsb_exists in Hex as (lesson & Hlesson & Hid).
    destruct (lesson_has_entry lv lesson data Hlesson) as (e & He & Hsame).
    apply (find_none _ _ Hfind) in He.
    unfold Reference.sameGroup in Hsame.
    apply andb_true_iff in Hsame as [Hsame _].
    apply Z.eqb_eq in Hsame, Hid. rewrite <- Hsame, Hid, Z.eqb_refl in He.
    discriminate.
Qed.

End FilterAnnotations.

Lemma student_annotations_are_undefined_witness :
  getCompleted Collection (filterAggregates Collection Sample.withStudent)
    (Some 1) = None
  /\ getCompleted Collection (filterAggregates Collection Sample.withStudent)
       (Some 3) = Some 0.
Proof.
  split.
  - apply (student_annotations_are_undefined Sample.withStudent
             [Sample.lesson 1 None 5 9 (Some "2024-01-01");
              Sample.lesson 2 None 6 9 None] Collection 1); reflexivity.
  - apply (student_annotations_are_undefined Sample.withStudent
             [Sample.lesson 1 None 5 9 (Some "2024-01-01");
              Sample.lesson 2 None 6 9 None] Collection 3); reflexivity.
Defined.

(** ** Totals of the per-student aggregates *)

Section Totals.

Variable w : GroupEntry -> Z.

Lemma sumZ_cons (x : Z) (l : list Z) : sumZ (x :: l) = x + sumZ l.
Proof. reflexivity. Qed.

Lemma weight_update (k : string) (f : GroupEntry -> GroupEntry) m e :
  JsMap.get k m = Some e ->
  weightOf w (JsMap.update k f m) = weightOf w m - w e + w (f e).
Proof.
  unfold weightOf, JsMap.values.
  induction m as [|[k0 e0] m IH]; cbn [JsMap.get JsMap.update];
    [discriminate|].
  destruct (k0 =? k)%string.
  - intros [= ->]. cbn [map snd]. rewrite !sumZ_cons. lia.
  - intros Hget. cbn [map snd]. rewrite !sumZ_cons, (IH Hget). lia.
Qed.

Lemma weight_set_fresh (k : string) (e : GroupEntry) m :
  JsMap.get k m = None ->
  weightOf w (JsMap.set k e m) = weightOf w m + w e.
Proof.
  unfold weightOf, JsMap.values.
  induction m as [|[k0 e0] m IH]; cbn [JsMap.get JsMap.set].
  - intros _. cbn [map snd]. rewrite !sumZ_cons. cbn. lia.
  - destruct (k0 =? k)%string; [discriminate|].
    intros Hget. cbn [map snd]. rewrite !sumZ_cons, (IH Hget). lia.
Qed.

(** A lesson adds to the map what it adds to the entry it is filed under. *)
Lemma weight_aggregate_level (lv : Level) (lesson : Lesson) m :
  (forall e, w (count_lesson lesson e) - w e
             = w (count_lesson lesson (freshEntry lv lesson))
               - w (freshEntry lv lesson)) ->
  w (freshEntry lv lesson) = 0 ->
  weightOf w (aggregate_level lv lesson m)
  = weightOf w m + w (count_lesson lesson (freshEntry lv lesson)).
Proof.
  intros Hstep Hzero. unfold aggregate_level, JsMap.has.
  fold (freshEntry lv lesson).
  destruct (JsMap.get (level_key lv lesson) m) as [e|] eqn:Hget; cbn [negb].
  - rewrite (weight_update _ _ _ e Hget).
    specialize (Hstep e). lia.
  - rewrite (weight_update _ _ _ (freshEntry lv lesson)).
    + rewrite (weight_set_fresh _ _ _ Hget). lia.
    + rewrite get_set. now rewrite String.eqb_refl.
Qed.

End Totals.

Section TotalsOfGroupMap.

Variable lv : Level.

Lemma groupMap_totals (data : list Lesson) m :
  let result := fold_left (fun m l => aggregate_level lv l m) data m in
  weightOf total_lessons result = weightOf total_lessons m + Js.length_Z data
  /\ weightOf completed_lessons result
     = weightOf completed_lessons m + Reference.count completed data.
Proof.
  revert m. induction data as [|lesson data IH]; intros m; cbn zeta.
  - unfold Reference.count, Js.length_Z.
    cbn [fold_left filter Datatypes.length Z.of_nat]. lia.
  - cbn [fold_left]. destruct (IH (aggregate_level lv lesson m)) as [Ht Hc].
    cbv zeta in Ht, Hc. rewrite Ht, Hc.
    rewrite (weight_aggregate_level total_lessons lv lesson m);
      [|intros e; cbn [count_lesson freshEntry total_lessons]; lia
       | reflexivity].
    rewrite (weight_aggregate_level completed_lessons lv lesson m);
      [|intros e; cbn [count_lesson freshEntry completed_lessons];
        destruct (Js.truthy_str (completion_date lesson)); lia
       | reflexivity].
    rewrite count_cons. unfold Js.length_Z.
    change (List.length (lesson :: data)) with (S (List.length data)).
    rewrite Nat2Z.inj_succ. cbn [count_lesson freshEntry total_lessons
      completed_lessons]. unfold completed.
    destruct (Js.truthy_str (completion_date lesson)); lia.
Qed.

End TotalsOfGroupMap.

(** X18.  At each of the three levels the grouping aggregates count every
    lesson of the student exactly once: the [total_lessons] of the entries
    add up to the number of lesson rows, and the [completed_lessons] to the
    number of completed ones. *)
Theorem grouping_totals_add_up :
  forall (st : AppState) (data : list Lesson) (lv : Level),
    Js.truthy_id (selectedStudentId (entity st)) = true ->
    individualStudentData (entity st) = Some data ->
    let entries := entriesOf lv (perStudentAggregates st) in
    sumZ (map total_lessons entries) = Js.length_Z data
    /\ sumZ (map completed_lessons entries) = Reference.count completed data.
Proof.
  intros st data lv Hsel Hdata entries. subst entries.
  rewrite (perStudentAggregates_entries st data lv Hsel Hdata).
  unfold groupMap.
  destruct (groupMap_totals lv data JsMap.empty) as [Ht Hc].
  cbv zeta in Ht, Hc. unfold weightOf in Ht, Hc.
  rewrite Ht, Hc. cbn. split; reflexivity.
Qed.

Lemma grouping_totals_add_up_witness :
  sumZ (map total_lessons
          (entriesOf Chapter (perStudentAggregates Sample.withStudent))) = 2
  /\ sumZ (map completed_lessons
             (entriesOf Chapter (perStudentAggregates Sample.withStudent))) = 1.
Proof.
  apply (grouping_totals_add_up Sample.withStudent
           [Sample.lesson 1 None 5 9 (Some "2024-01-01");
            Sample.lesson 2 None 6 9 None] Chapter); reflexivity.
Defined.

Section MetricBounds.

Lemma filter_length_mono {A} (p q : A -> bool) (l : list A) :
  (forall x, p x = true -> q x = true) ->
  Js.length_Z (filter p l) <= Js.length_Z (filter q l).
Proof.
  intros Himp. unfold Js.length_Z. apply inj_le.
  induction l as [|x l IH]; [apply Nat.le_refl|].
  cbn. destruct (p x) eqn:Hp.
  - rewrite (Himp x Hp). cbn. lia.
  - destruct (q x); cbn; lia.
Qed.

Lemma filter_length_le_all {A} (p : A -> bool) (l : list A) :
  Js.length_Z (filter p l) <= Js.length_Z l.
Proof.
  rewrite <- (filter_all l) at 2. now apply filter_length_mono.
Qed.

(** X19.  The four counters of the student metrics are ordered: required
    completed lessons are at most the required ones and at most the
    completed ones, which are at most the total, and the total is at most
    the number of lesson rows held; none is negative. *)
Theorem student_metrics_are_ordered :
  forall (st : AppState) (data : list Lesson) (metrics : Metrics),
    individualStudentData (entity st) = Some data ->
    calculatedStudentMetrics st = Some metrics ->
    0 <= requiredCompleted metrics
    /\ requiredCompleted metrics <= requiredLessons metrics
    /\ requiredCompleted metrics <= totalCompleted metrics
    /\ requiredLessons metrics <= totalLessons metrics
    /\ totalCompleted metrics <= totalLessons metrics
    /\ totalLessons metrics <= Js.length_Z data.
Proof.
  intros st data metrics Hdata Hm.
  unfold calculatedStudentMetrics in Hm. rewrite Hdata in Hm.
  destruct (Js.truthy_id (selectedStudentId (entity st))); [|discriminate].
  injection Hm as <-.
  cbn [metricsOf totalLessons totalCompleted requiredLessons
       requiredCompleted].
  repeat split.
  - unfold Js.length_Z. lia.
  - apply filter_length_mono. intros x Hx.
    now apply andb_true_iff in Hx as [Hx _].
  - apply filter_length_mono. intros x Hx.
    now apply andb_true_iff in Hx as [_ Hx].
  - apply filter_length_le_all.
  - apply filter_length_le_all.
  - rewrite filteredData_most_specific. apply filter_length_le_all.
Qed.

End MetricBounds.

Lemma student_metrics_are_ordered_witness :
  let metrics :=
    {| totalLessons := 2; totalCompleted := 1; requiredLessons := 2;
       requiredCompleted := 1; title := "Student Progress" |} in
  calculatedStudentMetrics Sample.withStudent = Some metrics
  /\ requiredCompleted metrics <= totalCompleted metrics.
Proof.
  intros metrics. split; [reflexivity|].
  apply (student_metrics_are_ordered Sample.withStudent
           [Sample.lesson 1 None 5 9 (Some "2024-01-01");
            Sample.lesson 2 None 6 9 None] metrics eq_refl eq_refl).
Defined.

(** ** Grouping aggregates and the cards *)

Section CardsAndGrouping.

Lemma filteredData_unfiltered (f : Filters) (data : list Lesson) :
  anyFilter f = false -> filteredData f data = data.
Proof.
  unfold anyFilter, filteredData. intros Hfilter.
  destruct (Js.truthy_id (selectedChapterId f)); [discriminate|].
  destruct (Js.truthy_id (selectedCourseId f)); [discriminate|].
  destruct (Js.truthy_id (selectedCollectionId f)); [discriminate|].
  destruct (Js.truthy_id (selectedCurriculumId f)); [discriminate|].
  reflexivity.
Qed.

(** X20.  The grouping aggregates are computed over all the lesson rows and
    the cards over the filtered ones: at each level the card totals are at
    most the sums over the entries, and they are equal when no filter is
    set. *)
Theorem cards_are_bounded_by_grouping_totals :
  forall (st : AppState) (data : list Lesson) (metrics : Metrics)
         (lv : Level),
    individualStudentData (entity st) = Some data ->
    calculatedStudentMetrics st = Some metrics ->
    let entries := entriesOf lv (perStudentAggregates st) in
    totalLessons metrics <= sumZ (map total_lessons entries)
    /\ totalCompleted metrics <= sumZ (map completed_lessons entries)
    /\ (anyFilter (filters st) = false ->
        totalLessons metrics = sumZ (map total_lessons entries)
        /\ totalCompleted metrics = sumZ (map completed_lessons entries)).
Proof.
  intros st data metrics lv Hdata Hm entries. subst entries.
  pose proof (metrics_need_student st metrics Hm) as Hsel.
  rewrite (perStudentAggregates_entries st data lv Hsel Hdata).
  unfold groupMap.
  destruct (groupMap_totals lv data JsMap.empty) as [Ht Hc].
  cbv zeta in Ht, Hc. unfold weightOf in Ht, Hc. rewrite Ht, Hc.
  change (sumZ (map total_lessons (JsMap.values JsMap.empty))) with 0.
  change (sumZ (map completed_lessons (JsMap.values JsMap.empty))) with 0.
  rewrite !Z.add_0_l.
  unfold calculatedStudentMetrics in Hm. rewrite Hdata, Hsel in Hm.
  injection Hm as <-.
  cbn [metricsOf totalLessons totalCompleted]. unfold Reference.count.
  split; [|split].
  - rewrite filteredData_most_specific. apply filter_length_le_all.
  - rewrite filteredData_most_specific, filter_filter.
    apply filter_length_mono. intros x Hx.
    now apply andb_true_iff in Hx as [_ Hx].
  - intros Hfilter. now rewrite (filteredData_unfiltered _ _ Hfilter).
Qed.

End CardsAndGrouping.

Lemma cards_are_bounded_by_grouping_totals_witness :
  let metrics :=
    {| totalLessons := 2; totalCompleted := 1; requiredLessons := 2;
       requiredCompleted := 1; title := "Student Progress" |} in
  calculatedStudentMetrics Sample.withStudent = Some metrics
  /\ totalLessons metrics
     = sumZ (map total_lessons
               (entriesOf Course (perStudentAggregates Sample.withStudent))).
Proof.
  intros metrics. split; [reflexivity|].
  apply (cards_are_bounded_by_grouping_totals Sample.withStudent
           [Sample.lesson 1 None 5 9 (Some "2024-01-01");
            Sample.lesson 2 None 6 9 None] metrics Course eq_refl eq_refl).
  reflexivity.
Defined.

(** ** Logout *)

Section Logout.

(** X21.  A successful logout clears the user, the three selection ids, the
    lesson rows and the cohort list, and nothing else: the filter ids and
    the aggregate tables of the school that was selected stay, so with no
    filter set the resolver still returns the first school row although no
    school is selected. *)
Theorem logout_keeps_the_school_row :
  forall (st : AppState) (row : AggregateRow) (rest : list AggregateRow),
    schoolAggregates (school_tables st) = row :: rest ->
    anyFilter (filters st) = false ->
    let st' := handleLogout (Resolved tt) st in
    currentUser st' = None
    /\ entity st'
       = {| selectedSchoolId := None; selectedCohortId := None;
            selectedStudentId := None; individualStudentData := None |}
    /\ school_tables st' = school_tables (setCohorts [] st)
    /\ filters st' = filters st
    /\ cohort_tables st' = cohort_tables st
    /\ status st' = status st
    /\ currentAggregate st'
       = Some (formatAggregate row
                 ("School: " ++ Js.show_str (school_name row))).
Proof.
  intros st row rest Hrows Hfilter st'. subst st'.
  repeat (split; [reflexivity|]).
  rewrite currentAggregate_without_metrics by reflexivity.
  unfold anyFilter in Hfilter.
  apply orb_false_iff in Hfilter as [Hfilter Hcurriculum].
  apply orb_false_iff in Hfilter as [Hfilter Hcollection].
  apply orb_false_iff in Hfilter as [Hchapter Hcourse].
  unfold aggregateData, useCohortData.
  cbn [handleLogout filters setCurrentUser setSelectedSchoolId
       setSelectedCohortId setSelectedStudentId setIndividualStudentData
       setCohorts with_entity with_school_tables entity school_tables
       cohort_tables selectedCohortId schoolAggregates].
  rewrite Hchapter, Hcourse, Hcollection, Hcurriculum, Hrows.
  reflexivity.
Qed.

End Logout.

Lemma logout_keeps_the_school_row_witness :
  currentAggregate (handleLogout (Resolved tt) SampleRoute.loaded)
  = Some {| totalLessons := 90; totalCompleted := 1; requiredLessons := 1;
            requiredCompleted := 0; title := "School: North" |}.
Proof.
  apply (logout_keeps_the_school_row SampleRoute.loaded
           (Sample.row None 90) [] eq_refl eq_refl).
Defined.

(** ** Overlapping school selections *)

Section SchoolResponses.

Variable b : Backend.

(** X22.  [handleSchoolSelection] stores whatever its [await] returns: when
    school [n2] is selected while the data of school [n1] is still being
    fetched, the selected school is [n2] once both responses have arrived
    and the tables are those of the response that arrived last, in
    whichever order they arrive. *)
Theorem last_school_response_is_held :
  forall (st : AppState) (n1 n2 : Z) (m1 m2 : SchoolBundle)
         (c1 c2 : option (list Cohort)),
    getAggregatedDataForSchool b n1 = Resolved m1 ->
    getCohorts b n1 = Resolved c1 ->
    getAggregatedDataForSchool b n2 = Resolved m2 ->
    getCohorts b n2 = Resolved c2 ->
    let issued := st |> schoolApplied n1 |> schoolApplied n2 in
    let inOrder := issued |> schoolFetched b n1 |> schoolFetched b n2 in
    let stale := issued |> schoolFetched b n2 |> schoolFetched b n1 in
    selectedSchoolId (entity inOrder) = Some n2
    /\ school_tables inOrder = school_tables (schoolLoaded m2 c2 st)
    /\ cohort_tables inOrder = cohort_tables (schoolLoaded m2 c2 st)
    /\ selectedSchoolId (entity stale) = Some n2
    /\ school_tables stale = school_tables (schoolLoaded m1 c1 st)
    /\ cohort_tables stale = cohort_tables (schoolLoaded m1 c1 st).
Proof.
  intros st n1 n2 m1 m2 c1 c2 Hm1 Hc1 Hm2 Hc2 issued inOrder stale.
  subst inOrder stale issued. unfold schoolFetched.
  rewrite ?Hm1, ?Hc1, ?Hm2, ?Hc2.
  repeat split.
Qed.

End SchoolResponses.

Lemma last_school_response_is_held_witness :
  let issued :=
    initialState (Some Sample.guest) |> schoolApplied 1 |> schoolApplied 2 in
  let stale :=
    issued |> schoolFetched SampleSchools.backend 2
           |> schoolFetched SampleSchools.backend 1 in
  selectedSchoolId (entity stale) = Some 2
  /\ schoolAggregates (school_tables stale) = [Sample.row None 10].
Proof.
  intros issued stale.
  destruct (last_school_response_is_held SampleSchools.backend
              (initialState (Some Sample.guest)) 1 2
              (SampleSchools.bundle 10) (SampleSchools.bundle 20) None None
              eq_refl eq_refl eq_refl eq_refl)
    as (_ & _ & _ & Hid & Htables & _).
  split; [exact Hid|]. subst stale issued. rewrite Htables. reflexivity.
Defined.

(** ** Lesson rows and the selected student *)

Section RowsInvariant.

Variable b : Backend.

Lemma call_keeps_rows (c : Call) (st : AppState) :
  rowsNeedStudent st = true -> rowsNeedStudent (call b c st) = true.
Proof.
  intros Hst. destruct c as [o|o|o|o|o|o|o]; cbn [call]; try exact Hst.
  - unfold handleSchoolSelection. destruct o as [n|]; [|reflexivity].
    destruct (Js.truthy_id (Some n)); [|reflexivity].
    destruct (accessDenied b st n); [exact Hst|].
    unfold rowsNeedStudent. now rewrite schoolFetched_entity.
  - unfold handleCohortSelection. destruct (Js.truthy_id o); [reflexivity|].
    now destruct (_ && _).
  - unfold handleStudentSelection, studentSelected.
    destruct o as [n|]; [|reflexivity].
    destruct (Js.truthy_id (Some n)) eqn:Hn; [|reflexivity].
    destruct (getIndividualStudentData b n) as [rows|message].
    + exact Hn.
    + unfold rowsNeedStudent. cbn.
      destruct (individualStudentData (entity st)); [exact Hn|reflexivity].
Qed.

Lemma rows_are_shown (st : AppState) (rows : list Lesson) :
  rowsNeedStudent st = true ->
  individualStudentData (entity st) = Some rows ->
  currentAggregate st
  = Some (metricsOf (filters st) (filteredData (filters st) rows)).
Proof.
  unfold rowsNeedStudent, currentAggregate, calculatedStudentMetrics.
  intros Hst Hrows. rewrite Hrows in *. now rewrite Hst.
Qed.

(** While every call runs to completion before the next one is issued,
    lesson rows are held only under a selected student. *)
Lemma sequential_calls_keep_rows (calls : list Call) (st0 : AppState) :
  rowsNeedStudent st0 = true ->
  Forall (fun st => rowsNeedStudent st = true) (run b calls st0).
Proof.
  revert st0. induction calls as [|c calls IH]; intros st0 Hst0; cbn [run].
  - constructor.
  - cbv zeta. pose proof (call_keeps_rows c st0 Hst0) as Hnext.
    constructor; [exact Hnext | exact (IH _ Hnext)].
Qed.

(** X23.  Lesson rows can be held while no student is selected: the
    continuation of [handleStudentSelection] stores the rows it receives
    without looking at the selection.  When a call that clears the student
    (a cohort or school selection, a deselection) is made while the fetch
    for a student is pending, the rows that arrive afterwards are held with
    no student selected; no metrics are computed from them, and the resolver
    answers with the aggregate row it answered with before they arrived. *)
Theorem late_rows_are_held_without_a_student :
  forall (st : AppState) (n : Z) (c : Call) (rows : list Lesson),
    Js.truthy_id (Some n) = true ->
    let pending := studentSelected (Some n) st in
    selectedStudentId (entity (call b c pending)) = None ->
    let st' := studentFetched (Resolved rows) (call b c pending) in
    selectedStudentId (entity pending) = Some n
    /\ selectedStudentId (entity st') = None
    /\ individualStudentData (entity st') = Some rows
    /\ rowsNeedStudent st' = false
    /\ calculatedStudentMetrics st' = None
    /\ currentAggregate st' = currentAggregate (call b c pending)
    /\ currentAggregate st'
       = match aggregateData (call b c pending) with
         | Some (data, title) => Some (formatAggregate data title)
         | None => None
         end.
Proof.
  intros st n c rows Hn pending Hcleared st'.
  assert (Hpending : selectedStudentId (entity pending) = Some n).
  { subst pending. unfold studentSelected. now rewrite Hn. }
  assert (Hstudent : selectedStudentId (entity st') = None) by exact Hcleared.
  assert (Hrows : individualStudentData (entity st') = Some rows)
    by reflexivity.
  assert (Hmetrics : calculatedStudentMetrics st' = None).
  { unfold calculatedStudentMetrics. now rewrite Hrows, Hstudent. }
  assert (Hbefore : calculatedStudentMetrics (call b c pending) = None).
  { unfold calculatedStudentMetrics. rewrite Hcleared.
    now destruct (individualStudentData (entity (call b c pending))). }
  assert (Hshown : currentAggregate st'
                   = match aggregateData (call b c pending) with
                     | Some (data, title) => Some (formatAggregate data title)
                     | None => None
                     end).
  { now rewrite (currentAggregate_without_metrics st' Hmetrics). }
  repeat (split; [assumption|]).
  split; [unfold rowsNeedStudent; now rewrite Hrows, Hstudent|].
  split; [exact Hmetrics|].
  split; [|exact Hshown].
  rewrite Hshown. symmetry.
  exact (currentAggregate_without_metrics _ Hbefore).
Qed.

End RowsInvariant.

Lemma late_rows_are_held_without_a_student_witness :
  let rows := [Sample.lesson 1 None 5 9 (Some "2024-01-01")] in
  let st' :=
    SampleRoute.loaded |> studentSelected (Some 7)
                       |> handleCohortSelection (Some 4)
                       |> studentFetched (Resolved rows) in
  selectedStudentId (entity st') = None
  /\ individualStudentData (entity st') = Some rows
  /\ currentAggregate st'
     = Some {| totalLessons := 30; totalCompleted := 2; requiredLessons := 1;
               requiredCompleted := 1; title := "Cohort: Faculty" |}.
Proof.
  intros rows st'.
  destruct (late_rows_are_held_without_a_student Sample.backend
              SampleRoute.loaded 7 (SelectCohort (Some 4)) rows
              eq_refl eq_refl)
    as (_ & Hstudent & Hrows & _ & _ & _ & Hshown).
  split; [exact Hstudent|]. split; [exact Hrows|].
  subst st'. cbn [call] in Hshown. rewrite Hshown. reflexivity.
Defined.
